(** * IntraNest conversational backend: session resolution and text analysis

    A shallow embedding of
    - [extract_session_from_request] and [chat_completions_with_streaming]
      (backend/api/chat.py),
    - [conversational_chat] (backend/api/conversational_chat.py),
    - [ConversationalTextProcessor.classify_intent] and
      [ConversationalTextProcessor.detect_topic_change]
      (backend/utils/conversational_text_processing.py),
    together with the parts of the Python runtime they rely on
    (string methods, [re.search], [hashlib.md5], [datetime.now], [uuid4]).

    Modelling conventions.
    - A Python [str] is a [string]; every character stands for the code
      point with the same number, so the texts covered are those whose code
      points lie below 256.  [str.encode()] is UTF-8; it accepts every such
      text, and raises only on lone surrogates, which lie outside.
    - A JSON-decoded value is a [pyval]; JSON numbers are integers.  The
      request body, read only through [get], is a [gmap]; the dicts nested in
      it keep their insertion order.
    - A Python call either returns or raises: [result].
    - The clock, the time zone and the random source are read from a
      [World]. *)

From Stdlib Require Import ZArith NArith QArith Lia Ascii String List Bool.
From stdpp Require Import base tactics option list strings gmap.

Local Open Scope string_scope.
Local Open Scope Z_scope.

(** ** Python string primitives *)

Module Str.

Definition code (c : ascii) : Z := Z.of_N (N_of_ascii c).

Definition chr (n : Z) : ascii := ascii_of_N (Z.to_N n).

Definition between (lo hi n : Z) : bool := (lo <=? n) && (n <=? hi).

(** [str.isspace] on a single code point below 256. *)
Definition isspace (c : ascii) : bool :=
  let n := code c in
  between 9 13 n || between 28 32 n || (n =? 133) || (n =? 160).

(** [str.isalnum] on a single code point below 256: letters, decimal digits
    and the numeric characters of Latin-1. *)
Definition isalnum (c : ascii) : bool :=
  let n := code c in
  between 48 57 n || between 65 90 n || between 97 122 n
  || (n =? 170) || (n =? 178) || (n =? 179) || (n =? 181) || (n =? 185)
  || (n =? 186) || between 188 190 n
  || between 192 214 n || between 216 246 n || between 248 255 n.

(** [str.lower] on a single code point below 256. *)
Definition lower_char (c : ascii) : ascii :=
  let n := code c in
  if between 65 90 n || (between 192 222 n && negb (n =? 215))
  then chr (n + 32) else c.

Fixpoint lower (s : string) : string :=
  match s with
  | EmptyString => EmptyString
  | String c s' => String (lower_char c) (lower s')
  end.

Definition is_empty (s : string) : bool :=
  match s with EmptyString => true | _ => false end.

Fixpoint lstrip (s : string) : string :=
  match s with
  | EmptyString => EmptyString
  | String c s' => if isspace c then lstrip s' else s
  end.

Fixpoint rstrip (s : string) : string :=
  match s with
  | EmptyString => EmptyString
  | String c s' =>
      let r := rstrip s' in
      if isspace c && is_empty r then EmptyString else String c r
  end.

(** [s.strip()] *)
Definition strip (s : string) : string := rstrip (lstrip s).

(** [len(s)] *)
Definition len (s : string) : Z := Z.of_nat (String.length s).

(** [s[:n]] for [n >= 0] *)
Fixpoint take (n : nat) (s : string) : string :=
  match n, s with
  | S n', String c s' => String c (take n' s')
  | _, _ => EmptyString
  end.

(** [needle in hay] *)
Fixpoint contains (needle hay : string) : bool :=
  String.prefix needle hay
  || match hay with
     | EmptyString => false
     | String _ hay' => contains needle hay'
     end.

(** [s.split()]: the maximal runs of non-whitespace characters. *)
Fixpoint split_go (s cur : string) : list string :=
  match s with
  | EmptyString => if is_empty cur then [] else [cur]
  | String c s' =>
      if isspace c
      then (if is_empty cur then split_go s' EmptyString
            else cur :: split_go s' EmptyString)
      else split_go s' (cur +:+ String c EmptyString)
  end.

Definition split (s : string) : list string := split_go s EmptyString.

(** [sep.join(parts)] *)
Fixpoint join (sep : string) (parts : list string) : string :=
  match parts with
  | [] => EmptyString
  | [p] => p
  | p :: rest => p +:+ sep +:+ join sep rest
  end.

Definition hex_digit (n : Z) : ascii :=
  if n <? 10 then chr (48 + n) else chr (87 + n).

(** ['%02x' % b] *)
Definition hex_byte (b : Z) : string :=
  String (hex_digit ((b / 16) mod 16)) (String (hex_digit (b mod 16)) EmptyString).

Definition is_hex_digit (c : ascii) : bool :=
  let n := code c in between 48 57 n || between 97 102 n.

Definition digit (n : Z) : ascii := chr (48 + n mod 10).

(** Decimal digits of a non-negative number, most significant first. *)
Fixpoint digits_fuel (fuel : nat) (n : Z) (acc : string) : string :=
  match fuel with
  | O => acc
  | S fuel' =>
      let acc' := String (digit n) acc in
      if n <? 10 then acc' else digits_fuel fuel' (n / 10) acc'
  end.

Definition digits (n : Z) : string :=
  digits_fuel (S (Z.to_nat (Z.log2 n))) n EmptyString.

(** [str(n)] for an [int] *)
Definition of_int (n : Z) : string :=
  if n <? 0 then String "-" (digits (- n)) else digits n.

(** ['%02d' % n] for [0 <= n < 100] *)
Definition two_digits (n : Z) : string :=
  String (digit (n / 10)) (String (digit n) EmptyString).

(** ['%04d' % n] for [0 <= n < 10000] *)
Definition four_digits (n : Z) : string :=
  String (digit (n / 1000)) (String (digit (n / 100)) (two_digits n)).

(** [s.encode()]: UTF-8, for code points below 256. *)
Fixpoint encode (s : string) : list Z :=
  match s with
  | EmptyString => []
  | String c s' =>
      let n := code c in
      if n <? 128 then n :: encode s'
      else Z.lor 192 (Z.shiftr n 6) :: Z.lor 128 (Z.land n 63) :: encode s'
  end.

End Str.

(** ** [hashlib.md5] (RFC 1321) *)

Module MD5.

Definition wrap (x : Z) : Z := x mod 2 ^ 32.

Definition rotl (x s : Z) : Z :=
  Z.lor (wrap (Z.shiftl x s)) (Z.shiftr x (32 - s)).

Definition not32 (x : Z) : Z := Z.lxor x (2 ^ 32 - 1).

Definition K : list Z :=
  [ 0xd76aa478; 0xe8c7b756; 0x242070db; 0xc1bdceee; 0xf57c0faf; 0x4787c62a;
    0xa8304613; 0xfd469501; 0x698098d8; 0x8b44f7af; 0xffff5bb1; 0x895cd7be;
    0x6b901122; 0xfd987193; 0xa679438e; 0x49b40821; 0xf61e2562; 0xc040b340;
    0x265e5a51; 0xe9b6c7aa; 0xd62f105d; 0x02441453; 0xd8a1e681; 0xe7d3fbc8;
    0x21e1cde6; 0xc33707d6; 0xf4d50d87; 0x455a14ed; 0xa9e3e905; 0xfcefa3f8;
    0x676f02d9; 0x8d2a4c8a; 0xfffa3942; 0x8771f681; 0x6d9d6122; 0xfde5380c;
    0xa4beea44; 0x4bdecfa9; 0xf6bb4b60; 0xbebfbc70; 0x289b7ec6; 0xeaa127fa;
    0xd4ef3085; 0x04881d05; 0xd9d4d039; 0xe6db99e5; 0x1fa27cf8; 0xc4ac5665;
    0xf4292244; 0x432aff97; 0xab9423a7; 0xfc93a039; 0x655b59c3; 0x8f0ccc92;
    0xffeff47d; 0x85845dd1; 0x6fa87e4f; 0xfe2ce6e0; 0xa3014314; 0x4e0811a1;
    0xf7537e82; 0xbd3af235; 0x2ad7d2bb; 0xeb86d391 ].

Definition shifts : list Z :=
  [ 7; 12; 17; 22; 7; 12; 17; 22; 7; 12; 17; 22; 7; 12; 17; 22;
    5; 9; 14; 20; 5; 9; 14; 20; 5; 9; 14; 20; 5; 9; 14; 20;
    4; 11; 16; 23; 4; 11; 16; 23; 4; 11; 16; 23; 4; 11; 16; 23;
    6; 10; 15; 21; 6; 10; 15; 21; 6; 10; 15; 21; 6; 10; 15; 21 ].

Definition state : Type := Z * Z * Z * Z.

Definition init : state := (0x67452301, 0xefcdab89, 0x98badcfe, 0x10325476).

Definition nth_word (l : list Z) (i : Z) : Z := nth (Z.to_nat i) l 0.

(** One of the 64 operations of a block. *)
Definition step (M : list Z) (st : state) (i : Z) : state :=
  let '(a, b, c, d) := st in
  let '(f, g) :=
    if i <? 16 then (Z.lor (Z.land b c) (Z.land (not32 b) d), i)
    else if i <? 32 then (Z.lor (Z.land d b) (Z.land (not32 d) c), (5 * i + 1) mod 16)
    else if i <? 48 then (Z.lxor b (Z.lxor c d), (3 * i + 5) mod 16)
    else (Z.lxor c (Z.lor b (not32 d)), (7 * i) mod 16) in
  let f' := wrap (f + a + nth_word K i + nth_word M g) in
  (d, wrap (b + rotl f' (nth_word shifts i)), b, c).

Definition word_of_bytes (bs : list Z) : Z :=
  nth_word bs 0 + Z.shiftl (nth_word bs 1) 8
  + Z.shiftl (nth_word bs 2) 16 + Z.shiftl (nth_word bs 3) 24.

Fixpoint words (n : nat) (bs : list Z) : list Z :=
  match n with
  | O => []
  | S n' => word_of_bytes (firstn 4 bs) :: words n' (skipn 4 bs)
  end.

Definition block (st : state) (bs : list Z) : state :=
  let M := words 16 bs in
  let '(a, b, c, d) := st in
  let '(a', b', c', d') := fold_left (step M) (map Z.of_nat (seq 0 64)) st in
  (wrap (a + a'), wrap (b + b'), wrap (c + c'), wrap (d + d')).

Definition le_bytes (n : nat) (x : Z) : list Z :=
  map (fun k => Z.shiftr x (8 * Z.of_nat k) mod 256) (seq 0 n).

Definition pad (msg : list Z) : list Z :=
  let l := Z.of_nat (length msg) in
  msg ++ [128] ++ repeat 0 (Z.to_nat ((55 - l) mod 64))
      ++ le_bytes 8 ((8 * l) mod 2 ^ 64).

Fixpoint blocks (n : nat) (st : state) (bs : list Z) : state :=
  match n with
  | O => st
  | S n' => blocks n' (block st (firstn 64 bs)) (skipn 64 bs)
  end.

Definition digest (msg : list Z) : list Z :=
  let p := pad msg in
  let '(a, b, c, d) := blocks (length p / 64)%nat init p in
  le_bytes 4 a ++ le_bytes 4 b ++ le_bytes 4 c ++ le_bytes 4 d.

(** [hashlib.md5(msg).hexdigest()] *)
Definition hexdigest (msg : list Z) : string :=
  fold_right (fun b acc => Str.hex_byte b +:+ acc) EmptyString (digest msg).

End MD5.

(** ** Python values, exceptions, the environment *)

(** A value decoded from a JSON request body. *)
#[warnings="-register-all"]
Inductive pyval : Type :=
  | PNone
  | PBool (b : bool)
  | PInt (z : Z)
  | PStr (s : string)
  | PList (l : list pyval)
  | PDict (d : list (string * pyval)).

(** [bool(v)] *)
Definition truthy (v : pyval) : bool :=
  match v with
  | PNone => false
  | PBool b => b
  | PInt z => negb (z =? 0)
  | PStr s => negb (Str.is_empty s)
  | PList l => match l with [] => false | _ => true end
  | PDict d => match d with [] => false | _ => true end
  end.

(** [a or b] *)
Definition py_or (a b : pyval) : pyval := if truthy a then a else b.

(** [v == s] for a string literal [s] *)
Definition is_str (v : pyval) (s : string) : bool :=
  match v with
  | PStr s' => String.eqb s' s
  | _ => false
  end.

Module Repr.

Definition dquote : ascii := "034"%char.
Definition squote : ascii := "039"%char.
Definition backslash : ascii := "092"%char.

Definition has_char (c : ascii) (s : string) : bool :=
  Str.contains (String c EmptyString) s.

Definition printable (c : ascii) : bool :=
  let n := Str.code c in
  Str.between 32 126 n || Str.between 161 172 n || Str.between 174 255 n.

Definition repr_char (quote c : ascii) : string :=
  let n := Str.code c in
  if Ascii.eqb c quote || Ascii.eqb c backslash
  then String backslash (String c EmptyString)
  else if n =? 9 then String backslash "t"
  else if n =? 10 then String backslash "n"
  else if n =? 13 then String backslash "r"
  else if printable c then String c EmptyString
  else String backslash (String "x" (Str.hex_byte n)).

Fixpoint escape (quote : ascii) (s : string) : string :=
  match s with
  | EmptyString => EmptyString
  | String c s' => repr_char quote c +:+ escape quote s'
  end.

(** [repr(s)] for a [str] *)
Definition of_string (s : string) : string :=
  let quote :=
    if has_char squote s && negb (has_char dquote s) then dquote else squote in
  String quote (escape quote s +:+ String quote EmptyString).

(** [repr(v)] *)
Fixpoint of_val (v : pyval) : string :=
  match v with
  | PNone => "None"
  | PBool true => "True"
  | PBool false => "False"
  | PInt z => Str.of_int z
  | PStr s => of_string s
  | PList l => "[" +:+ Str.join ", " (map of_val l) +:+ "]"
  | PDict d =>
      "{" +:+ Str.join ", " (map (fun kv => of_string (fst kv) +:+ ": " +:+ of_val (snd kv)) d)
          +:+ "}"
  end.

End Repr.

(** [str(v)], the text an f-string substitutes for [{v}] *)
Definition py_str (v : pyval) : string :=
  match v with
  | PStr s => s
  | _ => Repr.of_val v
  end.

Inductive exn : Type :=
  | AttributeError (msg : string)
  | TypeError (msg : string)
  | HTTPException (status_code : Z) (detail : string)
  | ServiceError (msg : string).

(** [str(e)] *)
Definition exn_str (e : exn) : string :=
  match e with
  | AttributeError m | TypeError m | ServiceError m => m
  | HTTPException c d => Str.of_int c +:+ ": " +:+ d
  end.

Inductive result (A : Type) : Type :=
  | Ok (a : A)
  | Raise (e : exn).
Arguments Ok {A} a.
Arguments Raise {A} e.

(** Sequencing: a raised exception skips the rest. *)
#[global] Instance result_bind : MBind result := fun A B k m =>
  match m with
  | Ok a => k a
  | Raise e => Raise e
  end.

#[global] Instance result_ret : MRet result := fun A a => Ok a.

(** [try: body  except Exception as e: handler(e)] *)
Definition try_except {A : Type} (body : result A) (handler : exn -> result A) : result A :=
  match body with
  | Ok a => Ok a
  | Raise e => handler e
  end.

(** What one call reads from its surroundings: the instant (whole seconds
    since the epoch, UTC), the offset of the server's local time zone from UTC
    in seconds, and the 128 bits [uuid.uuid4()] draws. *)
Record World : Type := {
  epoch_seconds : Z;
  utc_offset : Z;
  uuid4 : Z
}.

Record datetime : Type := {
  year : Z; month : Z; day : Z; hour : Z; minute : Z; second : Z
}.

(** Proleptic Gregorian date of a day number counted from 1970-01-01. *)
Definition civil_from_days (days : Z) : Z * Z * Z :=
  let z := days + 719468 in
  let era := z / 146097 in
  let doe := z - era * 146097 in
  let yoe := (doe - doe / 1460 + doe / 36524 - doe / 146096) / 365 in
  let doy := doe - (365 * yoe + yoe / 4 - yoe / 100) in
  let mp := (5 * doy + 2) / 153 in
  let d := doy - (153 * mp + 2) / 5 + 1 in
  let m := if mp <? 10 then mp + 3 else mp - 9 in
  (yoe + era * 400 + (if m <=? 2 then 1 else 0), m, d).

(** The whole hours elapsed on the local wall clock. *)
Definition local_hours (w : World) : Z := (epoch_seconds w + utc_offset w) / 3600.

(** The whole hours elapsed in UTC. *)
Definition utc_hours (w : World) : Z := epoch_seconds w / 3600.

(** [datetime.now()]: the naive local wall-clock reading. *)
Definition datetime_now (w : World) : datetime :=
  let t := epoch_seconds w + utc_offset w in
  let '(y, m, d) := civil_from_days (local_hours w / 24) in
  {| year := y; month := m; day := d;
     hour := local_hours w mod 24;
     minute := (t / 60) mod 60;
     second := t mod 60 |}.

(** [dt.strftime('%Y%m%d_%H')], for the years 1000 to 9999, where [%Y] prints
    four digits. *)
Definition strftime_hour (dt : datetime) : string :=
  Str.four_digits (year dt) +:+ Str.two_digits (month dt)
  +:+ Str.two_digits (day dt) +:+ "_" +:+ Str.two_digits (hour dt).

(** [int(datetime.now().timestamp())] *)
Definition now_timestamp (w : World) : Z := epoch_seconds w.

(** [uuid.uuid4().int]: [UUID(bytes=os.urandom(16), version=4)] sets the two
    variant bits of the draw to 10 and its four version bits to 4. *)
Definition uuid4_int (w : World) : Z :=
  let int := uuid4 w mod 2 ^ 128 in
  let int := Z.land int (Z.lnot (Z.shiftl 0xc000 48)) in
  let int := Z.lor int (Z.shiftl 0x8000 48) in
  let int := Z.land int (Z.lnot (Z.shiftl 0xf000 64)) in
  Z.lor int (Z.shiftl 4 76).

(** [uuid.uuid4().hex]: 32 hexadecimal digits. *)
Definition uuid4_hex (w : World) : string :=
  fold_right (fun k acc => Str.hex_byte (Z.shiftr (uuid4_int w) (8 * Z.of_nat k) mod 256) +:+ acc)
             EmptyString (rev (seq 0 16)).

(** ** Session resolution: [extract_session_from_request] (api/chat.py) *)

(** [d.get(k)] and [d.get(k, dflt)] on the request body *)
Definition get (d : gmap string pyval) (k : string) : pyval :=
  default PNone (d !! k).

Definition get_or (d : gmap string pyval) (k : string) (dflt : pyval) : pyval :=
  default dflt (d !! k).

(** [msg.get(k, dflt)] on a message, a dict kept in insertion order *)
Fixpoint item_get (d : list (string * pyval)) (k : string) (dflt : pyval) : pyval :=
  match d with
  | [] => dflt
  | (k', v) :: d' => if String.eqb k' k then v else item_get d' k dflt
  end.

Definition chars (s : string) : list pyval :=
  map (fun c => PStr (String c EmptyString)) (list_ascii_of_string s).

(** The items a [for] loop over [v] visits. *)
Definition iterate (v : pyval) : result (list pyval) :=
  match v with
  | PList l => Ok l
  | PStr s => Ok (chars s)
  | PDict d => Ok (map (fun kv => PStr (fst kv)) d)
  | PNone => Raise (TypeError "'NoneType' object is not iterable")
  | PBool _ => Raise (TypeError "'bool' object is not iterable")
  | PInt _ => Raise (TypeError "'int' object is not iterable")
  end.

(** [content.strip()] *)
Definition strip_method (content : pyval) : result string :=
  match content with
  | PStr s => Ok (Str.strip s)
  | _ => Raise (AttributeError "object has no attribute 'strip'")
  end.

(** [content[:200]], on a value that has passed [strip_method] *)
Definition first_200 (content : pyval) : string :=
  match content with
  | PStr s => Str.take 200 s
  | _ => EmptyString
  end.

(** The loop of method 3: the conversation essence, [""] when no message
    qualifies. *)
Fixpoint conversation_essence (messages : list pyval) : result string :=
  match messages with
  | [] => Ok EmptyString
  | PDict msg :: rest =>
      let role := item_get msg "role" (PStr "") in
      let content := item_get msg "content" (PStr "") in
      if is_str role "user" && truthy content then
        stripped ← strip_method content;
        if 10 <? Str.len stripped then Ok (first_200 content)
        else conversation_essence rest
      else conversation_essence rest
  | _ :: rest => conversation_essence rest
  end.

(** [hashlib.md5(text.encode()).hexdigest()[:8]] *)
Definition hash8 (text : string) : string :=
  Str.take 8 (MD5.hexdigest (Str.encode text)).

Definition falsy_header (h : option string) : bool :=
  match h with
  | None => true
  | Some v => Str.is_empty v
  end.

(** The loop of method 4 over the headers in order. *)
Fixpoint scan_headers (headers : list (string * string))
    (header_session header_user : option string) : option string * option string :=
  match headers with
  | [] => (header_session, header_user)
  | (header_name, header_value) :: rest =>
      let header_lower := Str.lower header_name in
      if Str.contains "session" header_lower && falsy_header header_session
      then scan_headers rest (Some header_value) header_user
      else if Str.contains "user" header_lower && falsy_header header_user
      then scan_headers rest header_session (Some header_value)
      else scan_headers rest header_session header_user
  end.

Definition header_val (h : option string) : pyval :=
  match h with
  | None => PNone
  | Some v => PStr v
  end.

(** Methods 5 and 6. *)
Definition continuity_or_new (request_data : gmap string pyval) (w : World)
    : result (pyval * pyval * bool) :=
  let user_from_request := get_or request_data "user" (PStr "anonymous") in
  if negb (is_str user_from_request "anonymous") then
    let current_hour := strftime_hour (datetime_now w) in
    let session_id := "flow_" +:+ py_str user_from_request +:+ "_" +:+ current_hour in
    Ok (PStr session_id, user_from_request, true)
  else
    let timestamp := now_timestamp w in
    let session_id :=
      "auto_" +:+ Str.of_int timestamp +:+ "_" +:+ Str.take 8 (uuid4_hex w) in
    let user_id :=
      if negb (is_str user_from_request "anonymous") then user_from_request
      else PStr "anonymous" in
    Ok (PStr session_id, user_id, true).

(** Methods 4 to 6. *)
Definition headers_or_later (request_data : gmap string pyval)
    (headers : option (list (string * string))) (user_id : pyval) (w : World)
    : result (pyval * pyval * bool) :=
  match headers with
  | Some ((_ :: _) as hs) =>
      let '(header_session, header_user) := scan_headers hs None None in
      if truthy (header_val header_session)
      then Ok (header_val header_session, py_or (header_val header_user) user_id, true)
      else continuity_or_new request_data w
  | _ => continuity_or_new request_data w
  end.

(** The body of method 3, entered when [messages] and [user_field] are both
    truthy. *)
Definition conversation_intelligence (messages user_field : pyval) (w : World)
    : result (pyval * pyval * bool) :=
  items ← iterate messages;
  conversation_essence ← conversation_essence items;
  if negb (Str.is_empty conversation_essence) then
    let conversation_hash :=
      hash8 (py_str user_field +:+ "_" +:+ conversation_essence) in
    let session_id := "conv_" +:+ py_str user_field +:+ "_" +:+ conversation_hash in
    Ok (PStr session_id, user_field, true)
  else
    let timestamp_hour := strftime_hour (datetime_now w) in
    let session_id := "user_" +:+ py_str user_field +:+ "_" +:+ timestamp_hour in
    Ok (PStr session_id, user_field, true).

(** Returns [(session_id, user_id, is_librechat_request)]. *)
Definition extract_session_from_request (request_data : gmap string pyval)
    (headers : option (list (string * string))) (w : World)
    : result (pyval * pyval * bool) :=
  (* Method 1 *)
  let session_id := get request_data "session_id" in
  let user_id := get_or request_data "user_id" (PStr "anonymous") in
  if truthy session_id then Ok (session_id, user_id, false) else
  (* Method 2 *)
  let session_id :=
    py_or (py_or (get request_data "sessionId") (get request_data "conversation_id"))
          (get request_data "conversationId") in
  let user_id :=
    py_or (py_or (py_or (get request_data "userId") (get request_data "user_id"))
                 (get request_data "user"))
          (PStr "anonymous") in
  if truthy session_id then Ok (session_id, user_id, true) else
  (* Method 3 *)
  let messages := get_or request_data "messages" (PList []) in
  let user_field := get request_data "user" in
  if truthy messages && truthy user_field
  then conversation_intelligence messages user_field w
  else
  (* Methods 4, 5, 6 *)
  headers_or_later request_data headers user_id w.

Definition user_message (content : string) : pyval :=
  PDict [("role", PStr "user"); ("content", PStr content)].

(** ** [re.search] for the pattern syntax the text processor uses *)

Module Re.

Inductive atom : Type :=
  | Lit (c : ascii)      (* a literal character, possibly written escaped *)
  | WordB                (* \b *)
  | DotStar              (* .* *)
  | Opt (c : ascii).     (* c? *)

(** Reads a pattern written with literals, [\b], [.*], [c?] and escaped
    literals. *)
Fixpoint compile (p : string) : list atom :=
  match p with
  | EmptyString => []
  | String c rest =>
      match rest with
      | String c' rest' =>
          if Ascii.eqb c Repr.backslash then
            (if Ascii.eqb c' "b" then WordB else Lit c') :: compile rest'
          else if Ascii.eqb c "." && Ascii.eqb c' "*" then DotStar :: compile rest'
          else if Ascii.eqb c' "?" then Opt c :: compile rest'
          else Lit c :: compile rest
      | EmptyString => [Lit c]
      end
  end.

(** [\w] *)
Definition is_word (c : ascii) : bool := Str.isalnum c || Ascii.eqb c "_".

Definition word_before (prev : option ascii) : bool :=
  match prev with Some c => is_word c | None => false end.

Definition word_after (s : string) : bool :=
  match s with String c _ => is_word c | EmptyString => false end.

(** [\b] holds between a word character and a non-word character or an end
    of the text. *)
Definition at_boundary (prev : option ascii) (s : string) : bool :=
  xorb (word_before prev) (word_after s).

Definition newline : ascii := "010"%char.

(** Does the pattern match at the start of [s], the character before it
    being [prev]? *)
Fixpoint match_here (p : list atom) : option ascii -> string -> bool :=
  match p with
  | [] => fun _ _ => true
  | Lit c :: p' => fun _ s =>
      match s with
      | String c' s' => Ascii.eqb c c' && match_here p' (Some c') s'
      | EmptyString => false
      end
  | WordB :: p' => fun prev s => at_boundary prev s && match_here p' prev s
  | DotStar :: p' =>
      fix star (prev : option ascii) (s : string) : bool :=
        match_here p' prev s
        || match s with
           | String c s' => negb (Ascii.eqb c newline) && star (Some c) s'
           | EmptyString => false
           end
  | Opt c :: p' => fun prev s =>
      match s with
      | String c' s' => Ascii.eqb c c' && match_here p' (Some c') s'
      | EmptyString => false
      end
      || match_here p' prev s
  end.

Fixpoint search_from (p : list atom) (prev : option ascii) (s : string) : bool :=
  match_here p prev s
  || match s with
     | String c s' => search_from p (Some c) s'
     | EmptyString => false
     end.

(** [re.search(pattern, text)] is not [None] *)
Definition search (pattern text : string) : bool :=
  search_from (compile pattern) None text.

End Re.

(** ** The text processor (utils/conversational_text_processing.py) *)

Inductive ConversationIntent : Type :=
  | DEFINITION | EXPLANATION | IMPROVEMENT | EXPANSION
  | SUMMARIZATION | CLARIFICATION | GENERAL.

(** [self.intent_patterns], in insertion order. *)
Definition intent_patterns : list (ConversationIntent * list string) :=
  [ (DEFINITION,
      ["\bwhat is\b"; "\bdefine\b"; "\bexplain\b"; "\bmean\b";
       "\bdefinition of\b"; "\bwhat does.*mean\b"]);
    (IMPROVEMENT,
      ["\bhow.*improve\b"; "\bways to.*better\b"; "\benhance\b";
       "\boptimize\b"; "\bbetter\b"; "\bupgrade\b"]);
    (EXPANSION,
      ["\bexpand on\b"; "\bmore about\b"; "\btell me more\b";
       "\belaborate\b"; "\bdetails\b"; "\bin depth\b"]);
    (EXPLANATION,
      ["\bhow does\b"; "\bwhy\b"; "\bhow to\b"; "\bprocess\b";
       "\bwork\b"; "\bfunction\b"; "\boperate\b"]);
    (SUMMARIZATION,
      ["\bsummarize\b"; "\bsummary\b"; "\boverview\b";
       "\bmain points\b"; "\bkey.*points\b"]) ].

(** The inner loop: does some pattern of the group match? *)
Fixpoint any_pattern (patterns : list string) (text_lower : string) : bool :=
  match patterns with
  | [] => false
  | pattern :: rest =>
      if Re.search pattern text_lower then true else any_pattern rest text_lower
  end.

(** The outer loop: the intent of the first group that has a match. *)
Fixpoint rule_based (table : list (ConversationIntent * list string))
    (text_lower : string) : option ConversationIntent :=
  match table with
  | [] => None
  | (intent, patterns) :: rest =>
      if any_pattern patterns text_lower then Some intent
      else rule_based rest text_lower
  end.

Definition nl : string := String Re.newline EmptyString.
Definition dq : string := String Repr.dquote EmptyString.

Definition classification_prompt (text : string) : string :=
  "Classify the intent of this user message:" +:+ nl +:+ nl
  +:+ dq +:+ text +:+ dq +:+ nl +:+ nl
  +:+ "Choose from these categories:" +:+ nl
  +:+ "- definition: asking what something is or means" +:+ nl
  +:+ "- improvement: asking how to make something better" +:+ nl
  +:+ "- expansion: asking for more details or elaboration  " +:+ nl
  +:+ "- explanation: asking how something works or why" +:+ nl
  +:+ "- summarization: asking for a summary or overview" +:+ nl
  +:+ "- clarification: asking for clarification" +:+ nl
  +:+ "- general: general conversation or other" +:+ nl +:+ nl
  +:+ "Return only the category name:".

(** [intent_mapping.get(result, ConversationIntent.GENERAL)] *)
Definition intent_mapping (result : string) : ConversationIntent :=
  if String.eqb result "definition" then DEFINITION
  else if String.eqb result "improvement" then IMPROVEMENT
  else if String.eqb result "expansion" then EXPANSION
  else if String.eqb result "explanation" then EXPLANATION
  else if String.eqb result "summarization" then SUMMARIZATION
  else if String.eqb result "clarification" then CLARIFICATION
  else GENERAL.

Section TextProcessor.

(** The chat-completion client: the content of the first choice for a
    prompt, or the failure of the call. *)
Variable openai : string -> result string.

(** Returns the intent and the prompts sent to the model, oldest first. *)
Definition classify_intent (text : string) : ConversationIntent * list string :=
  let text_lower := Str.lower text in
  match rule_based intent_patterns text_lower with
  | Some intent => (intent, [])
  | None =>
      let prompt := classification_prompt text in
      match openai prompt with
      | Ok content => (intent_mapping (Str.lower (Str.strip content)), [prompt])
      | Raise _ => (GENERAL, [prompt])
      end
  end.

End TextProcessor.

Definition change_indicators : list string :=
  [ "\blet\'s talk about\b"; "\bchanging topics?\b"; "\bmove on to\b";
    "\bnext topic\b"; "\bdifferent question\b"; "\banother topic\b" ].

(** [sum(1 for word in topic_words if word in current_lower)] *)
Definition topic_matches (topic_words : list string) (current_lower : string) : Z :=
  Z.of_nat (length (filter (fun word => Str.contains word current_lower = true) topic_words)).

(** [matches / count < 0.3] for [int]s with [0 <= matches] and [0 < count].
    The quotient is rounded to the nearest double, and [0.3] denotes the
    double 5404319552844595 / 2^54, whose significand is odd; the rounded
    quotient lies below it exactly when the exact quotient is at most
    10808639105689189 / 2^55, the midpoint between that double and the one
    before it. *)
Definition below_0_3 (matches count : Z) : bool :=
  matches * 2 ^ 55 <=? 10808639105689189 * count.

Definition detect_topic_change (current_message : string) (previous_topic : option string)
    : bool :=
  match previous_topic with
  | None => false
  | Some topic =>
      if Str.is_empty topic then false else
      let current_lower := Str.lower current_message in
      let previous_lower := Str.lower topic in
      if any_pattern change_indicators current_lower then true else
      let topic_words := Str.split previous_lower in
      let matches := topic_matches topic_words current_lower in
      let count := Z.of_nat (length topic_words) in
      if (0 <? count) && below_0_3 matches count
      then true else false
  end.

(** ** The chat completions handler (api/chat.py) *)

Record context : Type := {
  turn_count : Z;
  user_messages : list pyval;
  topics : list string;
  conversation_type : string
}.

(** [content.lower()] *)
Definition lower_method (content : pyval) : result string :=
  match content with
  | PStr s => Ok (Str.lower s)
  | _ => Raise (AttributeError "object has no attribute 'lower'")
  end.

Definition any_word (words : list string) (text : string) : bool :=
  existsb (fun word => Str.contains word text) words.

(** The loop of [analyze_conversation_context]. *)
Fixpoint analyze_loop (messages : list pyval) (ctx : context) : result context :=
  match messages with
  | [] => Ok ctx
  | PDict msg :: rest =>
      let role := item_get msg "role" (PStr "") in
      let content := item_get msg "content" (PStr "") in
      if is_str role "user" then
        lowered ← lower_method content;
        let tcs := if any_word ["tcs"; "transit"; "cyber"; "security"] lowered
                   then ["TCS"] else [] in
        let ai := if any_word ["ai"; "artificial"; "intelligence"; "improve"] lowered
                  then ["AI"] else [] in
        analyze_loop rest
          {| turn_count := turn_count ctx + 1;
             user_messages := user_messages ctx ++ [content];
             topics := topics ctx ++ tcs ++ ai;
             conversation_type := conversation_type ctx |}
      else analyze_loop rest ctx
  | _ :: rest => analyze_loop rest ctx
  end.

Definition analyze_conversation_context (messages : pyval) : result context :=
  let ctx := {| turn_count := 0; user_messages := []; topics := [];
                conversation_type := "unknown" |} in
  if negb (truthy messages) then Ok ctx else
  items ← iterate messages;
  ctx ← analyze_loop items ctx;
  Ok {| turn_count := turn_count ctx;
        user_messages := user_messages ctx;
        topics := topics ctx;
        conversation_type :=
          if turn_count ctx =? 1 then "initial"
          else if 1 <? turn_count ctx then "continuation"
          else conversation_type ctx |}.

(** The loop over [reversed(messages)] that picks the latest user message. *)
Fixpoint latest_user_message (reversed_messages : list pyval) : result pyval :=
  match reversed_messages with
  | [] => Ok (PStr "Hello")
  | PDict msg :: rest =>
      if is_str (item_get msg "role" PNone) "user" && truthy (item_get msg "content" PNone)
      then Ok (item_get msg "content" PNone)
      else latest_user_message rest
  | _ :: _ => Raise (AttributeError "object has no attribute 'get'")
  end.

(** [user_message[:100]], evaluated for the log line. *)
Definition slice_100 (user_message : pyval) : result unit :=
  match user_message with
  | PStr _ | PList _ => Ok tt
  | _ => Raise (TypeError "object is not subscriptable")
  end.

(** [user_message + response_content] with a [str] on the right. *)
Definition concat_str (user_message : pyval) (response_content : string) : result string :=
  match user_message with
  | PStr s => Ok (s +:+ response_content)
  | _ => Raise (TypeError "can only concatenate str to str")
  end.

(** [len(v)] of a sliceable value. *)
Definition py_len (v : pyval) : Z :=
  match v with
  | PStr s => Str.len s
  | PList l => Z.of_nat (length l)
  | _ => 0
  end.

(** The JSON object a completion request is answered with. *)
Record completion : Type := {
  id : string;
  object : string;
  created : Z;
  model : pyval;
  role : string;
  content : string;
  finish_reason : string;
  usage : Z * Z * Z;
  session_id : option pyval;
  error : option (string * string)
}.

Inductive http_response : Type :=
  | Json (body : completion)
  | StreamingResponse (response_content : string) (model : pyval) (x_session_id : string).

Definition apology : string :=
  "I apologize, but I encountered an error processing your request. Please try again.".

Definition unavailable : string :=
  "I apologize, but the response service is not available. Please try again later.".

Section ChatCompletions.

(** [CONVERSATIONAL_RAG_AVAILABLE] *)
Variable CONVERSATIONAL_RAG_AVAILABLE : bool.

(** [process_conversational_query(query, user_id, session_id)["response"]] on
    the service [get_conversational_rag_service()] yields. *)
Variable conversational_rag : pyval -> pyval -> pyval -> result string.

(** [get_response_generator()] and its [generate_professional_response]. *)
Variable response_generator : option (pyval -> pyval -> pyval -> result string).

(** The most common non-anonymous [user_id] among the recent documents, when
    the vector store answers. *)
Variable recent_user : result (option string).

Definition generate_intranest_content (user_message user_id model : pyval) : result string :=
  match response_generator with
  | Some generate_professional_response =>
      generate_professional_response user_message user_id model
  | None => Ok unavailable
  end.

Definition generate_conversational_content
    (user_message user_id session_id model : pyval) (w : World) : result string :=
  if negb CONVERSATIONAL_RAG_AVAILABLE
  then generate_intranest_content user_message user_id model
  else
    try_except
      (let session_id :=
         if negb (truthy session_id)
         then PStr ("session_" +:+ Str.of_int (now_timestamp w) +:+ "_"
                    +:+ Str.take 8 (uuid4_hex w))
         else session_id in
       conversational_rag user_message user_id session_id)
      (fun _ => generate_intranest_content user_message user_id model).

Definition auto_detect_user_id : string :=
  match recent_user with
  | Ok (Some detected_user_id) => detected_user_id
  | _ => "anonymous"
  end.

(** The body of the handler's [try]. *)
Definition completions_body (request_data : gmap string pyval)
    (headers : list (string * string)) (w : World) : result http_response :=
  extracted ← extract_session_from_request request_data (Some headers) w;
  let '(session_id, extracted_user_id, is_librechat) :=
    (extracted : pyval * pyval * bool) in
  let messages := get_or request_data "messages" (PList []) in
  let model := get_or request_data "model" (PStr "IntraNest-AI") in
  let stream := get_or request_data "stream" (PBool false) in
  let user_id := get_or request_data "user_id" extracted_user_id in
  conversation_context ← analyze_conversation_context messages;
  let user_id :=
    if is_str user_id "anonymous" && negb (String.eqb auto_detect_user_id "anonymous")
    then PStr auto_detect_user_id else user_id in
  let messages := if negb (truthy messages) then PList [user_message "Hello"] else messages in
  items ← iterate messages;
  user_message ← latest_user_message (rev items);
  let client_type := if is_librechat then "LibreChat" else "Direct API" in
  _ ← slice_100 user_message;
  response_content ←
    (if CONVERSATIONAL_RAG_AVAILABLE
     then generate_conversational_content user_message user_id session_id model w
     else generate_intranest_content user_message user_id model);
  if truthy stream then
    match session_id with
    | PStr sid => Ok (StreamingResponse response_content model sid)
    | _ => Raise (AttributeError "object has no attribute 'encode'")
    end
  else
    both ← concat_str user_message response_content;
    Ok (Json
      {| id := "chatcmpl-" +:+ Str.of_int (now_timestamp w) +:+ "-"
               +:+ Str.take 8 (uuid4_hex w);
         object := "chat.completion";
         created := now_timestamp w;
         model := model;
         role := "assistant";
         content := response_content;
         finish_reason := "stop";
         usage := (Z.max 1 (py_len user_message / 4),
                   Z.max 1 (Str.len response_content / 4),
                   Z.max 2 (Str.len both / 4));
         session_id := Some session_id;
         error := None |}).

(** The [except Exception] branch. *)
Definition completions_error (w : World) : http_response :=
  Json
    {| id := "chatcmpl-error-" +:+ Str.of_int (now_timestamp w);
       object := "chat.completion";
       created := now_timestamp w;
       model := PStr "IntraNest-AI";
       role := "assistant";
       content := apology;
       finish_reason := "stop";
       usage := (1, 25, 26);
       session_id := None;
       error := Some ("internal_error", "Request processing failed") |}.

Definition chat_completions_with_streaming (request_data : gmap string pyval)
    (headers : list (string * string)) (w : World) : result http_response :=
  try_except (completions_body request_data headers w)
             (fun _ => Ok (completions_error w)).

End ChatCompletions.

(** ** The conversational endpoint (api/conversational_chat.py) *)

Record ConversationalChatRequest : Type := {
  message : string;
  req_session_id : option string;
  req_user_id : string;
  req_stream : bool
}.

Record ConversationalChatResponse : Type := {
  response : string;
  resp_session_id : string;
  metadata : pyval
}.

(** What [process_conversational_query] returns, by its ["type"]. *)
Inductive rag_result : Type :=
  | RagError (err : string)
  | RagStream
  | RagResponse (text : string) (meta : pyval).

(** [str(uuid.uuid4())] *)
Definition uuid4_str (w : World) : string :=
  let h := uuid4_hex w in
  Str.take 8 h +:+ "-" +:+ String.substring 8 4 h +:+ "-" +:+ String.substring 12 4 h
  +:+ "-" +:+ String.substring 16 4 h +:+ "-" +:+ String.substring 20 12 h.

Section ConversationalChat.

(** [rag_service.process_conversational_query(user_id, session_id, query, stream)] *)
Variable process_conversational_query : string -> string -> string -> bool -> result rag_result.

Definition conversational_chat (request : ConversationalChatRequest) (w : World)
    : result ConversationalChatResponse :=
  try_except
    (let session_id :=
       match req_session_id request with
       | Some sid => if Str.is_empty sid then uuid4_str w else sid
       | None => uuid4_str w
       end in
     result ← process_conversational_query
                (req_user_id request) session_id (message request) (req_stream request);
     match result with
     | RagError err => Raise (HTTPException 500 err)
     | RagStream =>
         Raise (HTTPException 400 "Use /chat/conversational/stream for streaming responses")
     | RagResponse text meta =>
         Ok {| response := text; resp_session_id := session_id; metadata := meta |}
     end)
    (fun e => Raise (HTTPException 500 (exn_str e))).

End ConversationalChat.

(** ** Further string primitives *)

Module Text.

(** [s[n:]] *)
Fixpoint drop (n : nat) (s : string) : string :=
  match n, s with
  | S n', String _ s' => drop n' s'
  | _, _ => s
  end.

(** [''.join(parts)] *)
Fixpoint concat (parts : list string) : string :=
  match parts with
  | [] => EmptyString
  | p :: rest => p +:+ concat rest
  end.

(** The scan of [s.split(sep)]: [skip] characters of a separator found
    earlier are still to be passed over, [cur] is the piece being read. *)
Fixpoint split_on_go (sep s : string) (skip : nat) (cur : string) : list string :=
  match s with
  | EmptyString => [cur]
  | String c s' =>
      match skip with
      | S k => split_on_go sep s' k cur
      | O =>
          if String.prefix sep s
          then cur :: split_on_go sep s' (String.length sep - 1) EmptyString
          else split_on_go sep s' 0 (cur +:+ String c EmptyString)
      end
  end.

(** [s.split(sep)] for a non-empty separator: the pieces between the
    occurrences of [sep], found from the left without overlap. *)
Definition split_on (sep s : string) : list string :=
  split_on_go sep s 0 EmptyString.

(** [re.sub(r'\s+', ' ', s)]: [in_run] tells that the previous character was
    whitespace. *)
Fixpoint collapse_spaces (in_run : bool) (s : string) : string :=
  match s with
  | EmptyString => EmptyString
  | String c s' =>
      if Str.isspace c
      then (if in_run then collapse_spaces true s'
            else String " " (collapse_spaces true s'))
      else String c (collapse_spaces false s')
  end.

(** [re.sub(pattern, '', s)] for a pattern that is one negated character
    class: the characters of the class are kept. *)
Fixpoint keep (class : ascii -> bool) (s : string) : string :=
  match s with
  | EmptyString => EmptyString
  | String c s' => if class c then String c (keep class s') else keep class s'
  end.

(** [re.sub(pattern, repl, s)] for a pattern that is one character class and
    a one-character replacement. *)
Fixpoint replace_class (class : ascii -> bool) (repl : ascii) (s : string) : string :=
  match s with
  | EmptyString => EmptyString
  | String c s' => String (if class c then repl else c) (replace_class class repl s')
  end.

End Text.

(** ** Token streaming: [generate_tokens] (utils/text_processing.py) *)

(** The tokens of sentence number [i], given its [words]: the first word of
    the first sentence as it is, every other word behind a space. *)
Definition sentence_tokens (i : nat) (words : list string) : list string :=
  match words with
  | [] => []
  | word :: rest =>
      (if Nat.eqb i 0 then word else " " +:+ word) :: map (fun w => " " +:+ w) rest
  end.

(** The loop over [enumerate(sentences)], from sentence number [i] on; every
    sentence but the last gets its ". " back. *)
Fixpoint tokens_from (i : nat) (sentences : list string) : list string :=
  match sentences with
  | [] => []
  | [sentence] => sentence_tokens i (Text.split_on " " sentence)
  | sentence :: rest =>
      (sentence_tokens i (Text.split_on " " (sentence +:+ ". "))
       ++ tokens_from (S i) rest)%list
  end.

(** The tokens the generator yields, in order. *)
Definition generate_tokens (text : string) : list string :=
  tokens_from 0 (Text.split_on ". " text).

(** ** More of the text processor *)

(** The class [[\w\s.,!?-]]. *)
Definition basic_char (c : ascii) : bool :=
  Re.is_word c || Str.isspace c
  || Ascii.eqb c "." || Ascii.eqb c "," || Ascii.eqb c "!" || Ascii.eqb c "?"
  || Ascii.eqb c "-".

(** The class of the three quote characters: double, single, backtick. *)
Definition quote_char (c : ascii) : bool :=
  Ascii.eqb c Repr.dquote || Ascii.eqb c Repr.squote || Ascii.eqb c "`".

Definition clean_conversational_text (text : string) : string :=
  let text := Text.collapse_spaces false text in
  let text := Text.keep basic_char text in
  let text := Text.replace_class quote_char Repr.dquote text in
  Str.strip text.

(** [set(text.lower().split())] *)
Definition word_set (text : string) : gset string :=
  list_to_set (Str.split (Str.lower text)).

(** The quotient [len(intersection) / len(union)], kept exact; Python
    returns the double nearest to it. *)
Definition calculate_text_similarity (text1 text2 : string) : Q :=
  let words1 := word_set text1 in
  let words2 := word_set text2 in
  if bool_decide (words1 = ∅) || bool_decide (words2 = ∅) then 0%Q else
  let intersection := words1 ∩ words2 in
  let union := words1 ∪ words2 in
  if bool_decide (union = ∅) then 0%Q
  else (Z.of_nat (size intersection) # Pos.of_nat (size union))%Q.

Definition topic_prompt (text : string) : string :=
  "Extract the main topic or subject from this text in 2-4 words:" +:+ nl +:+ nl
  +:+ dq +:+ text +:+ dq +:+ nl +:+ nl
  +:+ "Topic:".

Section TopicExtraction.

Variable openai : string -> result string.

(** Returns the topic, if any, and the prompts sent to the model. *)
Definition extract_topic (text : string) : option string * list string :=
  let prompt := topic_prompt text in
  match openai prompt with
  | Ok content =>
      let topic := Str.strip content in
      (if 2 <? Str.len topic then Some topic else None, [prompt])
  | Raise _ => (None, [prompt])
  end.

End TopicExtraction.

(** ** The RAG endpoint and the debug endpoint (api/chat.py) *)

Record RAGRequest : Type := {
  query : string;
  rag_user_id : string;
  context_limit : Z
}.

(** The fields of the service's answer the endpoint reads. *)
Record rag_answer : Type := {
  answer_response : string;
  answer_sources : pyval;
  answer_has_context : bool;
  answer_context_chunks : option Z
}.

Record RAGResponse : Type := {
  success : bool;
  rag_query : string;
  rag_response : string;
  sources : pyval;
  has_context : bool;
  context_chunks : Z
}.

Section RagEndpoint.

(** [get_rag_service()] and its [generate_rag_response(query, user_id, limit)]. *)
Variable rag_service : option (string -> string -> Z -> result rag_answer).

Variable recent_user : result (option string).

Definition rag_chat_endpoint (request : RAGRequest) : result RAGResponse :=
  try_except
    (if Str.is_empty (query request)
     then Raise (HTTPException 400 "query is required")
     else
       match rag_service with
       | None => Raise (HTTPException 503 "Document service not available")
       | Some generate_rag_response =>
           let user_id := rag_user_id request in
           let user_id :=
             if String.eqb user_id "anonymous"
                && negb (String.eqb (auto_detect_user_id recent_user) "anonymous")
             then auto_detect_user_id recent_user else user_id in
           result ← generate_rag_response (query request) user_id (context_limit request);
           Ok {| success := true;
                 rag_query := query request;
                 rag_response := answer_response result;
                 sources := answer_sources result;
                 has_context := answer_has_context result;
                 context_chunks := default 0 (answer_context_chunks result) |}
       end)
    (fun e =>
       match e with
       | HTTPException _ _ => Raise e
       | _ => Raise (HTTPException 500 (exn_str e))
       end).

End RagEndpoint.

(** [len(v)] where [v] may be any value. *)
Definition len_method (v : pyval) : result Z :=
  match v with
  | PStr s => Ok (Str.len s)
  | PList l => Ok (Z.of_nat (length l))
  | PDict d => Ok (Z.of_nat (length d))
  | _ => Raise (TypeError "object has no len()")
  end.

(** The parts of the debug report that depend on the request. *)
Record debug_info : Type := {
  extraction_result : pyval * pyval * bool;
  has_messages : bool;
  message_count : Z;
  debug_model : pyval;
  debug_context : context;
  relevant_headers : list string;
  user_agent : string;
  available : bool;
  would_be_used : bool
}.

Definition relevant_header (name : string) : bool :=
  any_word ["session"; "user"; "conversation"] (Str.lower name).

Fixpoint header_get (headers : list (string * string)) (name dflt : string) : string :=
  match headers with
  | [] => dflt
  | (k, v) :: rest => if String.eqb k name then v else header_get rest name dflt
  end.

(** [v is not None] *)
Definition is_not_none (v : pyval) : bool :=
  match v with PNone => false | _ => true end.

Section DebugEndpoint.

Variable CONVERSATIONAL_RAG_AVAILABLE : bool.

Definition debug_session_endpoint (request_data : gmap string pyval)
    (headers_dict : list (string * string)) (w : World) : result debug_info :=
  extracted ← extract_session_from_request request_data (Some headers_dict) w;
  let '(session_id, user_id, is_librechat) := (extracted : pyval * pyval * bool) in
  conversation_context ←
    analyze_conversation_context (get_or request_data "messages" (PList []));
  count ← len_method (get_or request_data "messages" (PList []));
  Ok {| extraction_result := (session_id, user_id, is_librechat);
        has_messages := bool_decide (is_Some (request_data !! "messages"));
        message_count := count;
        debug_model := get_or request_data "model" (PStr "not_specified");
        debug_context := conversation_context;
        relevant_headers := filter (fun k => relevant_header k = true) (map fst headers_dict);
        user_agent := header_get headers_dict "user-agent" "not_provided";
        available := CONVERSATIONAL_RAG_AVAILABLE;
        would_be_used := CONVERSATIONAL_RAG_AVAILABLE && is_not_none session_id |}.

End DebugEndpoint.

(** ** Environment files: [load_env_file] (config/conversational_settings.py) *)

Inductive env_error : Type :=
  | IllegalName        (* an empty variable name *)
  | EmbeddedNull.      (* a NUL character in a name or a value *)

(** [s.startswith(p)] *)
Definition startswith (p s : string) : bool := String.prefix p s.

(** [s.strip(chars)] for the characters of a class. *)
Fixpoint lstrip_class (class : ascii -> bool) (s : string) : string :=
  match s with
  | EmptyString => EmptyString
  | String c s' => if class c then lstrip_class class s' else s
  end.

Fixpoint rstrip_class (class : ascii -> bool) (s : string) : string :=
  match s with
  | EmptyString => EmptyString
  | String c s' =>
      let r := rstrip_class class s' in
      if class c && Str.is_empty r then EmptyString else String c r
  end.

Definition strip_class (class : ascii -> bool) (s : string) : string :=
  rstrip_class class (lstrip_class class s).

(** The class of the double and the single quote character. *)
Definition env_quote (c : ascii) : bool :=
  Ascii.eqb c Repr.dquote || Ascii.eqb c Repr.squote.

(** [line.split('=', 1)] on a line that contains an equals sign: the text
    before the first one and the text after it. *)
Fixpoint split_first_eq (s : string) : option (string * string) :=
  match s with
  | EmptyString => None
  | String c s' =>
      if Ascii.eqb c "="
      then Some (EmptyString, s')
      else match split_first_eq s' with
           | Some (key, value) => Some (String c key, value)
           | None => None
           end
  end.

(** What one line of the file asks for: nothing, or an assignment. *)
Definition parse_env_line (line : string) : option (string * string) :=
  let line := Str.strip line in
  if negb (Str.is_empty line) && negb (startswith "#" line) && Str.contains "=" line
  then match split_first_eq line with
       | Some (key, value) => Some (key, strip_class env_quote value)
       | None => None
       end
  else None.

Definition has_nul (s : string) : bool :=
  Str.contains (String "000"%char EmptyString) s.

(** [os.environ[key] = value] *)
Definition setenv (key value : string) (environ : gmap string string)
    : env_error + gmap string string :=
  if has_nul key || has_nul value then inl EmbeddedNull
  else if Str.is_empty key then inl IllegalName
  else inr (<[key := value]> environ).

(** The loop over the lines of the file. *)
Fixpoint load_env_lines (lines : list string) (environ : gmap string string)
    : env_error + gmap string string :=
  match lines with
  | [] => inr environ
  | line :: rest =>
      match parse_env_line line with
      | Some (key, value) =>
          match setenv key value environ with
          | inr environ' => load_env_lines rest environ'
          | inl e => inl e
          end
      | None => load_env_lines rest environ
      end
  end.

(** ** Notions the statements below are phrased with *)

(** Methods 1 and 2 find no session key in the body: each of the four
    session fields is absent or falsy. *)
Definition no_session_key (request_data : gmap string pyval) : Prop :=
  truthy (get request_data "session_id") = false
  ∧ truthy (get request_data "sessionId") = false
  ∧ truthy (get request_data "conversation_id") = false
  ∧ truthy (get request_data "conversationId") = false.

(** A message that is not a user message of trimmed length above 10: not a
    dict, not of role user, of empty content, or of a short string content. *)
Definition insignificant (m : pyval) : Prop :=
  match m with
  | PDict msg =>
      is_str (item_get msg "role" (PStr "")) "user" = false
      ∨ truthy (item_get msg "content" (PStr "")) = false
      ∨ ∃ s, item_get msg "content" (PStr "") = PStr s ∧ Str.len (Str.strip s) <= 10
  | _ => True
  end.

(** [first_significant messages content]: [content] is the text of the first
    user message of trimmed length above 10, and nothing but insignificant
    messages come before it. *)
Inductive first_significant : list pyval -> string -> Prop :=
  | significant_here msg content rest :
      is_str (item_get msg "role" (PStr "")) "user" = true ->
      item_get msg "content" (PStr "") = PStr content ->
      10 < Str.len (Str.strip content) ->
      first_significant (PDict msg :: rest) content
  | significant_later m rest content :
      insignificant m ->
      first_significant rest content ->
      first_significant (m :: rest) content.

(** A message whose content, if it is a non-empty user message, is text. *)
Definition text_message (m : pyval) : Prop :=
  match m with
  | PDict msg =>
      is_str (item_get msg "role" (PStr "")) "user" = true ->
      truthy (item_get msg "content" (PStr "")) = true ->
      ∃ s, item_get msg "content" (PStr "") = PStr s
  | _ => True
  end.

(** A [messages] entry that is falsy or can be iterated, every user message
    in it carrying text. *)
Definition text_messages (messages : pyval) : Prop :=
  match messages with
  | PList l => Forall text_message l
  | PInt z => z = 0
  | PBool b => b = false
  | _ => True
  end.

(** The session fields of the body hold text whenever they are truthy. *)
Definition text_session_fields (request_data : gmap string pyval) : Prop :=
  ∀ k, k ∈ ["session_id"; "sessionId"; "conversation_id"; "conversationId"] ->
       truthy (get request_data k) = true -> ∃ s, get request_data k = PStr s.

(** No header name contains "session", in any letter case. *)
Definition no_session_header (headers : option (list (string * string))) : Prop :=
  match headers with
  | None => True
  | Some hs => Forall (fun h => Str.contains "session" (Str.lower (fst h)) = false) hs
  end.

(** The two situations that end in an hour-bucketed identifier, with the
    prefix each one uses. *)
Definition hour_bucketed (request_data : gmap string pyval)
    (headers : option (list (string * string))) (prefix : string) : Prop :=
  (prefix = "user_"
   ∧ ∃ msgs, request_data !! "messages" = Some (PList msgs)
             ∧ msgs ≠ [] ∧ Forall insignificant msgs)
  ∨ (prefix = "flow_"
     ∧ truthy (get_or request_data "messages" (PList [])) = false
     ∧ no_session_header headers).

(** The resolver returned a triple whose session id is truthy, and a non-empty
    string when the session fields of the body hold text. *)
Definition resolves_well (request_data : gmap string pyval)
    (r : result (pyval * pyval * bool)) : Prop :=
  ∃ sid uid inferred,
    r = Ok (sid, uid, inferred)
    ∧ truthy sid = true
    ∧ (text_session_fields request_data -> ∃ s, sid = PStr s ∧ s ≠ EmptyString).

(** [topic.lower().split()] and the words among them that occur in the
    lowercased current text. *)
Definition topic_words (topic : string) : list string := Str.split (Str.lower topic).

Definition recurring_words (topic current : string) : list string :=
  filter (fun word => Str.contains word (Str.lower current) = true) (topic_words topic).

(** A model that answers every prompt with the same text. *)
Definition constant_model (answer : string) : string -> result string :=
  fun _ => Ok answer.

(** A service whose call fails. *)
Definition failing_service (reason : string)
    : string -> string -> string -> bool -> result rag_result :=
  fun _ _ _ _ => Raise (ServiceError reason).

Definition conversational_request : ConversationalChatRequest :=
  {| message := "What is TCS?"; req_session_id := Some "s-42";
     req_user_id := "alice"; req_stream := false |}.

Definition all_hex (s : string) : bool :=
  forallb Str.is_hex_digit (list_ascii_of_string s).

(** A response that carries one assistant message. *)
Definition assistant_reply (r : http_response) (text : string) : Prop :=
  match r with
  | Json body =>
      object body = "chat.completion" ∧ role body = "assistant"
      ∧ finish_reason body = "stop" ∧ content body = text
  | StreamingResponse response_content _ _ => response_content = text
  end.

(** A message that is a dict of role "user". *)
Definition is_user_message (m : pyval) : bool :=
  match m with
  | PDict msg => is_str (item_get msg "role" (PStr "")) "user"
  | _ => false
  end.

(** The content of a message, the empty text when it has none. *)
Definition content_of (m : pyval) : pyval :=
  match m with
  | PDict msg => item_get msg "content" (PStr "")
  | _ => PStr ""
  end.

Definition is_text (v : pyval) : bool :=
  match v with PStr _ => true | _ => false end.

Definition is_dict (v : pyval) : bool :=
  match v with PDict _ => true | _ => false end.

(** The user messages of a list, in order. *)
Definition user_turns (messages : list pyval) : list pyval :=
  filter (fun m => is_user_message m = true) messages.


(** Every character of the text is in the class. *)
Fixpoint all_chars (class : ascii -> bool) (s : string) : bool :=
  match s with
  | EmptyString => true
  | String c s' => class c && all_chars class s'
  end.

(** A word character, the space, or one of [. , ! ? -]. *)
Definition clean_char (c : ascii) : bool :=
  Re.is_word c || Ascii.eqb c " "
  || Ascii.eqb c "." || Ascii.eqb c "," || Ascii.eqb c "!" || Ascii.eqb c "?"
  || Ascii.eqb c "-".

(** A character that is not whitespace, or is the plain space. *)
Definition plain_space_only (c : ascii) : bool :=
  negb (Str.isspace c) || Ascii.eqb c " ".


(** The values [len] refuses and [for] cannot iterate. *)
Definition unsized (v : pyval) : bool :=
  match v with
  | PNone | PBool _ | PInt _ => true
  | _ => false
  end.

(** A character other than the equals sign. *)
Definition not_equals (c : ascii) : bool := negb (Ascii.eqb c "=").

(** A variable name as an environment file writes it: it starts with a
    character that is neither whitespace nor the comment sign, and holds no
    equals sign. *)
Definition env_name (key : string) : bool :=
  match key with
  | EmptyString => false
  | String c _ =>
      negb (Str.isspace c) && negb (Ascii.eqb c "#") && all_chars not_equals key
  end.

(** The line assigns the variable [name]. *)
Definition assigns (name line : string) : bool :=
  match parse_env_line line with
  | Some (key, _) => String.eqb key name
  | None => false
  end.

(** The line asks for an assignment that [os.environ] refuses. *)
Definition refused_line (line : string) : bool :=
  match parse_env_line line with
  | Some (key, value) => has_nul key || has_nul value || Str.is_empty key
  | None => false
  end.


(** A backend call that fails whatever it is asked. *)
Definition always_fails (call : pyval -> pyval -> pyval -> result string) : Prop :=
  ∀ user_message user_id third, ∃ e, call user_message user_id third = Raise e.

(** The backends are down: the conversational service fails on every call,
    and the response generator is missing or fails on every call. *)
Definition backends_down (rag : pyval -> pyval -> pyval -> result string)
    (generator : option (pyval -> pyval -> pyval -> result string)) : Prop :=
  always_fails rag
  ∧ match generator with
    | Some generate_professional_response => always_fails generate_professional_response
    | None => True
    end.

(** The topic-change phrases as plain texts; a text that contains
    "changing topics" contains "changing topic". *)
Definition change_phrases : list string :=
  [ "let's talk about"; "changing topic"; "move on to";
    "next topic"; "different question"; "another topic" ].

(** Topic change as the specification words it: the current text contains
    one of the phrases, or fewer than 30% of the words of the previous topic
    recur among the words of the current text.  Letter case is set aside on
    both sides. *)
Definition spec_topic_change (current_text previous_topic : string) : bool :=
  existsb (fun phrase => Str.contains phrase (Str.lower current_text)) change_phrases
  || (let topic_words := Str.split (Str.lower previous_topic) in
      let current_words := Str.split (Str.lower current_text) in
      let recurring :=
        filter (fun word => existsb (String.eqb word) current_words = true) topic_words in
      100 * Z.of_nat (length recurring) <? 30 * Z.of_nat (length topic_words)).


(** ** Concrete requests and clocks *)

(** 2026-11-04 12:30 UTC on a server kept on UTC. *)
Definition noon : World :=
  {| epoch_seconds := 1793795400; utc_offset := 0;
     uuid4 := 0x0123456789abcdef0123456789abcdef |}.

(** 2026-11-04 13:30 UTC on a server kept on UTC. *)
Definition one_hour_after_noon : World :=
  {| epoch_seconds := 1793799000; utc_offset := 0; uuid4 := 5 |}.

(** 12:10 UTC and 12:50 UTC of 2026-11-04 on a server kept on UTC+05:30:
    17:40 and 18:20 on its wall clock. *)
Definition kolkata_1740 : World :=
  {| epoch_seconds := 1793794200; utc_offset := 19800; uuid4 := 5 |}.

Definition kolkata_1820 : World :=
  {| epoch_seconds := 1793796600; utc_offset := 19800; uuid4 := 6 |}.

Definition essence_request : gmap string pyval :=
  {[ "user" := PStr "bob"; "messages" := PList [user_message "hello world!!"] ]}.

Definition longer_request : gmap string pyval :=
  {[ "user" := PStr "bob"; "model" := PStr "IntraNest-AI";
     "messages" := PList [ PDict [("role", PStr "system"); ("content", PStr "Be brief.")];
                           user_message "hi";
                           user_message "hello world!!";
                           user_message "and a second question" ] ]}.

Definition explicit_request : gmap string pyval :=
  {[ "session_id" := PStr "s-42"; "user" := PStr "bob";
     "messages" := PList [user_message "hello world!!"] ]}.

Definition empty_session_request : gmap string pyval :=
  {[ "session_id" := PStr ""; "user" := PStr "bob";
     "messages" := PList [user_message "hello world!!"] ]}.

Definition empty_user_request : gmap string pyval :=
  {[ "user" := PStr ""; "messages" := PList [user_message "hello world!!"] ]}.

Definition short_request : gmap string pyval :=
  {[ "user" := PStr "bob"; "messages" := PList [user_message "hi"] ]}.

Definition flow_request : gmap string pyval := {[ "user" := PStr "bob" ]}.

Definition anonymous_request : gmap string pyval :=
  {[ "user" := PStr "anonymous"; "model" := PStr "IntraNest-AI" ]}.

(** A user message whose content is a list of parts, as chat clients send
    for multimodal input. *)
Definition multimodal_request : gmap string pyval :=
  {[ "user" := PStr "bob";
     "messages" :=
       PList [ PDict [ ("role", PStr "user");
                       ("content",
                        PList [PDict [("type", PStr "text");
                                      ("text", PStr "What is TCS?")]]) ] ] ]}.

Definition numeric_session_request : gmap string pyval := {[ "session_id" := PInt 42 ]}.

(** A retrieval service with one answer, and one that is down. *)
Definition answering_rag : pyval -> pyval -> pyval -> result string :=
  fun _ _ _ => Ok "TCS is the transit cyber security programme.".

Definition failing_rag : pyval -> pyval -> pyval -> result string :=
  fun _ _ _ => Raise (ServiceError "connection to localhost:8080 refused").

Definition alternate_request : gmap string pyval :=
  {[ "conversationId" := PStr "c-7"; "userId" := PStr "alice"; "user" := PStr "bob";
     "messages" := PList [user_message "hello world!!"] ]}.

Definition long_prompt (ending : string) : string :=
  "Summarise the attached quarterly report on transit cyber security for the board,"
  +:+ " covering incidents, response times, open audit findings, staffing and budget,"
  +:+ " and close with three recommendations for the next quarter. " +:+ ending.

Definition stray_text_request : gmap string pyval :=
  {[ "user" := PStr "bob";
     "messages" := PList [user_message "hello world!!"; PStr "and one more thing"] ]}.

(** Requests to the RAG endpoint: of a named user, of an anonymous user and
    without a query. *)
Definition named_rag_request : RAGRequest :=
  {| query := "What is our travel policy?"; rag_user_id := "carol"; context_limit := 5 |}.

Definition anonymous_rag_request : RAGRequest :=
  {| query := "What is our travel policy?"; rag_user_id := "anonymous";
     context_limit := 5 |}.

Definition empty_rag_request : RAGRequest :=
  {| query := ""; rag_user_id := "carol"; context_limit := 5 |}.

(** A document service that answers with the user it was asked for, and one
    that fails. *)
Definition echo_documents : string -> string -> Z -> result rag_answer :=
  fun _ user_id _ =>
    Ok {| answer_response := user_id; answer_sources := PList [];
          answer_has_context := false; answer_context_chunks := None |}.

Definition failing_documents : string -> string -> Z -> result rag_answer :=
  fun _ _ _ => Raise (ServiceError "weaviate is down").

(** A body whose [messages] entry is null. *)
Definition null_messages_request : gmap string pyval :=
  {[ "messages" := PNone; "user" := PStr "bob" ]}.

(** The lines of an environment file: a comment, two assignments of the
    same variable, a blank line and a quoted value. *)
Definition env_lines : list string :=
  ["# conversational settings"; "REDIS_URL=redis://cache:6379";
   "CACHE_TTL=60"; ""; "REDIS_URL='redis://localhost:6379'"].


(** ** Evaluations on concrete requests *)

Example md5_empty :
  MD5.hexdigest (Str.encode "") = "d41d8cd98f00b204e9800998ecf8427e".
Proof. vm_compute. reflexivity. Qed.

Example md5_abc :
  MD5.hexdigest (Str.encode "abc") = "900150983cd24fb0d6963f7d28e17f72".
Proof. vm_compute. reflexivity. Qed.

Example md5_two_blocks :
  MD5.hexdigest (Str.encode
    "aaaaaaaaaaaaaaaaaaaaaaaaaaaaaaaaaaaaaaaaaaaaaaaaaaaaaaaa")
  = "3b0c8ac703f828b04c6c197006d17218".
Proof. vm_compute. reflexivity. Qed.

Example strftime_example :
  strftime_hour (datetime_now {| epoch_seconds := 1793795400; utc_offset := 0; uuid4 := 0 |})
  = "20261104_12".
Proof. vm_compute. reflexivity. Qed.

Example uuid4_hex_example :
  uuid4_hex {| epoch_seconds := 0; utc_offset := 0;
               uuid4 := 0x0123456789abcdef0123456789abcdef |}
  = "0123456789ab4def8123456789abcdef".
Proof. vm_compute. reflexivity. Qed.

Example uuid4_str_example :
  uuid4_str {| epoch_seconds := 0; utc_offset := 0;
               uuid4 := 0xffffffffffffffffffffffffffffffff |}
  = "ffffffff-ffff-4fff-bfff-ffffffffffff".
Proof. vm_compute. reflexivity. Qed.

Example repr_example :
  py_str (PList [PStr "it's"; PInt (-12); PNone; PDict [("k", PBool true)]])
  = String "[" (String Repr.dquote ("it's" +:+ String Repr.dquote ", -12, None, {'k': True}]")).
Proof. vm_compute. reflexivity. Qed.

Example resolve_essence :
  extract_session_from_request
    {[ "user" := PStr "bob"; "messages" := PList [user_message "hello world!!"] ]}
    (Some [("host", "intranest")]) noon
  = Ok (PStr "conv_bob_6b52eecd", PStr "bob", true).
Proof. vm_compute. reflexivity. Qed.

Example resolve_last_resort :
  extract_session_from_request ∅ None noon
  = Ok (PStr "auto_1793795400_01234567", PStr "anonymous", true).
Proof. vm_compute. reflexivity. Qed.

Example search_what_is : Re.search "\bwhat is\b" "so, what is tcs?" = true.
Proof. reflexivity. Qed.

Example search_no_boundary : Re.search "\bwhat is\b" "somewhat is" = false.
Proof. reflexivity. Qed.

Example search_dot_star : Re.search "\bhow.*improve\b" "how can it improve?" = true.
Proof. reflexivity. Qed.

Example search_optional : Re.search "\bchanging topics?\b" "changing topic now" = true.
Proof. reflexivity. Qed.

Example topic_kept : detect_topic_change "How can TCS improve?" (Some "TCS security") = false.
Proof. vm_compute. reflexivity. Qed.

Example topic_changed : detect_topic_change "Tell me about lunch" (Some "TCS security") = true.
Proof. vm_compute. reflexivity. Qed.

Example topic_phrase : detect_topic_change "let's talk about tcs" (Some "TCS") = true.
Proof. vm_compute. reflexivity. Qed.

Example classify_improvement :
  classify_intent (constant_model "general") "How can it improve?" = (IMPROVEMENT, []).
Proof. vm_compute. reflexivity. Qed.

Example classify_by_model :
  classify_intent (constant_model " Clarification ") "Sorry?"
  = (CLARIFICATION, [classification_prompt "Sorry?"]).
Proof. vm_compute. reflexivity. Qed.

Example completions_answer :
  chat_completions_with_streaming true answering_rag None (Ok None)
    essence_request [("host", "intranest")] noon
  = Ok (Json {| id := "chatcmpl-1793795400-01234567";
                object := "chat.completion";
                created := 1793795400;
                model := PStr "IntraNest-AI";
                role := "assistant";
                content := "TCS is the transit cyber security programme.";
                finish_reason := "stop";
                usage := (3, 11, 14);
                session_id := Some (PStr "conv_bob_6b52eecd");
                error := None |}).
Proof. vm_compute. reflexivity. Qed.

Example completions_backend_down :
  chat_completions_with_streaming true failing_rag (Some failing_rag) (Raise (ServiceError "down"))
    essence_request [] noon
  = Ok (completions_error noon).
Proof. vm_compute. reflexivity. Qed.

Example completions_multimodal :
  chat_completions_with_streaming true answering_rag None (Ok None)
    multimodal_request [] noon
  = Ok (completions_error noon).
Proof. vm_compute. reflexivity. Qed.

(** ** Facts about the resolver *)

Lemma truthy_py_or (a b : pyval) : truthy (py_or a b) = truthy a || truthy b.
Proof.
  unfold py_or. destruct (truthy a) eqn:Ha; [by rewrite Ha | done].
Qed.

Lemma py_or_cases (a b : pyval) :
  (truthy a = true ∧ py_or a b = a) ∨ (truthy a = false ∧ py_or a b = b).
Proof.
  unfold py_or. destruct (truthy a); [by left | by right].
Qed.

Lemma get_lookup (request_data : gmap string pyval) (k : string) (v : pyval) :
  request_data !! k = Some v -> get request_data k = v.
Proof. unfold get. by intros ->. Qed.

Lemma get_or_lookup (request_data : gmap string pyval) (k : string) (v dflt : pyval) :
  request_data !! k = Some v -> get_or request_data k dflt = v.
Proof. unfold get_or. by intros ->. Qed.

(** A text with more than 10 characters left after trimming has a non-empty
    slice [[:200]]. *)
Lemma significant_slice_nonempty (content : string) :
  10 < Str.len (Str.strip content) -> Str.is_empty (Str.take 200 content) = false.
Proof.
  destruct content as [|c s]; intros Hlen; [vm_compute in Hlen; discriminate | reflexivity].
Qed.

Lemma significant_truthy (content : string) :
  10 < Str.len (Str.strip content) -> truthy (PStr content) = true.
Proof.
  destruct content as [|c s]; intros Hlen; [vm_compute in Hlen; discriminate | reflexivity].
Qed.

Lemma first_significant_long (msgs : list pyval) (content : string) :
  first_significant msgs content -> 10 < Str.len (Str.strip content).
Proof. induction 1; assumption. Qed.

(** The loop stops at the first significant message. *)
Lemma conversation_essence_significant (msgs : list pyval) (content : string) :
  first_significant msgs content ->
  conversation_essence msgs = Ok (Str.take 200 content).
Proof.
  induction 1 as [msg content rest Hrole Hcontent Hlen | m rest content Hm _ IH].
  - cbn [conversation_essence]. rewrite Hrole, Hcontent.
    rewrite (significant_truthy _ Hlen). cbn [andb strip_method mbind result_bind].
    apply Z.ltb_lt in Hlen. rewrite Hlen. reflexivity.
  - destruct m as [| | | |l|msg]; cbn [conversation_essence]; try exact IH.
    destruct Hm as [Hrole | [Hcontent | (s & Hs & Hlen)]].
    + by rewrite Hrole.
    + rewrite Hcontent. by rewrite andb_false_r.
    + rewrite Hs. apply Z.ltb_ge in Hlen.
      destruct (_ && _); [|exact IH].
      cbn [strip_method mbind result_bind]. by rewrite Hlen.
Qed.

(** The loop runs through a list of insignificant messages without finding an
    essence. *)
Lemma conversation_essence_insignificant (msgs : list pyval) :
  Forall insignificant msgs -> conversation_essence msgs = Ok EmptyString.
Proof.
  induction 1 as [|m rest Hm _ IH]; [reflexivity|].
  destruct m as [| | | |l|msg]; cbn [conversation_essence]; try exact IH.
  destruct Hm as [Hrole | [Hcontent | (s & Hs & Hlen)]].
  - by rewrite Hrole.
  - rewrite Hcontent. by rewrite andb_false_r.
  - rewrite Hs. apply Z.ltb_ge in Hlen.
    destruct (_ && _); [|exact IH].
    cbn [strip_method mbind result_bind]. by rewrite Hlen.
Qed.

(** The loop never raises on text messages. *)
Lemma conversation_essence_text (msgs : list pyval) :
  Forall text_message msgs -> ∃ essence, conversation_essence msgs = Ok essence.
Proof.
  induction 1 as [|m rest Hm _ IH]; [by eexists|].
  destruct m as [| | | |l|msg]; cbn [conversation_essence]; try exact IH.
  cbn [text_message] in Hm.
  destruct (is_str _ _) eqn:Hrole; [|exact IH].
  destruct (truthy _) eqn:Hcontent; [|exact IH].
  destruct (Hm eq_refl eq_refl) as [s Hs]. rewrite Hs.
  cbn [andb strip_method mbind result_bind first_200].
  destruct (_ <? _); [by eexists | exact IH].
Qed.

Lemma conversation_essence_chars (s : string) :
  conversation_essence (chars s) = Ok EmptyString.
Proof.
  unfold chars. induction (list_ascii_of_string s) as [|c l IH]; [reflexivity | exact IH].
Qed.

Lemma conversation_essence_keys (d : list (string * pyval)) :
  conversation_essence (map (fun kv => PStr (fst kv)) d) = Ok EmptyString.
Proof.
  induction d as [|kv d IH]; [reflexivity | exact IH].
Qed.

(** With no session key in the body, the resolver starts at method 3. *)
Lemma resolve_without_key (request_data : gmap string pyval)
    (headers : option (list (string * string))) (w : World) :
  no_session_key request_data ->
  extract_session_from_request request_data headers w =
  if truthy (get_or request_data "messages" (PList [])) && truthy (get request_data "user")
  then conversation_intelligence
         (get_or request_data "messages" (PList [])) (get request_data "user") w
  else headers_or_later request_data headers
         (py_or (py_or (py_or (get request_data "userId") (get request_data "user_id"))
                       (get request_data "user"))
                (PStr "anonymous")) w.
Proof.
  intros (H1 & H2 & H3 & H4). unfold extract_session_from_request. cbv zeta.
  rewrite H1, !truthy_py_or, H2, H3, H4. reflexivity.
Qed.

(** The essence path: method 3 with a significant message. *)
Lemma resolve_essence_path (request_data : gmap string pyval)
    (headers : option (list (string * string))) (w : World)
    (user_field : pyval) (msgs : list pyval) (content : string) :
  no_session_key request_data ->
  request_data !! "user" = Some user_field ->
  truthy user_field = true ->
  request_data !! "messages" = Some (PList msgs) ->
  first_significant msgs content ->
  extract_session_from_request request_data headers w
  = Ok (PStr ("conv_" +:+ py_str user_field +:+ "_"
              +:+ hash8 (py_str user_field +:+ "_" +:+ Str.take 200 content)),
        user_field, true).
Proof.
  intros Hkey Huser Htruthy Hmsgs Hfirst.
  rewrite (resolve_without_key _ _ _ Hkey).
  rewrite (get_or_lookup _ _ _ _ Hmsgs), (get_lookup _ _ _ Huser), Htruthy.
  assert (truthy (PList msgs) = true) as -> by (inversion Hfirst; reflexivity).
  cbn [andb]. unfold conversation_intelligence. cbn [iterate mbind result_bind].
  rewrite (conversation_essence_significant _ _ Hfirst). cbn [mbind result_bind].
  pose proof (first_significant_long _ _ Hfirst) as Hlen.
  by rewrite (significant_slice_nonempty _ Hlen).
Qed.

(** ** Facts about formatting *)

(** Linear arithmetic with division and remainder by constants. *)
Ltac div_mod_lia := Z.div_mod_to_equations; lia.

Lemma chr_inj (x y : Z) : 0 <= x < 256 -> 0 <= y < 256 -> Str.chr x = Str.chr y -> x = y.
Proof.
  intros Hx Hy Heq. unfold Str.chr in Heq.
  apply (f_equal N_of_ascii) in Heq.
  rewrite !N_ascii_embedding in Heq by lia. lia.
Qed.

Lemma code_chr (x : Z) : 0 <= x < 256 -> Str.code (Str.chr x) = x.
Proof.
  intros Hx. unfold Str.code, Str.chr. rewrite N_ascii_embedding by lia. lia.
Qed.

Lemma digit_inj (a b : Z) : Str.digit a = Str.digit b -> a mod 10 = b mod 10.
Proof.
  unfold Str.digit. intros Heq.
  pose proof (Z.mod_pos_bound a 10 eq_refl). pose proof (Z.mod_pos_bound b 10 eq_refl).
  apply chr_inj in Heq; lia.
Qed.

Lemma two_digits_inj (a b : Z) :
  0 <= a < 100 -> 0 <= b < 100 -> Str.two_digits a = Str.two_digits b -> a = b.
Proof.
  unfold Str.two_digits. intros Ha Hb Heq.
  injection Heq as Htens Hunits.
  apply digit_inj in Htens. apply digit_inj in Hunits.
  rewrite (Z.mod_small (a / 10)), (Z.mod_small (b / 10)) in Htens
    by (split; [apply Z.div_pos | apply Z.div_lt_upper_bound]; lia).
  rewrite (Z.div_mod a 10), (Z.div_mod b 10) by lia. lia.
Qed.

Lemma append_inv_head (p s t : string) : p +:+ s = p +:+ t -> s = t.
Proof.
  induction p as [|c p IH]; [done|]. cbn. intros [= Heq]. by apply IH.
Qed.

Lemma hex_digit_is_hex (n : Z) : 0 <= n < 16 -> Str.is_hex_digit (Str.hex_digit n) = true.
Proof.
  intros Hn. unfold Str.is_hex_digit, Str.hex_digit, Str.between.
  destruct (n <? 10) eqn:Hlt; rewrite code_chr by lia.
  - apply Z.ltb_lt in Hlt. apply orb_true_iff. left. apply andb_true_iff. lia.
  - apply Z.ltb_ge in Hlt. apply orb_true_iff. right. apply andb_true_iff. lia.
Qed.

Lemma hex_byte_is_hex (b : Z) : all_hex (Str.hex_byte b) = true.
Proof.
  unfold all_hex, Str.hex_byte. cbn [list_ascii_of_string forallb].
  rewrite !hex_digit_is_hex; [done | apply Z.mod_pos_bound; lia | apply Z.mod_pos_bound; lia].
Qed.

Lemma all_hex_cons (c : ascii) (s : string) :
  all_hex (String c s) = Str.is_hex_digit c && all_hex s.
Proof. reflexivity. Qed.

Lemma all_hex_append (s t : string) :
  all_hex s = true -> all_hex t = true -> all_hex (s +:+ t) = true.
Proof.
  induction s as [|c s IH]; [done|].
  change (String c s +:+ t) with (String c (s +:+ t)). rewrite !all_hex_cons.
  intros [Hc Hs]%andb_true_iff Ht. by rewrite Hc, IH.
Qed.

(** [uuid.uuid4().hex[:8]] is made of the two digits of each of the four most
    significant bytes. *)
Lemma uuid4_hex_take_8 (w : World) :
  Str.take 8 (uuid4_hex w)
  = Str.hex_byte (Z.shiftr (uuid4_int w) 120 mod 256)
    +:+ Str.hex_byte (Z.shiftr (uuid4_int w) 112 mod 256)
    +:+ Str.hex_byte (Z.shiftr (uuid4_int w) 104 mod 256)
    +:+ Str.hex_byte (Z.shiftr (uuid4_int w) 96 mod 256).
Proof. reflexivity. Qed.

Lemma uuid4_prefix_hex (w : World) :
  String.length (Str.take 8 (uuid4_hex w)) = 8%nat
  ∧ all_hex (Str.take 8 (uuid4_hex w)) = true.
Proof.
  rewrite uuid4_hex_take_8. split; [reflexivity|].
  repeat apply all_hex_append; apply hex_byte_is_hex.
Qed.

(** The hour bucket is a function of the local hour count. *)
Lemma strftime_same_hour (w1 w2 : World) :
  local_hours w1 = local_hours w2 ->
  strftime_hour (datetime_now w1) = strftime_hour (datetime_now w2).
Proof.
  intros Heq. unfold strftime_hour, datetime_now. rewrite Heq.
  by destruct (civil_from_days _) as [[y m] d].
Qed.

(** Consecutive local hours get different buckets: the hour field differs. *)
Lemma strftime_next_hour (w1 w2 : World) :
  local_hours w2 = local_hours w1 + 1 ->
  strftime_hour (datetime_now w1) ≠ strftime_hour (datetime_now w2).
Proof.
  intros Hnext Heq. unfold strftime_hour, datetime_now in Heq. rewrite Hnext in Heq.
  destruct (civil_from_days (local_hours w1 / 24)) as [[y1 m1] d1].
  destruct (civil_from_days ((local_hours w1 + 1) / 24)) as [[y2 m2] d2].
  cbn [year month day hour] in Heq.
  unfold Str.four_digits, Str.two_digits in Heq. cbn [String.app] in Heq.
  injection Heq as _ _ _ _ _ _ _ _ Htens Hunits.
  assert (Str.two_digits (local_hours w1 mod 24)
          = Str.two_digits ((local_hours w1 + 1) mod 24)) as Hhour
    by (unfold Str.two_digits; congruence).
  clear Htens Hunits.
  apply two_digits_inj in Hhour; div_mod_lia.
Qed.

Lemma local_hours_one_hour_later (w1 w2 : World) :
  utc_offset w2 = utc_offset w1 ->
  epoch_seconds w2 = epoch_seconds w1 + 3600 ->
  local_hours w2 = local_hours w1 + 1.
Proof.
  unfold local_hours. intros -> ->.
  replace (epoch_seconds w1 + 3600 + utc_offset w1)
    with (epoch_seconds w1 + utc_offset w1 + 1 * 3600) by lia.
  by rewrite Z.div_add.
Qed.

(** ** More facts about the resolver *)

Lemma scan_headers_no_session (hs : list (string * string)) (header_user : option string) :
  Forall (fun h => Str.contains "session" (Str.lower (fst h)) = false) hs ->
  fst (scan_headers hs None header_user) = None.
Proof.
  intros Hall. revert header_user.
  induction Hall as [|[name value] rest Hname _ IH]; intros header_user; [done|].
  cbn [scan_headers]. cbn [fst] in Hname. rewrite Hname. cbn [andb].
  destruct (_ && _); apply IH.
Qed.

(** Without a session header, method 4 finds nothing. *)
Lemma headers_no_session (request_data : gmap string pyval)
    (headers : option (list (string * string))) (user_id : pyval) (w : World) :
  no_session_header headers ->
  headers_or_later request_data headers user_id w = continuity_or_new request_data w.
Proof.
  destruct headers as [[|h hs]|]; [done| |done].
  intros Hall. unfold headers_or_later.
  pose proof (scan_headers_no_session _ None Hall) as Hscan.
  destruct (scan_headers (h :: hs) None None) as [header_session header_user].
  cbn [fst] in Hscan. by rewrite Hscan.
Qed.

(** ** Session resolution: the claims *)

Ltac by_evaluation := vm_compute; first [reflexivity | discriminate].

(** C1, as amended.  For every truthy (non-empty) user field and every two
    requests without a session key in the body whose message lists have the
    same first significant user message (only insignificant messages before
    it), two calls of the resolver return the same session id, whatever the
    headers, the clock and the random source are. *)
Theorem essence_session_deterministic
    (user_field : pyval) (content : string)
    (body1 body2 : gmap string pyval) (msgs1 msgs2 : list pyval)
    (headers1 headers2 : option (list (string * string))) (w1 w2 : World) :
  truthy user_field = true ->
  no_session_key body1 -> no_session_key body2 ->
  body1 !! "user" = Some user_field -> body2 !! "user" = Some user_field ->
  body1 !! "messages" = Some (PList msgs1) -> body2 !! "messages" = Some (PList msgs2) ->
  first_significant msgs1 content -> first_significant msgs2 content ->
  ∃ sid, extract_session_from_request body1 headers1 w1 = Ok (PStr sid, user_field, true)
         ∧ extract_session_from_request body2 headers2 w2 = Ok (PStr sid, user_field, true).
Proof.
  intros Hu Hk1 Hk2 Hu1 Hu2 Hm1 Hm2 Hf1 Hf2. eexists. split.
  - by apply (resolve_essence_path body1 headers1 w1 user_field msgs1 content).
  - by apply (resolve_essence_path body2 headers2 w2 user_field msgs2 content).
Qed.

Lemma essence_session_deterministic_witness :
  ∃ sid, extract_session_from_request essence_request None noon
           = Ok (PStr sid, PStr "bob", true)
         ∧ extract_session_from_request longer_request (Some [("host", "intranest")])
             one_hour_after_noon
           = Ok (PStr sid, PStr "bob", true).
Proof.
  apply (essence_session_deterministic (PStr "bob") "hello world!!"
           essence_request longer_request
           [user_message "hello world!!"]
           [ PDict [("role", PStr "system"); ("content", PStr "Be brief.")];
             user_message "hi"; user_message "hello world!!";
             user_message "and a second question" ]).
  - reflexivity.
  - repeat split; by_evaluation.
  - repeat split; by_evaluation.
  - by_evaluation.
  - by_evaluation.
  - by_evaluation.
  - by_evaluation.
  - apply significant_here; by_evaluation.
  - apply significant_later; [left; by_evaluation|].
    apply significant_later; [right; right; eexists; split; by_evaluation|].
    apply significant_here; by_evaluation.
Defined.

(** C1 as stated fails for the empty user field: method 3 is not entered and
    the identifier comes from the clock. *)
Lemma empty_user_follows_the_clock :
  empty_user_request !! "user" = Some (PStr "")
  ∧ empty_user_request !! "messages" = Some (PList [user_message "hello world!!"])
  ∧ first_significant [user_message "hello world!!"] "hello world!!"
  ∧ no_session_key empty_user_request
  ∧ extract_session_from_request empty_user_request None noon
    = Ok (PStr "flow__20261104_12", PStr "", true)
  ∧ extract_session_from_request empty_user_request None one_hour_after_noon
    = Ok (PStr "flow__20261104_13", PStr "", true).
Proof.
  split; [by_evaluation|]. split; [by_evaluation|].
  split; [apply significant_here; by_evaluation|].
  split; [repeat split; by_evaluation|].
  split; by_evaluation.
Qed.

(** C2, as amended.  A truthy (non-empty) [session_id] field is returned as
    it is, uninferred, whatever else the body holds. *)
Theorem explicit_session_wins (request_data : gmap string pyval)
    (headers : option (list (string * string))) (w : World) (sid : pyval) :
  request_data !! "session_id" = Some sid ->
  truthy sid = true ->
  extract_session_from_request request_data headers w
  = Ok (sid, get_or request_data "user_id" (PStr "anonymous"), false).
Proof.
  intros Hsid Htruthy. unfold extract_session_from_request. cbv zeta.
  by rewrite (get_lookup _ _ _ Hsid), Htruthy.
Qed.

Lemma explicit_session_wins_witness :
  extract_session_from_request explicit_request None noon
  = Ok (PStr "s-42", get_or explicit_request "user_id" (PStr "anonymous"), false).
Proof.
  apply (explicit_session_wins explicit_request None noon (PStr "s-42")).
  - by_evaluation.
  - reflexivity.
Defined.

(** C2 as stated fails for an empty [session_id]: the field is present, the
    derived identifier is returned and marked inferred. *)
Lemma empty_session_id_falls_through :
  empty_session_request !! "session_id" = Some (PStr "")
  ∧ empty_session_request !! "user" = Some (PStr "bob")
  ∧ empty_session_request !! "messages" = Some (PList [user_message "hello world!!"])
  ∧ extract_session_from_request empty_session_request None noon
    = Ok (PStr "conv_bob_6b52eecd", PStr "bob", true).
Proof. repeat split; by_evaluation. Qed.

(** C3, as amended.  With no session key in the body, a truthy user field
    and a significant user message, the session id is
    ["conv_" + user + "_" + hash8(user + "_" + essence)]: the digest is taken
    of the user, an underscore and the essence. *)
Theorem essence_session_id (request_data : gmap string pyval)
    (headers : option (list (string * string))) (w : World)
    (user_field : pyval) (msgs : list pyval) (content : string) :
  no_session_key request_data ->
  request_data !! "user" = Some user_field ->
  truthy user_field = true ->
  request_data !! "messages" = Some (PList msgs) ->
  first_significant msgs content ->
  extract_session_from_request request_data headers w
  = Ok (PStr ("conv_" +:+ py_str user_field +:+ "_"
              +:+ Str.take 8 (MD5.hexdigest
                    (Str.encode (py_str user_field +:+ "_" +:+ Str.take 200 content)))),
        user_field, true).
Proof. apply resolve_essence_path. Qed.

Lemma essence_session_id_witness :
  extract_session_from_request essence_request None noon
  = Ok (PStr ("conv_" +:+ "bob" +:+ "_"
              +:+ Str.take 8 (MD5.hexdigest
                    (Str.encode ("bob" +:+ "_" +:+ Str.take 200 "hello world!!")))),
        PStr "bob", true).
Proof.
  apply (essence_session_id essence_request None noon (PStr "bob")
           [user_message "hello world!!"] "hello world!!").
  - repeat split; by_evaluation.
  - by_evaluation.
  - reflexivity.
  - by_evaluation.
  - apply significant_here; by_evaluation.
Defined.

(** C3 as stated fails: the digest of the plain concatenation of user and
    essence gives another identifier. *)
Lemma essence_hash_has_separator :
  extract_session_from_request essence_request None noon
  = Ok (PStr "conv_bob_6b52eecd", PStr "bob", true)
  ∧ "conv_" +:+ "bob" +:+ "_"
    +:+ Str.take 8 (MD5.hexdigest (Str.encode ("bob" +:+ Str.take 200 "hello world!!")))
    = "conv_bob_e26c2de5".
Proof. split; by_evaluation. Qed.

(** C4, as amended.  For a truthy user field other than "anonymous" and no
    session key in the body, the resolver returns prefix + user + "_" +
    YYYYMMDD_HH of the server's local wall clock, with prefix "user_" when the
    messages are a non-empty list of entries the scan passes over (entries
    that are not dicts, dicts of another role, of missing or falsy content,
    or of a string content of trimmed length at most 10), and "flow_" when the
    messages are absent or falsy and no header names a session.  Two calls in
    the same local hour return the same id; a call 3600 seconds later, under
    the same offset from UTC, returns a different one. *)
Theorem hour_bucket_sessions (request_data : gmap string pyval)
    (headers : option (list (string * string))) (user_field : pyval) (prefix : string) :
  no_session_key request_data ->
  request_data !! "user" = Some user_field ->
  truthy user_field = true ->
  is_str user_field "anonymous" = false ->
  hour_bucketed request_data headers prefix ->
  (∀ w, extract_session_from_request request_data headers w
        = Ok (PStr (prefix +:+ py_str user_field +:+ "_" +:+ strftime_hour (datetime_now w)),
              user_field, true))
  ∧ (∀ w1 w2, local_hours w1 = local_hours w2 ->
       extract_session_from_request request_data headers w1
       = extract_session_from_request request_data headers w2)
  ∧ (∀ w1 w2, utc_offset w2 = utc_offset w1 ->
       epoch_seconds w2 = epoch_seconds w1 + 3600 ->
       extract_session_from_request request_data headers w1
       ≠ extract_session_from_request request_data headers w2).
Proof.
  intros Hkey Huser Htruthy Hanon Hcase.
  assert (∀ w, extract_session_from_request request_data headers w
               = Ok (PStr (prefix +:+ py_str user_field +:+ "_"
                           +:+ strftime_hour (datetime_now w)), user_field, true)) as Hid.
  { intros w. rewrite (resolve_without_key _ _ _ Hkey), (get_lookup _ _ _ Huser), Htruthy.
    destruct Hcase as [(-> & msgs & Hmsgs & Hne & Hall) | (-> & Hmsgs & Hheaders)].
    - rewrite (get_or_lookup _ _ _ _ Hmsgs).
      assert (truthy (PList msgs) = true) as -> by (by destruct msgs).
      cbn [andb]. unfold conversation_intelligence. cbn [iterate mbind result_bind].
      by rewrite (conversation_essence_insignificant _ Hall).
    - rewrite Hmsgs. cbn [andb]. rewrite (headers_no_session _ _ _ _ Hheaders).
      unfold continuity_or_new. by rewrite (get_or_lookup _ _ _ _ Huser), Hanon. }
  split; [exact Hid|]. split.
  - intros w1 w2 Hsame. by rewrite !Hid, (strftime_same_hour _ _ Hsame).
  - intros w1 w2 Hoffset Hlater. rewrite !Hid. intros [= Heq].
    do 3 apply append_inv_head in Heq.
    by apply (strftime_next_hour w1 w2 (local_hours_one_hour_later _ _ Hoffset Hlater)).
Qed.

Lemma hour_bucket_sessions_witness :
  (∀ w, extract_session_from_request short_request None w
        = Ok (PStr ("user_" +:+ py_str (PStr "bob") +:+ "_"
                    +:+ strftime_hour (datetime_now w)),
              PStr "bob", true))
  ∧ (∀ w1 w2, local_hours w1 = local_hours w2 ->
       extract_session_from_request short_request None w1
       = extract_session_from_request short_request None w2)
  ∧ (∀ w1 w2, utc_offset w2 = utc_offset w1 ->
       epoch_seconds w2 = epoch_seconds w1 + 3600 ->
       extract_session_from_request short_request None w1
       ≠ extract_session_from_request short_request None w2).
Proof.
  apply (hour_bucket_sessions short_request None (PStr "bob") "user_").
  - repeat split; by_evaluation.
  - by_evaluation.
  - reflexivity.
  - reflexivity.
  - left. split; [reflexivity|]. exists [user_message "hi"].
    split; [by_evaluation|]. split; [discriminate|].
    constructor; [|constructor].
    right. right. eexists. split; by_evaluation.
Defined.

(** C4 as stated fails: two calls in the same UTC hour on a server whose
    local time is UTC+05:30 fall into different buckets. *)
Lemma same_utc_hour_different_session :
  utc_hours kolkata_1740 = utc_hours kolkata_1820
  ∧ extract_session_from_request flow_request None kolkata_1740
    = Ok (PStr "flow_bob_20261104_17", PStr "bob", true)
  ∧ extract_session_from_request flow_request None kolkata_1820
    = Ok (PStr "flow_bob_20261104_18", PStr "bob", true).
Proof. repeat split; by_evaluation. Qed.

(** C8.  When methods 1 to 5 find nothing (no session field in the body, not
    both messages and user, no header naming a session, user absent or
    "anonymous"), the resolver returns, without raising, the identifier
    "auto_" + timestamp + "_" + 8 hexadecimal digits drawn from [uuid4],
    with user id "anonymous". *)
Theorem last_resort_session (request_data : gmap string pyval)
    (headers : option (list (string * string))) (w : World) :
  no_session_key request_data ->
  truthy (get_or request_data "messages" (PList [])) && truthy (get request_data "user") = false ->
  no_session_header headers ->
  request_data !! "user" = None ∨ request_data !! "user" = Some (PStr "anonymous") ->
  extract_session_from_request request_data headers w
  = Ok (PStr ("auto_" +:+ Str.of_int (now_timestamp w) +:+ "_" +:+ Str.take 8 (uuid4_hex w)),
        PStr "anonymous", true)
  ∧ String.length (Str.take 8 (uuid4_hex w)) = 8%nat
  ∧ all_hex (Str.take 8 (uuid4_hex w)) = true.
Proof.
  intros Hkey Hcombo Hheaders Huser. split; [|apply uuid4_prefix_hex].
  rewrite (resolve_without_key _ _ _ Hkey), Hcombo.
  rewrite (headers_no_session _ _ _ _ Hheaders).
  unfold continuity_or_new, get_or. by destruct Huser as [-> | ->].
Qed.

Lemma last_resort_session_witness :
  extract_session_from_request anonymous_request (Some [("host", "intranest")]) noon
  = Ok (PStr ("auto_" +:+ Str.of_int (now_timestamp noon) +:+ "_"
              +:+ Str.take 8 (uuid4_hex noon)),
        PStr "anonymous", true)
  ∧ String.length (Str.take 8 (uuid4_hex noon)) = 8%nat
  ∧ all_hex (Str.take 8 (uuid4_hex noon)) = true.
Proof.
  apply (last_resort_session anonymous_request (Some [("host", "intranest")]) noon).
  - repeat split; by_evaluation.
  - by_evaluation.
  - constructor; [by_evaluation | constructor].
  - right. by_evaluation.
Defined.

(** C9, as amended.  Texts are strings of characters U+0000 to U+00FF, which
    [encode] always accepts.  When the [messages] entry is falsy or iterable
    and every non-empty user message in it carries text, the resolver returns
    a triple without raising and the session id is truthy; it is a non-empty
    string whenever the session fields of the body hold text. *)
Theorem resolver_total_on_text (request_data : gmap string pyval)
    (headers : option (list (string * string))) (w : World) :
  text_messages (get_or request_data "messages" (PList [])) ->
  ∃ sid uid inferred,
    extract_session_from_request request_data headers w = Ok (sid, uid, inferred)
    ∧ truthy sid = true
    ∧ (text_session_fields request_data -> ∃ s, sid = PStr s ∧ s ≠ EmptyString).
Proof.
  intros Hmsgs. change (resolves_well request_data
                          (extract_session_from_request request_data headers w)).
  assert (∀ k uid inferred,
            k ∈ ["session_id"; "sessionId"; "conversation_id"; "conversationId"] ->
            truthy (get request_data k) = true ->
            resolves_well request_data (Ok (get request_data k, uid, inferred))) as Hfield.
  { intros k uid inferred Hk Hv. do 3 eexists. split; [done|]. split; [done|].
    intros Hfields. destruct (Hfields k Hk Hv) as [s Hs]. exists s. split; [done|].
    rewrite Hs in Hv. by destruct s. }
  assert (∀ (s : string) uid inferred, s ≠ EmptyString ->
            resolves_well request_data (Ok (PStr s, uid, inferred))) as Hstring.
  { intros s uid inferred Hs. do 3 eexists. split; [done|].
    split; [by destruct s|]. intros _. by exists s. }
  unfold extract_session_from_request. cbv zeta.
  destruct (truthy (get request_data "session_id")) eqn:H1.
  { apply Hfield; [set_solver | done]. }
  destruct (py_or_cases (get request_data "sessionId") (get request_data "conversation_id"))
    as [[H2 ->] | [H2 ->]].
  { destruct (py_or_cases (get request_data "sessionId") (get request_data "conversationId"))
      as [[_ ->] | [H2' _]]; [|congruence].
    rewrite H2. apply Hfield; [set_solver | done]. }
  destruct (py_or_cases (get request_data "conversation_id") (get request_data "conversationId"))
    as [[H3 ->] | [H3 ->]].
  { rewrite H3. apply Hfield; [set_solver | done]. }
  destruct (truthy (get request_data "conversationId")) eqn:H4.
  { apply Hfield; [set_solver | done]. }
  destruct (truthy (get_or request_data "messages" (PList [])) && truthy (get request_data "user"))
    eqn:Hcombo.
  - apply andb_true_iff in Hcombo as [Hm _]. unfold conversation_intelligence.
    assert (∃ essence,
              (iterate (get_or request_data "messages" (PList [])) ≫= conversation_essence)
              = Ok essence) as [essence Hessence].
    { destruct (get_or request_data "messages" (PList [])) as [| [|] | z | s | l | d];
        cbn [iterate mbind result_bind]; try discriminate.
      - cbn in Hmsgs, Hm. subst z. discriminate.
      - rewrite conversation_essence_chars. by eexists.
      - by apply conversation_essence_text.
      - rewrite conversation_essence_keys. by eexists. }
    unfold mbind in Hessence |- *.
    destruct (iterate (get_or request_data "messages" (PList []))) as [items|e];
      cbn [result_bind] in Hessence |- *; [|discriminate].
    rewrite Hessence. cbn [result_bind].
    destruct (negb (Str.is_empty essence)); apply Hstring; discriminate.
  - assert (resolves_well request_data (continuity_or_new request_data w)) as Hlater.
    { unfold continuity_or_new.
      destruct (negb (is_str _ "anonymous")); apply Hstring; discriminate. }
    unfold headers_or_later.
    destruct headers as [[|h hs]|]; [apply Hlater| |apply Hlater].
    destruct (scan_headers (h :: hs) None None) as [[value|] header_user];
      cbn [header_val]; [|apply Hlater].
    destruct (truthy (PStr value)) eqn:Hvalue; [|apply Hlater].
    apply Hstring. by destruct value.
Qed.

Lemma resolver_total_on_text_witness :
  ∃ sid uid inferred,
    extract_session_from_request longer_request None noon = Ok (sid, uid, inferred)
    ∧ truthy sid = true
    ∧ (text_session_fields longer_request -> ∃ s, sid = PStr s ∧ s ≠ EmptyString).
Proof.
  apply (resolver_total_on_text longer_request None noon).
  vm_compute. repeat (constructor; [intros _ _; by eexists|]). constructor.
Defined.

(** C9 as stated fails: a user message whose content is a list of parts
    makes the resolver raise, and a numeric [session_id] is returned as it
    is. *)
Lemma multimodal_content_raises :
  extract_session_from_request multimodal_request None noon
  = Raise (AttributeError "object has no attribute 'strip'")
  ∧ extract_session_from_request numeric_session_request None noon
    = Ok (PInt 42, PStr "anonymous", false).
Proof. split; by_evaluation. Qed.

(** ** The text processor: the claims *)

Lemma any_pattern_true (patterns : list string) (text : string) :
  any_pattern patterns text = true
  ↔ ∃ pattern, pattern ∈ patterns ∧ Re.search pattern text = true.
Proof.
  induction patterns as [|p rest IH]; cbn [any_pattern].
  - split; [discriminate | intros (q & Hq & _); by apply elem_of_nil in Hq].
  - destruct (Re.search p text) eqn:Hp.
    + split; [|done]. intros _. exists p. split; [left | done].
    + rewrite IH. split.
      * intros (q & Hq & Hs). exists q. split; [by right | done].
      * intros (q & Hq & Hs). apply elem_of_cons in Hq as [-> | Hq]; [congruence|].
        by exists q.
Qed.

Lemma any_pattern_false (patterns : list string) (text : string) :
  any_pattern patterns text = false
  ↔ ∀ pattern, pattern ∈ patterns -> Re.search pattern text = false.
Proof.
  rewrite <- not_true_iff_false, any_pattern_true. split.
  - intros Hnone q Hq. apply not_true_iff_false. intros Hs. apply Hnone. by exists q.
  - intros Hall (q & Hq & Hs). rewrite (Hall q Hq) in Hs. discriminate.
Qed.

(** The rule loop answers with the first group of the table that has a
    match. *)
Lemma rule_based_first (table : list (ConversationIntent * list string)) (text : string) :
  (∃ group, group ∈ table ∧ any_pattern (snd group) text = true) ->
  ∃ before intent patterns after,
    table = (before ++ (intent, patterns) :: after)%list
    ∧ any_pattern patterns text = true
    ∧ Forall (fun group => any_pattern (snd group) text = false) before
    ∧ rule_based table text = Some intent.
Proof.
  induction table as [|[intent patterns] rest IH]; intros (group & Hin & Hmatch).
  - by apply elem_of_nil in Hin.
  - cbn [rule_based]. destruct (any_pattern patterns text) eqn:Hhere.
    + exists [], intent, patterns, rest. by repeat split.
    + apply elem_of_cons in Hin as [-> | Hin]; [cbn [snd] in Hmatch; congruence|].
      destruct IH as (before & intent' & patterns' & after & -> & Hm & Hnone & Hrule).
      { by exists group. }
      exists ((intent, patterns) :: before), intent', patterns', after.
      repeat split; [done | by constructor | done].
Qed.

(** C6, as amended.  Matching is on the lowercased text.  When some pattern
    of the table matches, [classify_intent] returns the intent of the first
    group, in table order, that has a matching pattern, whatever the model
    would answer and without sending it a prompt; in particular a text in
    which "what is" occurs as whole words is classified as definition. *)
Theorem rule_match_classifies (openai : string -> result string) (text : string)
    (intent : ConversationIntent) (patterns : list string) (pattern : string) :
  (intent, patterns) ∈ intent_patterns ->
  pattern ∈ patterns ->
  Re.search pattern (Str.lower text) = true ->
  (∃ before first_intent first_patterns after,
     intent_patterns = (before ++ (first_intent, first_patterns) :: after)%list
     ∧ (∃ p, p ∈ first_patterns ∧ Re.search p (Str.lower text) = true)
     ∧ (∀ group p, group ∈ before -> p ∈ snd group -> Re.search p (Str.lower text) = false)
     ∧ classify_intent openai text = (first_intent, []))
  ∧ (pattern = "\bwhat is\b" -> classify_intent openai text = (DEFINITION, [])).
Proof.
  intros Hgroup Hpattern Hsearch.
  destruct (rule_based_first intent_patterns (Str.lower text))
    as (before & first_intent & first_patterns & after & Htable & Hm & Hnone & Hrule).
  { exists (intent, patterns). split; [done|]. apply any_pattern_true. by exists pattern. }
  split.
  - exists before, first_intent, first_patterns, after.
    split; [done|]. split; [by apply any_pattern_true|]. split.
    + intros group p Hin Hp. rewrite Forall_forall in Hnone.
      by apply (proj1 (any_pattern_false _ _) (Hnone group Hin)).
    + unfold classify_intent. by rewrite Hrule.
  - intros ->. unfold classify_intent, intent_patterns.
    cbn [rule_based any_pattern]. by rewrite Hsearch.
Qed.

Lemma rule_match_classifies_witness :
  (∃ before first_intent first_patterns after,
     intent_patterns = (before ++ (first_intent, first_patterns) :: after)%list
     ∧ (∃ p, p ∈ first_patterns ∧ Re.search p (Str.lower "What is TCS?") = true)
     ∧ (∀ group p, group ∈ before -> p ∈ snd group ->
          Re.search p (Str.lower "What is TCS?") = false)
     ∧ classify_intent (constant_model "general") "What is TCS?" = (first_intent, []))
  ∧ ("\bwhat is\b" = "\bwhat is\b" ->
     classify_intent (constant_model "general") "What is TCS?" = (DEFINITION, [])).
Proof.
  apply (rule_match_classifies (constant_model "general") "What is TCS?" DEFINITION
           ["\bwhat is\b"; "\bdefine\b"; "\bexplain\b"; "\bmean\b";
            "\bdefinition of\b"; "\bwhat does.*mean\b"] "\bwhat is\b").
  - left.
  - left.
  - by_evaluation.
Defined.

(** C6 as stated fails: "what is" occurs inside "somewhat isolated", no
    pattern matches, and the model is asked. *)
Lemma what_is_inside_a_word :
  Str.contains "what is" "somewhat isolated systems" = true
  ∧ classify_intent (constant_model "general") "somewhat isolated systems"
    = (GENERAL, [classification_prompt "somewhat isolated systems"]).
Proof. split; by_evaluation. Qed.

(** Up to 10^15 words, the double comparison with 0.3 decides "fewer than
    30%". *)
Lemma below_0_3_exact (matches count : Z) :
  0 < count < 10 ^ 15 -> below_0_3 matches count = true ↔ 100 * matches < 30 * count.
Proof.
  intros Hcount. unfold below_0_3. rewrite Z.leb_le.
  change (2 ^ 55) with 36028797018963968. change (10 ^ 15) with 1000000000000000 in Hcount.
  lia.
Qed.

(** C7, as amended.  For a non-empty previous topic (of fewer than 10^15
    words, more than a machine holds), [detect_topic_change] answers true
    exactly when one of the topic-change patterns, which are anchored at word
    boundaries, matches the lowercased current text, or fewer than 30% of the
    words of the lowercased topic occur in the lowercased current text as
    substrings, inside longer words too. *)
Theorem topic_change_iff (current_message previous_topic : string) :
  previous_topic ≠ EmptyString ->
  Z.of_nat (length (topic_words previous_topic)) < 10 ^ 15 ->
  detect_topic_change current_message (Some previous_topic) = true
  ↔ (∃ indicator, indicator ∈ change_indicators
                  ∧ Re.search indicator (Str.lower current_message) = true)
    ∨ 100 * Z.of_nat (length (recurring_words previous_topic current_message))
      < 30 * Z.of_nat (length (topic_words previous_topic)).
Proof.
  intros Hne Hbound. unfold detect_topic_change.
  assert (Str.is_empty previous_topic = false) as -> by (by destruct previous_topic).
  cbv zeta. rewrite <- any_pattern_true.
  destruct (any_pattern change_indicators (Str.lower current_message)); [by split; [left|]|].
  fold (topic_words previous_topic). unfold topic_matches.
  fold (recurring_words previous_topic current_message).
  destruct (0 <? Z.of_nat (length (topic_words previous_topic))) eqn:Hcount.
  - apply Z.ltb_lt in Hcount. cbn [andb].
    destruct (below_0_3 _ _) eqn:Hlt.
    + apply below_0_3_exact in Hlt; [|done]. by split; [right|].
    + split; [discriminate|]. intros [? | Hfew]; [done|].
      apply below_0_3_exact in Hfew; [|done]. congruence.
  - apply Z.ltb_ge in Hcount. cbn [andb]. split; [discriminate|].
    intros [? | Hfew]; [done|]. lia.
Qed.

Lemma topic_change_iff_witness :
  detect_topic_change "Tell me about lunch" (Some "TCS security") = true
  ↔ (∃ indicator, indicator ∈ change_indicators
                  ∧ Re.search indicator (Str.lower "Tell me about lunch") = true)
    ∨ 100 * Z.of_nat (length (recurring_words "TCS security" "Tell me about lunch"))
      < 30 * Z.of_nat (length (topic_words "TCS security")).
Proof.
  apply (topic_change_iff "Tell me about lunch" "TCS security").
  - discriminate.
  - by_evaluation.
Defined.

(** C7 as stated fails in both directions of its two tests.  The topic "AI"
    does not recur among the words of the first message, yet the code finds
    it inside "maintain" and reports no change; the second message contains
    the phrase "next topic", yet not at a word boundary, and the code reports
    no change. *)
Lemma topic_word_inside_a_word :
  spec_topic_change "Please maintain the mailing list" "AI" = true
  ∧ detect_topic_change "Please maintain the mailing list" (Some "AI") = false
  ∧ Str.contains "next topic" "xnext topic tcs" = true
  ∧ spec_topic_change "xnext topic tcs" "tcs" = true
  ∧ detect_topic_change "xnext topic tcs" (Some "tcs") = false.
Proof. repeat split; by_evaluation. Qed.

(** C10.  Without a previous topic no topic change is signalled, whatever the
    message. *)
Theorem no_previous_topic_no_change (current_message : string) :
  detect_topic_change current_message None = false.
Proof. reflexivity. Qed.

(** ** The handlers: the claims *)

Lemma bind_ok {A B : Type} (m : result A) (k : A -> result B) (b : B) :
  m ≫= k = Ok b -> ∃ a, m = Ok a ∧ k a = Ok b.
Proof.
  destruct m as [a|e]; [|discriminate]. intros Hk. by exists a.
Qed.

(** Whatever the body of the [try] returns is a completion or a stream that
    carries one assistant message. *)
Lemma completions_body_reply (available : bool)
    (rag : pyval -> pyval -> pyval -> result string)
    (generator : option (pyval -> pyval -> pyval -> result string))
    (recent : result (option string))
    (request_data : gmap string pyval) (headers : list (string * string)) (w : World)
    (r : http_response) :
  completions_body available rag generator recent request_data headers w = Ok r ->
  ∃ text, assistant_reply r text.
Proof.
  unfold completions_body. intros Hbody.
  apply bind_ok in Hbody as ([[sid uid] inferred] & _ & Hbody).
  apply bind_ok in Hbody as (ctx & _ & Hbody).
  apply bind_ok in Hbody as (items & _ & Hbody).
  apply bind_ok in Hbody as (msg & _ & Hbody).
  apply bind_ok in Hbody as (? & _ & Hbody).
  apply bind_ok in Hbody as (text & _ & Hbody).
  exists text. destruct (truthy _).
  - destruct sid; try discriminate. by injection Hbody as <-.
  - apply bind_ok in Hbody as (both & _ & Hbody). by injection Hbody as <-.
Qed.

(** What the body of the [try] answers with is what the content generation
    returned. *)
Lemma completions_body_content (available : bool)
    (rag : pyval -> pyval -> pyval -> result string)
    (generator : option (pyval -> pyval -> pyval -> result string))
    (recent : result (option string))
    (request_data : gmap string pyval) (headers : list (string * string)) (w : World)
    (r : http_response) :
  completions_body available rag generator recent request_data headers w = Ok r ->
  ∃ user_message user_id session_id model text,
    (if available
     then generate_conversational_content available rag generator
            user_message user_id session_id model w
     else generate_intranest_content generator user_message user_id model) = Ok text
    ∧ assistant_reply r text.
Proof.
  unfold completions_body. intros Hbody.
  apply bind_ok in Hbody as ([[sid uid] inferred] & _ & Hbody).
  apply bind_ok in Hbody as (ctx & _ & Hbody).
  apply bind_ok in Hbody as (items & _ & Hbody).
  apply bind_ok in Hbody as (msg & _ & Hbody).
  apply bind_ok in Hbody as (? & _ & Hbody).
  apply bind_ok in Hbody as (text & Htext & Hbody).
  eexists msg, _, sid, _, text. split; [exact Htext|].
  destruct (truthy _).
  - destruct sid; try discriminate. by injection Hbody as <-.
  - apply bind_ok in Hbody as (both & _ & Hbody). by injection Hbody as <-.
Qed.

(** With the backends down the content generation returns the fixed text of
    the missing generator, or raises. *)
Lemma content_when_backends_down (available : bool)
    (rag : pyval -> pyval -> pyval -> result string)
    (generator : option (pyval -> pyval -> pyval -> result string))
    (user_message user_id session_id model : pyval) (w : World) (text : string) :
  backends_down rag generator ->
  (if available
   then generate_conversational_content available rag generator
          user_message user_id session_id model w
   else generate_intranest_content generator user_message user_id model) = Ok text ->
  generator = None ∧ text = unavailable.
Proof.
  intros [Hrag Hgenerator].
  assert (generate_intranest_content generator user_message user_id model = Ok text ->
          generator = None ∧ text = unavailable) as Hstandard.
  { unfold generate_intranest_content. destruct generator as [generate|].
    - destruct (Hgenerator user_message user_id model) as [e ->]. discriminate.
    - by intros [= <-]. }
  destruct available; [|exact Hstandard].
  unfold generate_conversational_content. cbn [negb].
  destruct (Hrag user_message user_id
              (if negb (truthy session_id)
               then PStr ("session_" +:+ Str.of_int (now_timestamp w) +:+ "_"
                          +:+ Str.take 8 (uuid4_hex w))
               else session_id)) as [e ->].
  exact Hstandard.
Qed.




(** * Further properties of the code *)

(** ** The resolver *)

Lemma conversation_intelligence_outcome (messages user_field : pyval) (w : World)
    (sid uid : pyval) (inferred : bool) :
  conversation_intelligence messages user_field w = Ok (sid, uid, inferred) ->
  truthy sid = true ∧ inferred = true.
Proof.
  unfold conversation_intelligence. intros Hrun.
  apply bind_ok in Hrun as (items & _ & Hrun).
  apply bind_ok in Hrun as (essence & _ & Hrun).
  destruct (negb (Str.is_empty essence)); by injection Hrun as <- <- <-.
Qed.

Lemma continuity_or_new_outcome (request_data : gmap string pyval) (w : World)
    (sid uid : pyval) (inferred : bool) :
  continuity_or_new request_data w = Ok (sid, uid, inferred) ->
  truthy sid = true ∧ inferred = true.
Proof.
  unfold continuity_or_new. destruct (negb (is_str _ "anonymous"));
    by intros [= <- <- <-].
Qed.

Lemma headers_or_later_outcome (request_data : gmap string pyval)
    (headers : option (list (string * string))) (user_id : pyval) (w : World)
    (sid uid : pyval) (inferred : bool) :
  headers_or_later request_data headers user_id w = Ok (sid, uid, inferred) ->
  truthy sid = true ∧ inferred = true.
Proof.
  unfold headers_or_later.
  destruct headers as [[|h hs]|]; try apply continuity_or_new_outcome.
  destruct (scan_headers (h :: hs) None None) as [header_session header_user].
  destruct (truthy (header_val header_session)) eqn:Htruthy;
    [|apply continuity_or_new_outcome].
  by intros [= <- <- <-].
Qed.

(** What every return of the resolver has in common. *)
Lemma resolve_outcome (request_data : gmap string pyval)
    (headers : option (list (string * string))) (w : World)
    (sid uid : pyval) (inferred : bool) :
  extract_session_from_request request_data headers w = Ok (sid, uid, inferred) ->
  truthy sid = true
  ∧ (inferred = false ↔ truthy (get request_data "session_id") = true).
Proof.
  unfold extract_session_from_request. cbv zeta.
  destruct (truthy (get request_data "session_id")) eqn:H1.
  { intros [= <- <- <-]. by split. }
  assert (∀ (b : bool), b = true -> (b = false ↔ false = true)) as Hflag
    by (intros b ->; split; discriminate).
  destruct (truthy (py_or _ (get request_data "conversationId"))) eqn:H2.
  { intros [= <- <- <-]. split; [done | by apply Hflag]. }
  destruct (_ && _).
  - intros [Hsid ->]%conversation_intelligence_outcome. split; [done | by apply Hflag].
  - intros [Hsid ->]%headers_or_later_outcome. split; [done | by apply Hflag].
Qed.

(** X1.  Whenever the resolver returns, the third component is false exactly
    when the body carries a truthy [session_id]: every other way of finding
    or making a session id is marked as inferred. *)
Theorem inferred_flag_iff (request_data : gmap string pyval)
    (headers : option (list (string * string))) (w : World)
    (sid uid : pyval) (inferred : bool) :
  extract_session_from_request request_data headers w = Ok (sid, uid, inferred) ->
  (inferred = false ↔ truthy (get request_data "session_id") = true).
Proof. intros Hrun. by destruct (resolve_outcome _ _ _ _ _ _ Hrun). Qed.

Lemma inferred_flag_iff_witness :
  (true = false ↔ truthy (get essence_request "session_id") = true).
Proof.
  apply (inferred_flag_iff essence_request None noon (PStr "conv_bob_6b52eecd") (PStr "bob")).
  by_evaluation.
Defined.

(** X2.  With no truthy [session_id], the first truthy value among
    [sessionId], [conversation_id] and [conversationId] is returned as the
    session id, as it is and marked inferred, with the first truthy value
    among [userId], [user_id] and [user], or "anonymous", as user id;
    messages and headers are not looked at. *)
Theorem alternate_session_keys (request_data : gmap string pyval)
    (headers : option (list (string * string))) (w : World) (sid : pyval) :
  truthy (get request_data "session_id") = false ->
  find truthy [get request_data "sessionId"; get request_data "conversation_id";
               get request_data "conversationId"] = Some sid ->
  extract_session_from_request request_data headers w
  = Ok (sid,
        default (PStr "anonymous")
          (find truthy [get request_data "userId"; get request_data "user_id";
                        get request_data "user"]),
        true).
Proof.
  intros H1 Hfind. unfold extract_session_from_request. cbv zeta. rewrite H1.
  assert (∀ a b c, py_or (py_or (py_or a b) c) (PStr "anonymous")
                   = default (PStr "anonymous") (find truthy [a; b; c])) as Huser.
  { intros a b c. unfold py_or. cbn [find].
    destruct (truthy a) eqn:Ha; cbn [default]; rewrite ?Ha; [done|].
    destruct (truthy b) eqn:Hb; cbn [default]; rewrite ?Hb; [done|].
    by destruct (truthy c) eqn:Hc. }
  rewrite Huser. clear Huser.
  assert (py_or (py_or (get request_data "sessionId") (get request_data "conversation_id"))
                (get request_data "conversationId") = sid ∧ truthy sid = true) as [-> ->].
  { revert Hfind. unfold py_or. cbn [find].
    destruct (truthy (get request_data "sessionId")) eqn:Ha; rewrite ?Ha.
    { by intros [= <-]. }
    destruct (truthy (get request_data "conversation_id")) eqn:Hb; rewrite ?Hb.
    { by intros [= <-]. }
    destruct (truthy (get request_data "conversationId")) eqn:Hc; [|discriminate].
    by intros [= <-]. }
  reflexivity.
Qed.

Lemma alternate_session_keys_witness :
  extract_session_from_request alternate_request None noon
  = Ok (PStr "c-7",
        default (PStr "anonymous")
          (find truthy [get alternate_request "userId"; get alternate_request "user_id";
                        get alternate_request "user"]),
        true).
Proof.
  apply (alternate_session_keys alternate_request None noon (PStr "c-7")); by_evaluation.
Defined.

Lemma scan_headers_found (hs : list (string * string)) (value : string)
    (header_user : option string) :
  value ≠ EmptyString -> fst (scan_headers hs (Some value) header_user) = Some value.
Proof.
  intros Hvalue. revert header_user.
  induction hs as [|[name v] rest IH]; intros header_user; [done|].
  cbn [scan_headers falsy_header].
  assert (Str.is_empty value = false) as -> by (by destruct value).
  rewrite andb_false_r. destruct (_ && _); apply IH.
Qed.

Lemma scan_headers_empty_values (before rest : list (string * string))
    (header_session header_user : option string) :
  falsy_header header_session = true ->
  Forall (fun h => Str.contains "session" (Str.lower (fst h)) = true ->
                   snd h = EmptyString) before ->
  ∃ header_session' header_user',
    falsy_header header_session' = true
    ∧ scan_headers (before ++ rest)%list header_session header_user
      = scan_headers rest header_session' header_user'.
Proof.
  intros Hfalsy Hall. revert header_session header_user Hfalsy.
  induction Hall as [|[name v] before Hname _ IH]; intros header_session header_user Hfalsy.
  - by exists header_session, header_user.
  - cbn [app scan_headers]. cbn [fst snd] in Hname.
    destruct (Str.contains "session" (Str.lower name)) eqn:Hsession.
    + rewrite Hfalsy. cbn [andb]. apply IH. by rewrite (Hname eq_refl).
    + cbn [andb]. destruct (_ && _); by apply IH.
Qed.

(** X3.  When the body gives no session key and does not carry both messages
    and a user, the session id is the value of the first header whose name
    contains "session" (in any letter case) and whose value is not empty;
    session headers with an empty value before it are passed over. *)
Theorem header_session_wins (request_data : gmap string pyval) (w : World)
    (before after : list (string * string)) (name value : string) :
  no_session_key request_data ->
  truthy (get_or request_data "messages" (PList [])) && truthy (get request_data "user") = false ->
  Forall (fun h => Str.contains "session" (Str.lower (fst h)) = true ->
                   snd h = EmptyString) before ->
  Str.contains "session" (Str.lower name) = true ->
  value ≠ EmptyString ->
  ∃ uid, extract_session_from_request request_data
           (Some (before ++ (name, value) :: after)%list) w
         = Ok (PStr value, uid, true).
Proof.
  intros Hkey Hcombo Hbefore Hname Hvalue.
  rewrite (resolve_without_key _ _ _ Hkey), Hcombo. unfold headers_or_later.
  destruct (scan_headers_empty_values before ((name, value) :: after) None None eq_refl Hbefore)
    as (hsess & huser & Hfalsy & Hscan).
  assert (fst (scan_headers (before ++ (name, value) :: after)%list None None) = Some value)
    as Hfound.
  { rewrite Hscan. cbn [scan_headers]. rewrite Hname, Hfalsy. cbn [andb].
    by apply scan_headers_found. }
  destruct (before ++ (name, value) :: after)%list as [|h hs] eqn:Hlist.
  { by destruct before. }
  destruct (scan_headers (h :: hs) None None) as [header_session header_user].
  cbn [fst] in Hfound. subst header_session. cbn [header_val].
  assert (truthy (PStr value) = true) as -> by (by destruct value).
  by eexists.
Qed.

Lemma header_session_wins_witness :
  ∃ uid, extract_session_from_request flow_request
           (Some ([("host", "intranest"); ("x-session-id", ""); ("x-user-id", "carol")]
                  ++ ("X-Chat-Session", "h-9") :: [("x-session-token", "h-10")])%list) noon
         = Ok (PStr "h-9", uid, true).
Proof.
  apply (header_session_wins flow_request noon
           [("host", "intranest"); ("x-session-id", ""); ("x-user-id", "carol")]
           [("x-session-token", "h-10")] "X-Chat-Session" "h-9").
  - repeat split; by_evaluation.
  - by_evaluation.
  - repeat constructor; vm_compute; first [reflexivity | discriminate | intros; reflexivity].
  - by_evaluation.
  - discriminate.
Defined.

(** X4.  Only the first 200 characters of the first significant message
    count: two requests of the same user whose first significant messages
    agree on their first 200 characters get the same session id. *)
Theorem essence_is_first_200 (user_field : pyval) (content1 content2 : string)
    (body1 body2 : gmap string pyval) (msgs1 msgs2 : list pyval)
    (headers1 headers2 : option (list (string * string))) (w1 w2 : World) :
  truthy user_field = true ->
  no_session_key body1 -> no_session_key body2 ->
  body1 !! "user" = Some user_field -> body2 !! "user" = Some user_field ->
  body1 !! "messages" = Some (PList msgs1) -> body2 !! "messages" = Some (PList msgs2) ->
  first_significant msgs1 content1 -> first_significant msgs2 content2 ->
  Str.take 200 content1 = Str.take 200 content2 ->
  extract_session_from_request body1 headers1 w1
  = extract_session_from_request body2 headers2 w2.
Proof.
  intros Hu Hk1 Hk2 Hu1 Hu2 Hm1 Hm2 Hf1 Hf2 Hsame.
  rewrite (resolve_essence_path body1 headers1 w1 user_field msgs1 content1) by done.
  rewrite (resolve_essence_path body2 headers2 w2 user_field msgs2 content2) by done.
  by rewrite Hsame.
Qed.

Lemma essence_is_first_200_witness :
  extract_session_from_request
    {[ "user" := PStr "bob"; "messages" := PList [user_message (long_prompt "Thanks.")] ]}
    None noon
  = extract_session_from_request
      {[ "user" := PStr "bob";
         "messages" := PList [user_message (long_prompt "Use bullet points.")] ]}
      None one_hour_after_noon.
Proof.
  apply (essence_is_first_200 (PStr "bob") (long_prompt "Thanks.")
           (long_prompt "Use bullet points.") _ _
           [user_message (long_prompt "Thanks.")]
           [user_message (long_prompt "Use bullet points.")]).
  - reflexivity.
  - repeat split; by_evaluation.
  - repeat split; by_evaluation.
  - by_evaluation.
  - by_evaluation.
  - by_evaluation.
  - by_evaluation.
  - apply significant_here; by_evaluation.
  - apply significant_here; by_evaluation.
  - by_evaluation.
Defined.

Lemma take_8_hex_bytes (x1 x2 x3 x4 : Z) (rest : string) :
  Str.take 8 (Str.hex_byte x1 +:+ Str.hex_byte x2 +:+ Str.hex_byte x3
              +:+ Str.hex_byte x4 +:+ rest)
  = Str.hex_byte x1 +:+ Str.hex_byte x2 +:+ Str.hex_byte x3 +:+ Str.hex_byte x4.
Proof. reflexivity. Qed.

(** The digest prefix is made of 8 hexadecimal digits. *)
Lemma hash8_hex (text : string) :
  String.length (hash8 text) = 8%nat ∧ all_hex (hash8 text) = true.
Proof.
  unfold hash8, MD5.hexdigest, MD5.digest.
  destruct (MD5.blocks _ _ _) as [[[a b] c] d].
  cbn [MD5.le_bytes seq map app fold_right].
  rewrite take_8_hex_bytes. split; [reflexivity|].
  repeat apply all_hex_append; apply hex_byte_is_hex.
Qed.

(** X5.  On the essence path the session id is "conv_", the user, an
    underscore and exactly 8 lowercase hexadecimal digits. *)
Theorem essence_session_shape (request_data : gmap string pyval)
    (headers : option (list (string * string))) (w : World)
    (user_field : pyval) (msgs : list pyval) (content : string) :
  no_session_key request_data ->
  request_data !! "user" = Some user_field ->
  truthy user_field = true ->
  request_data !! "messages" = Some (PList msgs) ->
  first_significant msgs content ->
  ∃ digits, extract_session_from_request request_data headers w
            = Ok (PStr ("conv_" +:+ py_str user_field +:+ "_" +:+ digits), user_field, true)
            ∧ String.length digits = 8%nat
            ∧ all_hex digits = true.
Proof.
  intros Hkey Huser Htruthy Hmsgs Hfirst. eexists. split.
  - by apply (resolve_essence_path _ _ _ user_field msgs content).
  - apply hash8_hex.
Qed.

Lemma essence_session_shape_witness :
  ∃ digits, extract_session_from_request essence_request None noon
            = Ok (PStr ("conv_" +:+ py_str (PStr "bob") +:+ "_" +:+ digits), PStr "bob", true)
            ∧ String.length digits = 8%nat
            ∧ all_hex digits = true.
Proof.
  apply (essence_session_shape essence_request None noon (PStr "bob")
           [user_message "hello world!!"] "hello world!!").
  - repeat split; by_evaluation.
  - by_evaluation.
  - reflexivity.
  - by_evaluation.
  - apply significant_here; by_evaluation.
Defined.

(** ** The conversation analysis *)

Lemma analyze_loop_invariant (messages : list pyval) (ctx0 ctx : context) :
  analyze_loop messages ctx0 = Ok ctx ->
  turn_count ctx = turn_count ctx0 + Z.of_nat (length (user_turns messages))
  ∧ user_messages ctx = (user_messages ctx0 ++ map content_of (user_turns messages))%list
  ∧ conversation_type ctx = conversation_type ctx0
  ∧ ∃ new, topics ctx = (topics ctx0 ++ new)%list
           ∧ Forall (fun t => t = "TCS" ∨ t = "AI") new
           ∧ Z.of_nat (length new) <= 2 * Z.of_nat (length (user_turns messages)).
Proof.
  revert ctx0. induction messages as [|m rest IH]; intros ctx0.
  - intros [= <-]. cbn. rewrite app_nil_r. repeat split; [lia|].
    exists []. rewrite app_nil_r. repeat split; [constructor | done].
  - assert (is_user_message m = false -> analyze_loop (m :: rest) ctx0 = analyze_loop rest ctx0)
      as Hskip.
    { destruct m as [| | | | |msg]; try done. cbn [is_user_message analyze_loop].
      by intros ->. }
    unfold user_turns. rewrite filter_cons.
    destruct (is_user_message m) eqn:Huser.
    + destruct m as [| | | | |msg]; try discriminate.
      cbn [is_user_message] in Huser. cbn [analyze_loop]. rewrite Huser.
      intros Hrun. apply bind_ok in Hrun as (lowered & _ & Hrun).
      set (tcs := if any_word ["tcs"; "transit"; "cyber"; "security"] lowered
                  then ["TCS"] else []) in Hrun.
      set (ai := if any_word ["ai"; "artificial"; "intelligence"; "improve"] lowered
                 then ["AI"] else []) in Hrun.
      assert (Forall (fun t => t = "TCS" ∨ t = "AI") tcs ∧ (length tcs <= 1)%nat) as [Htcs Hltcs].
      { subst tcs. destruct (any_word ["tcs"; "transit"; "cyber"; "security"] lowered);
          split; cbn [length];
          [constructor; [by left | constructor] | lia | constructor | lia]. }
      clearbody tcs.
      assert (Forall (fun t => t = "TCS" ∨ t = "AI") ai ∧ (length ai <= 1)%nat) as [Hai Hlai].
      { subst ai. destruct (any_word ["ai"; "artificial"; "intelligence"; "improve"] lowered);
          split; cbn [length];
          [constructor; [by right | constructor] | lia | constructor | lia]. }
      clearbody ai.
      apply IH in Hrun as (Hcount & Hmsgs & Htype & new & Htopics & Hnew & Hlen).
      cbn [turn_count user_messages topics conversation_type] in *.
      rewrite decide_True by done. cbn [length map].
      fold (user_turns rest).
      split; [lia|]. split; [by rewrite Hmsgs, <- app_assoc|]. split; [done|].
      exists (tcs ++ ai ++ new)%list. split; [by rewrite Htopics, <- !app_assoc|]. split.
      * by repeat apply Forall_app_2.
      * rewrite !length_app. lia.
    + rewrite (Hskip eq_refl). rewrite decide_False by done. apply IH.
Qed.

(** X6.  Whenever the analysis of a message list returns, the turn count is
    the number of dicts of role "user", the recorded user messages are their
    contents in order, the conversation type is "unknown", "initial" or
    "continuation" as that number is 0, 1 or more, and the topics are "TCS"
    and "AI" only, at most two per turn. *)
Theorem analysis_counts_turns (messages : list pyval) (ctx : context) :
  analyze_conversation_context (PList messages) = Ok ctx ->
  turn_count ctx = Z.of_nat (length (user_turns messages))
  ∧ user_messages ctx = map content_of (user_turns messages)
  ∧ conversation_type ctx
    = (if turn_count ctx =? 0 then "unknown"
       else if turn_count ctx =? 1 then "initial" else "continuation")
  ∧ Forall (fun t => t = "TCS" ∨ t = "AI") (topics ctx)
  ∧ Z.of_nat (length (topics ctx)) <= 2 * turn_count ctx.
Proof.
  unfold analyze_conversation_context. destruct messages as [|m rest].
  - intros [= <-]. cbn. repeat split; [constructor | done].
  - cbn [truthy negb iterate mbind result_bind].
    destruct (analyze_loop (m :: rest) _) as [ctx'|e] eqn:Hloop; [|discriminate].
    intros [= <-]. cbn [turn_count user_messages topics conversation_type].
    apply analyze_loop_invariant in Hloop
      as (Hcount & Hmsgs & Htype & new & Htopics & Hnew & Hlen).
    cbn [turn_count user_messages topics conversation_type app] in *.
    rewrite Hcount, Hmsgs, Htopics, Htype. rewrite Z.add_0_l.
    split; [done|]. split; [done|]. split; [|by split].
    destruct (Z.of_nat (length (user_turns (m :: rest))) =? 1) eqn:H1.
    { apply Z.eqb_eq in H1. by rewrite H1. }
    destruct (1 <? Z.of_nat (length (user_turns (m :: rest)))) eqn:H2.
    { apply Z.ltb_lt in H2. destruct (_ =? 0) eqn:H0; [apply Z.eqb_eq in H0; lia | done]. }
    apply Z.eqb_neq in H1. apply Z.ltb_ge in H2.
    assert (Z.of_nat (length (user_turns (m :: rest))) = 0) as -> by lia. done.
Qed.

Lemma analysis_counts_turns_witness :
  turn_count {| turn_count := 3; user_messages := [PStr "hi"; PStr "hello world!!";
                                                   PStr "and a second question"];
                topics := []; conversation_type := "continuation" |}
  = Z.of_nat (length (user_turns
      [ PDict [("role", PStr "system"); ("content", PStr "Be brief.")];
        user_message "hi"; user_message "hello world!!";
        user_message "and a second question" ])).
Proof.
  apply (analysis_counts_turns
           [ PDict [("role", PStr "system"); ("content", PStr "Be brief.")];
             user_message "hi"; user_message "hello world!!";
             user_message "and a second question" ]).
  by_evaluation.
Defined.

Lemma analyze_loop_returns (messages : list pyval) (ctx0 : context) :
  (∃ ctx, analyze_loop messages ctx0 = Ok ctx)
  ↔ Forall (fun m => is_user_message m = true -> is_text (content_of m) = true) messages.
Proof.
  revert ctx0. induction messages as [|m rest IH]; intros ctx0.
  - split; [constructor | by eexists].
  - rewrite Forall_cons.
    destruct m as [| | | | |msg];
      try (cbn [analyze_loop]; rewrite IH; split; [by split | by intros [_ ?]]).
    cbn [analyze_loop is_user_message content_of].
    destruct (is_str (item_get msg "role" (PStr "")) "user") eqn:Hrole.
    + destruct (item_get msg "content" (PStr "")) as [| | |s| |] eqn:Hcontent;
        cbn [lower_method mbind result_bind is_text];
        try (split; [by intros [? ?] | intros [Htext _]; by specialize (Htext eq_refl)]).
      rewrite IH. split; [by split | by intros [_ ?]].
    + rewrite IH. split; [by split | by intros [_ ?]].
Qed.

(** X7.  The analysis of a message list returns exactly when every dict of
    role "user" in it has a string content (a missing content counts as the
    empty string; a null, numeric or list content makes it raise). *)
Theorem analysis_returns_iff (messages : list pyval) :
  (∃ ctx, analyze_conversation_context (PList messages) = Ok ctx)
  ↔ Forall (fun m => is_user_message m = true -> is_text (content_of m) = true) messages.
Proof.
  unfold analyze_conversation_context. destruct messages as [|m rest].
  - split; [constructor | by eexists].
  - cbn [truthy negb iterate mbind result_bind].
    rewrite <- (analyze_loop_returns (m :: rest)
                  {| turn_count := 0; user_messages := []; topics := [];
                     conversation_type := "unknown" |}).
    destruct (analyze_loop (m :: rest) _) as [ctx'|e];
      split; intros [ctx Hctx]; try discriminate; by eexists.
Qed.

(** ** The chat completions handler *)

Lemma bind_ext {A B : Type} (m : result A) (k1 k2 : A -> result B) :
  (∀ a, k1 a = k2 a) -> m ≫= k1 = m ≫= k2.
Proof. intros Hk. destruct m as [a|e]; [apply Hk | done]. Qed.

Lemma len_append (s t : string) : Str.len (s +:+ t) = Str.len s + Str.len t.
Proof.
  unfold Str.len. induction s as [|c s IH]; [done|].
  change (String c s +:+ t) with (String c (s +:+ t)).
  change (String.length (String c (s +:+ t))) with (S (String.length (s +:+ t))).
  change (String.length (String c s)) with (S (String.length s)). lia.
Qed.

(** X8.  A message list whose last entry is not a dict is answered with the
    apology, whatever the services do: the search for the latest user message
    starts at the end and asks every entry for its role. *)
Theorem stray_last_message_is_refused (available : bool)
    (rag : pyval -> pyval -> pyval -> result string)
    (generator : option (pyval -> pyval -> pyval -> result string))
    (recent : result (option string))
    (request_data : gmap string pyval) (headers : list (string * string)) (w : World)
    (messages : list pyval) (m : pyval) :
  request_data !! "messages" = Some (PList messages) ->
  last messages = Some m ->
  is_dict m = false ->
  chat_completions_with_streaming available rag generator recent request_data headers w
  = Ok (completions_error w).
Proof.
  intros Hmsgs Hlast Hdict.
  assert (∃ e, completions_body available rag generator recent request_data headers w
               = Raise e) as [e He].
  { unfold completions_body.
    destruct (extract_session_from_request _ _ _) as [[[sid uid] inferred]|e];
      [|by eexists].
    cbn [mbind result_bind]. rewrite (get_or_lookup _ _ _ _ Hmsgs).
    destruct (analyze_conversation_context _) as [ctx|e]; [|by eexists].
    cbn [mbind result_bind].
    apply last_Some in Hlast as [init ->].
    assert (truthy (PList (init ++ [m])) = true) as -> by (by destruct init).
    cbn [negb iterate mbind result_bind]. rewrite rev_app_distr. cbn [rev app].
    destruct m; try discriminate; by eexists. }
  unfold chat_completions_with_streaming. by rewrite He.
Qed.

Lemma stray_last_message_is_refused_witness :
  chat_completions_with_streaming true answering_rag None (Ok None)
    stray_text_request [] noon
  = Ok (completions_error noon).
Proof.
  apply (stray_last_message_is_refused true answering_rag None (Ok None)
           stray_text_request [] noon
           [user_message "hello world!!"; PStr "and one more thing"]
           (PStr "and one more thing")); by_evaluation.
Defined.

(** What an answer of the [try] body is made of. *)
Lemma completions_body_parts (available : bool)
    (rag : pyval -> pyval -> pyval -> result string)
    (generator : option (pyval -> pyval -> pyval -> result string))
    (recent : result (option string))
    (request_data : gmap string pyval) (headers : list (string * string)) (w : World)
    (r : http_response) :
  completions_body available rag generator recent request_data headers w = Ok r ->
  ∃ sid uid inferred,
    extract_session_from_request request_data (Some headers) w = Ok (sid, uid, inferred)
    ∧ match r with
      | Json body =>
          session_id body = Some sid ∧ error body = None
          ∧ ∃ user_text,
              usage body = (Z.max 1 (Str.len user_text / 4),
                            Z.max 1 (Str.len (content body) / 4),
                            Z.max 2 ((Str.len user_text + Str.len (content body)) / 4))
      | StreamingResponse _ _ x_session_id => sid = PStr x_session_id
      end.
Proof.
  unfold completions_body. intros Hbody.
  apply bind_ok in Hbody as ([[sid uid] inferred] & Hextract & Hbody).
  exists sid, uid, inferred. split; [done|].
  apply bind_ok in Hbody as (ctx & _ & Hbody).
  apply bind_ok in Hbody as (items & _ & Hbody).
  apply bind_ok in Hbody as (msg & _ & Hbody).
  apply bind_ok in Hbody as (? & _ & Hbody).
  apply bind_ok in Hbody as (text & _ & Hbody).
  destruct (truthy (get_or request_data "stream" (PBool false))).
  - destruct sid; try discriminate. by injection Hbody as <-.
  - apply bind_ok in Hbody as (both & Hboth & Hbody). injection Hbody as <-.
    cbn [session_id error usage content]. split; [done|]. split; [done|].
    destruct msg as [| | |s| |]; try discriminate. injection Hboth as <-.
    exists s. by rewrite len_append.
Qed.

(** X9.  The session id a completion reports is the one the resolver
    returned for the request: in the [session_id] field of a JSON answer that
    is not the apology, and in the [X-Session-ID] header of a stream. *)
Theorem completion_reports_resolved_session (available : bool)
    (rag : pyval -> pyval -> pyval -> result string)
    (generator : option (pyval -> pyval -> pyval -> result string))
    (recent : result (option string))
    (request_data : gmap string pyval) (headers : list (string * string)) (w : World)
    (r : http_response) :
  chat_completions_with_streaming available rag generator recent request_data headers w
  = Ok r ->
  match r with
  | Json body =>
      error body = None ->
      ∃ sid uid inferred,
        extract_session_from_request request_data (Some headers) w = Ok (sid, uid, inferred)
        ∧ session_id body = Some sid
  | StreamingResponse _ _ x_session_id =>
      ∃ uid inferred,
        extract_session_from_request request_data (Some headers) w
        = Ok (PStr x_session_id, uid, inferred)
  end.
Proof.
  unfold chat_completions_with_streaming.
  destruct (completions_body _ _ _ _ _ _ _) as [r'|e] eqn:Hbody; cbn [try_except].
  - intros [= <-].
    apply completions_body_parts in Hbody as (sid & uid & inferred & Hextract & Hr).
    destruct r' as [body|text model x].
    + intros _. exists sid, uid, inferred. by destruct Hr as (? & _).
    + subst sid. by exists uid, inferred.
  - intros [= <-]. discriminate.
Qed.

Lemma completion_reports_resolved_session_witness :
  ∃ uid inferred,
    extract_session_from_request
      (<["stream" := PBool true]> essence_request) (Some [("host", "intranest")]) noon
    = Ok (PStr "conv_bob_6b52eecd", uid, inferred).
Proof.
  apply (completion_reports_resolved_session true answering_rag None (Ok None)
           (<["stream" := PBool true]> essence_request) [("host", "intranest")] noon
           (StreamingResponse "TCS is the transit cyber security programme."
              (PStr "IntraNest-AI") "conv_bob_6b52eecd")).
  by_evaluation.
Defined.

(** X10.  In a JSON answer that is not the apology the usage counts are at
    least 1, 1 and 2, and the total differs from the sum of the other two by
    at most one. *)
Theorem usage_counts_are_consistent (available : bool)
    (rag : pyval -> pyval -> pyval -> result string)
    (generator : option (pyval -> pyval -> pyval -> result string))
    (recent : result (option string))
    (request_data : gmap string pyval) (headers : list (string * string)) (w : World)
    (body : completion) (prompt_tokens completion_tokens total_tokens : Z) :
  chat_completions_with_streaming available rag generator recent request_data headers w
  = Ok (Json body) ->
  error body = None ->
  usage body = (prompt_tokens, completion_tokens, total_tokens) ->
  1 <= prompt_tokens ∧ 1 <= completion_tokens ∧ 2 <= total_tokens
  ∧ prompt_tokens + completion_tokens - 1 <= total_tokens
    <= prompt_tokens + completion_tokens + 1.
Proof.
  unfold chat_completions_with_streaming.
  destruct (completions_body _ _ _ _ _ _ _) as [r'|e] eqn:Hbody; cbn [try_except].
  - intros [= ->].
    apply completions_body_parts in Hbody as (sid & uid & inferred & _ & _ & _ & s & Husage).
    intros _. rewrite Husage. intros [= <- <- <-].
    pose proof (Zle_0_nat (String.length s)) as Hs.
    pose proof (Zle_0_nat (String.length (content body))) as Hc.
    unfold Str.len. div_mod_lia.
  - intros [= <-]. discriminate.
Qed.

Lemma usage_counts_are_consistent_witness :
  1 <= 3 ∧ 1 <= 11 ∧ 2 <= 14 ∧ 3 + 11 - 1 <= 14 <= 3 + 11 + 1.
Proof.
  apply (usage_counts_are_consistent true answering_rag None (Ok None)
           essence_request [("host", "intranest")] noon
           {| id := "chatcmpl-1793795400-01234567";
              object := "chat.completion";
              created := 1793795400;
              model := PStr "IntraNest-AI";
              role := "assistant";
              content := "TCS is the transit cyber security programme.";
              finish_reason := "stop";
              usage := (3, 11, 14);
              session_id := Some (PStr "conv_bob_6b52eecd");
              error := None |}); by_evaluation.
Defined.

(** X11.  The handler reaches the conversational service with the resolved
    session id only: two services that agree on that session id lead to the
    same answer.  The session id the content generator would make up for a
    missing one is never used here. *)
Theorem service_sees_resolved_session (available : bool)
    (rag1 rag2 : pyval -> pyval -> pyval -> result string)
    (generator : option (pyval -> pyval -> pyval -> result string))
    (recent : result (option string))
    (request_data : gmap string pyval) (headers : list (string * string)) (w : World)
    (sid uid : pyval) (inferred : bool) :
  extract_session_from_request request_data (Some headers) w = Ok (sid, uid, inferred) ->
  (∀ user_text user_id, rag1 user_text user_id sid = rag2 user_text user_id sid) ->
  chat_completions_with_streaming available rag1 generator recent request_data headers w
  = chat_completions_with_streaming available rag2 generator recent request_data headers w.
Proof.
  intros Hextract Hagree. unfold chat_completions_with_streaming. f_equal.
  unfold completions_body. rewrite Hextract. cbn [mbind result_bind].
  destruct (resolve_outcome _ _ _ _ _ _ Hextract) as [Hsid _].
  apply bind_ext. intros ctx. apply bind_ext. intros items.
  apply bind_ext. intros msg. apply bind_ext. intros _.
  assert (∀ user_id model,
            generate_conversational_content available rag1 generator msg user_id sid model w
            = generate_conversational_content available rag2 generator msg user_id sid model w)
    as Hgen.
  { intros user_id model. unfold generate_conversational_content.
    destruct (negb available); [done|]. by rewrite Hsid, Hagree. }
  destruct available; [by rewrite Hgen | done].
Qed.

Lemma service_sees_resolved_session_witness :
  chat_completions_with_streaming true answering_rag None (Ok None)
    essence_request [] noon
  = chat_completions_with_streaming true
      (fun user_text user_id session =>
         if is_str session "conv_bob_6b52eecd" then answering_rag user_text user_id session
         else Raise (ServiceError "unknown session"))
      None (Ok None) essence_request [] noon.
Proof.
  apply (service_sees_resolved_session true answering_rag _ None (Ok None)
           essence_request [] noon (PStr "conv_bob_6b52eecd") (PStr "bob") true).
  - by_evaluation.
  - reflexivity.
Defined.

(** ** Splitting, joining and the token stream *)

Lemma append_cons (x : ascii) (a b : string) : String x a +:+ b = String x (a +:+ b).
Proof. reflexivity. Qed.

Lemma append_nil_l (a : string) : EmptyString +:+ a = a.
Proof. reflexivity. Qed.

Lemma append_assoc (a b c : string) : (a +:+ b) +:+ c = a +:+ (b +:+ c).
Proof. induction a as [|x a IH]; [done|]. by rewrite !append_cons, IH. Qed.

Lemma append_nil_r (a : string) : a +:+ EmptyString = a.
Proof. induction a as [|x a IH]; [done|]. by rewrite append_cons, IH. Qed.

Lemma prefix_drop (sep s : string) :
  String.prefix sep s = true -> s = sep +:+ Text.drop (String.length sep) s.
Proof.
  revert s. induction sep as [|c sep IH]; intros s; [done|].
  destruct s as [|c' s]; [discriminate|]. cbn [String.prefix].
  destruct (ascii_dec c c') as [->|]; [|discriminate].
  intros Hprefix. cbn [String.length Text.drop]. by rewrite append_cons, <- IH.
Qed.

Lemma drop_length (n : nat) (s : string) :
  (String.length (Text.drop n s) <= String.length s)%nat.
Proof.
  revert s. induction n as [|n IH]; intros [|c s]; cbn; try lia.
  specialize (IH s). lia.
Qed.

Lemma split_on_go_skip (sep s : string) (skip : nat) (cur : string) :
  Text.split_on_go sep s skip cur = Text.split_on_go sep (Text.drop skip s) 0 cur.
Proof.
  revert skip. induction s as [|c s IH]; intros [|k]; try done. cbn [Text.split_on_go Text.drop].
  apply IH.
Qed.

Lemma split_on_go_nonempty (sep s : string) (skip : nat) (cur : string) :
  Text.split_on_go sep s skip cur ≠ [].
Proof.
  revert skip cur. induction s as [|c s IH]; intros skip cur; [done|].
  cbn [Text.split_on_go]. destruct skip; [|apply IH].
  destruct (String.prefix sep (String c s)); [done | apply IH].
Qed.

Lemma join_cons (sep x : string) (parts : list string) :
  parts ≠ [] -> Str.join sep (x :: parts) = x +:+ sep +:+ Str.join sep parts.
Proof. by destruct parts. Qed.

Lemma split_on_go_join (sep : string) (n : nat) (s cur : string) :
  sep ≠ EmptyString ->
  (String.length s <= n)%nat ->
  Str.join sep (Text.split_on_go sep s 0 cur) = cur +:+ s.
Proof.
  intros Hsep. revert s cur. induction n as [|n IH]; intros s cur Hlen.
  - destruct s; [cbn [Text.split_on_go Str.join]; by rewrite append_nil_r | cbn in Hlen; lia].
  - destruct s as [|c s]; [cbn [Text.split_on_go Str.join]; by rewrite append_nil_r|].
    cbn [Text.split_on_go].
    destruct (String.prefix sep (String c s)) eqn:Hprefix.
    + rewrite split_on_go_skip, join_cons by apply split_on_go_nonempty.
      destruct sep as [|c0 sep]; [done|].
      cbn [String.length Nat.sub]. rewrite Nat.sub_0_r.
      rewrite IH.
      * rewrite append_nil_l. f_equal. apply prefix_drop in Hprefix.
        cbn [String.length Text.drop] in Hprefix. by rewrite <- Hprefix.
      * pose proof (drop_length (String.length sep) s). cbn in Hlen. lia.
    + rewrite IH by (cbn in Hlen; lia). by rewrite append_assoc.
Qed.

(** Splitting at a non-empty separator and joining with the same
    separator gives the text back. *)
Theorem split_join_round_trip (sep s : string) :
  sep ≠ EmptyString -> Str.join sep (Text.split_on sep s) = s.
Proof.
  intros Hsep. unfold Text.split_on.
  by rewrite (split_on_go_join sep (String.length s)).
Qed.

Lemma split_join_round_trip_witness :
  Str.join ". " (Text.split_on ". " "One. Two. Three") = "One. Two. Three".
Proof. apply (split_join_round_trip ". " "One. Two. Three"). discriminate. Defined.

Lemma concat_spaced (word : string) (rest : list string) :
  word +:+ Text.concat (map (fun w => " " +:+ w) rest) = Str.join " " (word :: rest).
Proof.
  revert word. induction rest as [|w rest IH]; intros word.
  - cbn [map Text.concat Str.join]. apply append_nil_r.
  - rewrite join_cons by done. cbn [map Text.concat]. by rewrite append_assoc, <- IH.
Qed.

Lemma concat_sentence_tokens (i : nat) (words : list string) :
  words ≠ [] ->
  Text.concat (sentence_tokens i words)
  = (if Nat.eqb i 0 then EmptyString else " ") +:+ Str.join " " words.
Proof.
  destruct words as [|word rest]; [done|]. intros _.
  cbn [sentence_tokens Text.concat].
  destruct (Nat.eqb i 0); rewrite ?append_nil_l, ?append_assoc; by rewrite concat_spaced.
Qed.

Lemma concat_app (l1 l2 : list string) :
  Text.concat (l1 ++ l2)%list = Text.concat l1 +:+ Text.concat l2.
Proof.
  induction l1 as [|x l1 IH]; [done|]. cbn [app Text.concat]. by rewrite IH, append_assoc.
Qed.

Lemma concat_tokens_from (i : nat) (sentences : list string) :
  sentences ≠ [] ->
  Text.concat (tokens_from i sentences)
  = (if Nat.eqb i 0 then EmptyString else " ") +:+ Str.join ".  " sentences.
Proof.
  revert i. induction sentences as [|sentence rest IH]; intros i; [done|]. intros _.
  destruct rest as [|next rest].
  - cbn [tokens_from Str.join]. unfold Text.split_on.
    rewrite concat_sentence_tokens by apply split_on_go_nonempty.
    fold (Text.split_on " " sentence). by rewrite split_join_round_trip.
  - change (tokens_from i (sentence :: next :: rest))
      with (sentence_tokens i (Text.split_on " " (sentence +:+ ". "))
            ++ tokens_from (S i) (next :: rest))%list.
    rewrite concat_app, IH by done. unfold Text.split_on at 1.
    rewrite concat_sentence_tokens by apply split_on_go_nonempty.
    fold (Text.split_on " " (sentence +:+ ". ")). rewrite split_join_round_trip by done.
    rewrite (join_cons ".  " sentence (next :: rest)) by done.
    cbn [Nat.eqb]. rewrite !append_assoc. reflexivity.
Qed.

(** X12.  The tokens of a text, put together, are its sentences (the pieces
    between the occurrences of ". ") joined by a full stop and two spaces:
    streaming widens every sentence break by one space. *)
Theorem tokens_widen_sentence_breaks (text : string) :
  Text.concat (generate_tokens text) = Str.join ".  " (Text.split_on ". " text).
Proof.
  unfold generate_tokens, Text.split_on.
  by rewrite concat_tokens_from by apply split_on_go_nonempty.
Qed.

Lemma split_on_go_absent (sep s cur : string) :
  Str.contains sep s = false -> Text.split_on_go sep s 0 cur = [cur +:+ s].
Proof.
  revert cur. induction s as [|c s IH]; intros cur.
  - intros _. cbn [Text.split_on_go]. by rewrite append_nil_r.
  - cbn [Str.contains Text.split_on_go]. intros [Hprefix Hrest]%orb_false_iff.
    rewrite Hprefix, IH by done. by rewrite append_assoc.
Qed.

(** X13.  A text in which no full stop is followed by a space streams
    faithfully: its tokens, put together, are the text. *)
Theorem single_sentence_streams_faithfully (text : string) :
  Str.contains ". " text = false -> Text.concat (generate_tokens text) = text.
Proof.
  intros Habsent. rewrite tokens_widen_sentence_breaks. unfold Text.split_on.
  by rewrite split_on_go_absent.
Qed.

Lemma single_sentence_streams_faithfully_witness :
  Text.concat (generate_tokens "TCS is the transit cyber security programme.")
  = "TCS is the transit cyber security programme.".
Proof.
  apply (single_sentence_streams_faithfully "TCS is the transit cyber security programme.").
  by_evaluation.
Defined.

(** ** Cleaning conversational text *)

Lemma all_chars_impl (P Q : ascii -> bool) (s : string) :
  (∀ c, P c = true -> Q c = true) -> all_chars P s = true -> all_chars Q s = true.
Proof.
  intros HPQ. induction s as [|c s IH]; [done|]. cbn [all_chars].
  intros [Hc Hs]%andb_true_iff. by rewrite (HPQ c Hc), IH.
Qed.

Lemma all_chars_and (P Q : ascii -> bool) (s : string) :
  all_chars P s = true -> all_chars Q s = true ->
  all_chars (fun c => P c && Q c) s = true.
Proof.
  induction s as [|c s IH]; [done|]. cbn [all_chars].
  intros [Hc Hs]%andb_true_iff [Hc' Hs']%andb_true_iff. by rewrite Hc, Hc', IH.
Qed.

Lemma all_chars_lstrip (P : ascii -> bool) (s : string) :
  all_chars P s = true -> all_chars P (Str.lstrip s) = true.
Proof.
  induction s as [|c s IH]; [done|]. cbn [Str.lstrip].
  destruct (Str.isspace c); [|done]. cbn [all_chars]. intros [_ Hs]%andb_true_iff. by apply IH.
Qed.

Lemma all_chars_rstrip (P : ascii -> bool) (s : string) :
  all_chars P s = true -> all_chars P (Str.rstrip s) = true.
Proof.
  induction s as [|c s IH]; [done|]. cbn [Str.rstrip all_chars].
  intros [Hc Hs]%andb_true_iff. destruct (_ && _); [done|].
  cbn [all_chars]. by rewrite Hc, IH.
Qed.

Lemma all_chars_strip (P : ascii -> bool) (s : string) :
  all_chars P s = true -> all_chars P (Str.strip s) = true.
Proof. intros Hs. by apply all_chars_rstrip, all_chars_lstrip. Qed.

Lemma all_chars_collapse (in_run : bool) (s : string) :
  all_chars plain_space_only (Text.collapse_spaces in_run s) = true.
Proof.
  revert in_run. induction s as [|c s IH]; intros in_run; [done|].
  cbn [Text.collapse_spaces]. destruct (Str.isspace c) eqn:Hc.
  - destruct in_run; [apply IH|]. cbn [all_chars]. by rewrite IH.
  - cbn [all_chars]. unfold plain_space_only at 1. by rewrite Hc, IH.
Qed.

Lemma all_chars_keep (P : ascii -> bool) (s : string) :
  all_chars P (Text.keep P s) = true.
Proof.
  induction s as [|c s IH]; [done|]. cbn [Text.keep].
  destruct (P c) eqn:Hc; [|done]. cbn [all_chars]. by rewrite Hc, IH.
Qed.

Lemma all_chars_keep_other (P Q : ascii -> bool) (s : string) :
  all_chars Q s = true -> all_chars Q (Text.keep P s) = true.
Proof.
  induction s as [|c s IH]; [done|]. cbn [Text.keep all_chars].
  intros [Hc Hs]%andb_true_iff. destruct (P c); [|by apply IH].
  cbn [all_chars]. by rewrite Hc, IH.
Qed.

Lemma replace_class_absent (class : ascii -> bool) (repl : ascii) (s : string) :
  all_chars (fun c => negb (class c)) s = true -> Text.replace_class class repl s = s.
Proof.
  induction s as [|c s IH]; [done|]. cbn [all_chars Text.replace_class].
  intros [Hc Hs]%andb_true_iff. apply negb_true_iff in Hc. by rewrite Hc, IH.
Qed.

(** A character of the kept class that is no odd whitespace is a clean
    character, and no clean character is a quote. *)
Lemma basic_plain_is_clean (c : ascii) :
  basic_char c && plain_space_only c = true -> clean_char c = true.
Proof. destruct c as [[] [] [] [] [] [] [] []]; vm_compute; done. Qed.

Lemma clean_is_no_quote (c : ascii) : clean_char c = true -> negb (quote_char c) = true.
Proof. destruct c as [[] [] [] [] [] [] [] []]; vm_compute; done. Qed.

Lemma lstrip_head (s : string) :
  Str.lstrip s = EmptyString
  ∨ ∃ c t, Str.lstrip s = String c t ∧ Str.isspace c = false.
Proof.
  induction s as [|c s IH]; [by left|]. cbn [Str.lstrip].
  destruct (Str.isspace c) eqn:Hc; [done|]. right. by exists c, s.
Qed.

Lemma rstrip_idempotent (s : string) : Str.rstrip (Str.rstrip s) = Str.rstrip s.
Proof.
  induction s as [|c s IH]; [done|]. cbn [Str.rstrip].
  destruct (Str.isspace c && Str.is_empty (Str.rstrip s)) eqn:Hc; [done|].
  cbn [Str.rstrip]. by rewrite IH, Hc.
Qed.

Lemma rstrip_cons_nonspace (c : ascii) (t : string) :
  Str.isspace c = false -> Str.rstrip (String c t) = String c (Str.rstrip t).
Proof. intros Hc. cbn [Str.rstrip]. by rewrite Hc. Qed.

(** Trimming twice is trimming once. *)
Lemma strip_idempotent (s : string) : Str.strip (Str.strip s) = Str.strip s.
Proof.
  unfold Str.strip. destruct (lstrip_head s) as [-> | (c & t & -> & Hc)]; [done|].
  rewrite (rstrip_cons_nonspace c t Hc). cbn [Str.lstrip]. rewrite Hc.
  by rewrite (rstrip_cons_nonspace c _ Hc), rstrip_idempotent.
Qed.

(** X14.  A cleaned text consists of word characters, plain spaces and the
    marks [. , ! ? -] only, and has no whitespace at either end; no quote
    survives the second substitution, so the third one, which normalises
    quotes, never changes anything. *)
Theorem cleaned_text_shape (text : string) :
  all_chars clean_char (clean_conversational_text text) = true
  ∧ Str.strip (clean_conversational_text text) = clean_conversational_text text
  ∧ clean_conversational_text text
    = Str.strip (Text.keep basic_char (Text.collapse_spaces false text)).
Proof.
  unfold clean_conversational_text. cbv zeta.
  set (kept := Text.keep basic_char (Text.collapse_spaces false text)).
  assert (all_chars clean_char kept = true) as Hkept.
  { apply (all_chars_impl (fun c => basic_char c && plain_space_only c));
      [apply basic_plain_is_clean|].
    apply all_chars_and; [apply all_chars_keep|].
    apply all_chars_keep_other, all_chars_collapse. }
  assert (Text.replace_class quote_char Repr.dquote kept = kept) as ->.
  { apply replace_class_absent.
    by apply (all_chars_impl clean_char); [apply clean_is_no_quote|]. }
  split; [by apply all_chars_strip|]. split; [apply strip_idempotent | done].
Qed.

(** ** Similarity of texts *)

Lemma intersection_in_union (a b : gset string) : a ∩ b ⊆ a ∪ b.
Proof. etrans; [apply intersection_subseteq_l | apply union_subseteq_l]. Qed.

Lemma similarity_cases (text1 text2 : string) :
  (calculate_text_similarity text1 text2 = 0%Q
   ∧ (word_set text1 = ∅ ∨ word_set text2 = ∅))
  ∨ (calculate_text_similarity text1 text2
     = (Z.of_nat (size (word_set text1 ∩ word_set text2))
        # Pos.of_nat (size (word_set text1 ∪ word_set text2)))%Q
     ∧ word_set text1 ≠ ∅ ∧ word_set text2 ≠ ∅
     ∧ Zpos (Pos.of_nat (size (word_set text1 ∪ word_set text2)))
       = Z.of_nat (size (word_set text1 ∪ word_set text2))
     ∧ (0 < size (word_set text1 ∪ word_set text2))%nat).
Proof.
  unfold calculate_text_similarity. cbv zeta.
  destruct (decide (word_set text1 = ∅)) as [H1|H1].
  { left. rewrite (bool_decide_eq_true_2 _ H1). cbn [orb]. split; [done | by left]. }
  destruct (decide (word_set text2 = ∅)) as [H2|H2].
  { left. rewrite (bool_decide_eq_true_2 _ H2), orb_true_r. split; [done | by right]. }
  right. rewrite (bool_decide_eq_false_2 _ H1), (bool_decide_eq_false_2 _ H2). cbn [orb].
  assert (word_set text1 ∪ word_set text2 ≠ ∅) as Hunion.
  { intros Hu. apply empty_union_L in Hu. tauto. }
  rewrite (bool_decide_eq_false_2 _ Hunion).
  assert (size (word_set text1 ∪ word_set text2) ≠ 0%nat) as Hsize.
  { intros Hzero. apply size_empty_inv in Hzero. apply Hunion. by apply leibniz_equiv. }
  repeat split; [done | done | | lia].
  rewrite <- positive_nat_Z, Nat2Pos.id by done. done.
Qed.

(** X15.  The similarity of two texts does not depend on their order, lies
    between 0 and 1, and is 1 exactly when both texts have the same,
    non-empty, set of lowercased words. *)
Theorem similarity_is_symmetric_and_bounded (text1 text2 : string) :
  calculate_text_similarity text1 text2 = calculate_text_similarity text2 text1
  ∧ (0 <= calculate_text_similarity text1 text2 <= 1)%Q
  ∧ ((calculate_text_similarity text1 text2 == 1)%Q
     ↔ word_set text1 = word_set text2 ∧ word_set text1 ≠ ∅).
Proof.
  split; [|split].
  - unfold calculate_text_similarity. cbv zeta.
    rewrite (orb_comm (bool_decide (word_set text1 = ∅))).
    assert (word_set text1 ∩ word_set text2 = word_set text2 ∩ word_set text1) as ->
      by apply (comm_L _).
    assert (word_set text1 ∪ word_set text2 = word_set text2 ∪ word_set text1) as ->
      by apply (comm_L _).
    done.
  - destruct (similarity_cases text1 text2) as [[-> _] | (-> & _ & _ & Hpos & _)].
    + split; discriminate.
    + pose proof (subseteq_size _ _ (intersection_in_union (word_set text1) (word_set text2))).
      unfold Qle. cbn [Qnum Qden]. rewrite Hpos. lia.
  - destruct (similarity_cases text1 text2)
      as [[-> Hempty] | (-> & H1 & H2 & Hpos & Hsize)].
    + split; [discriminate|]. intros [Heq Hne]. destruct Hempty; congruence.
    + unfold Qeq. cbn [Qnum Qden]. rewrite Hpos. split.
      * intros Heq. split; [|done].
        assert (word_set text1 ∩ word_set text2 = word_set text1 ∪ word_set text2) as Hsame.
        { apply set_subseteq_size_eq; [apply intersection_in_union | lia]. }
        apply (anti_symm (⊆)).
        -- etrans; [apply (union_subseteq_l _ (word_set text2))|].
           rewrite <- Hsame. apply intersection_subseteq_r.
        -- etrans; [apply (union_subseteq_r (word_set text1))|].
           rewrite <- Hsame. apply intersection_subseteq_l.
      * intros [Heq _]. rewrite <- Heq.
        assert (word_set text1 ∩ word_set text1 = word_set text1) as -> by apply (idemp_L _).
        assert (word_set text1 ∪ word_set text1 = word_set text1) as -> by apply (idemp_L _).
        lia.
Qed.

(** ** Topics and intents *)

(** X16.  A topic that [extract_topic] returns is the trimmed answer of the
    model, has more than two characters and no whitespace at either end; the
    model is asked exactly once, also when no topic comes back. *)
Theorem extracted_topic_is_trimmed (openai : string -> result string) (text : string) :
  snd (extract_topic openai text) = [topic_prompt text]
  ∧ ∀ topic, fst (extract_topic openai text) = Some topic ->
      2 < Str.len topic
      ∧ Str.strip topic = topic
      ∧ ∃ answer, openai (topic_prompt text) = Ok answer ∧ topic = Str.strip answer.
Proof.
  unfold extract_topic. cbv zeta.
  destruct (openai (topic_prompt text)) as [answer|e]; cbn [fst snd]; split; try done.
  intros topic. destruct (2 <? Str.len (Str.strip answer)) eqn:Hlen; [|discriminate].
  intros [= <-]. apply Z.ltb_lt in Hlen.
  split; [done|]. split; [apply strip_idempotent | by exists answer].
Qed.

Lemma prefix_append (n post : string) : String.prefix n (n +:+ post) = true.
Proof.
  induction n as [|c n IH]; [by destruct post|].
  rewrite append_cons. cbn [String.prefix]. by destruct (ascii_dec c c).
Qed.

(** [needle in hay] holds exactly when [hay] is some text, [needle], some
    text. *)
Lemma contains_spec (needle hay : string) :
  Str.contains needle hay = true ↔ ∃ pre post, hay = pre +:+ needle +:+ post.
Proof.
  split.
  - induction hay as [|c hay IH]; cbn [Str.contains].
    + rewrite orb_false_r. intros Hprefix. apply prefix_drop in Hprefix.
      by exists EmptyString, (Text.drop (String.length needle) EmptyString).
    + intros [Hprefix | Hrest]%orb_true_iff.
      * apply prefix_drop in Hprefix.
        by exists EmptyString, (Text.drop (String.length needle) (String c hay)).
      * destruct (IH Hrest) as (pre & post & ->). by exists (String c pre), post.
  - intros (pre & post & ->). induction pre as [|c pre IH].
    + rewrite append_nil_l. destruct (needle +:+ post) eqn:Happ; cbn [Str.contains];
        rewrite <- Happ, prefix_append; done.
    + rewrite append_cons. cbn [Str.contains]. by rewrite IH, orb_true_r.
Qed.

Lemma contains_trans (a b c : string) :
  Str.contains a b = true -> Str.contains b c = true -> Str.contains a c = true.
Proof.
  rewrite !contains_spec. intros (p1 & q1 & ->) (p2 & q2 & ->).
  exists (p2 +:+ p1), (q1 +:+ q2). by rewrite !append_assoc.
Qed.

Lemma split_go_words (s cur word : string) :
  word ∈ Str.split_go s cur -> ∃ pre post, cur +:+ s = pre +:+ word +:+ post.
Proof.
  revert cur. induction s as [|c s IH]; intros cur; cbn [Str.split_go].
  - destruct (Str.is_empty cur); [by intros ?%elem_of_nil|].
    intros ->%list_elem_of_singleton. exists EmptyString, EmptyString.
    by rewrite append_nil_l.
  - destruct (Str.isspace c).
    + destruct (Str.is_empty cur) eqn:Hcur.
      * destruct cur; [|discriminate]. intros (pre & post & Heq)%IH.
        rewrite append_nil_l in Heq. exists (String c pre), post.
        by rewrite append_nil_l, append_cons, <- Heq.
      * intros [-> | (pre & post & Heq)%IH]%elem_of_cons.
        -- exists EmptyString, (String c s). by rewrite append_nil_l.
        -- rewrite append_nil_l in Heq. exists (cur +:+ String c pre), post.
           by rewrite !append_assoc, append_cons, <- Heq.
    + intros (pre & post & Heq)%IH. exists pre, post. by rewrite <- Heq, append_assoc.
Qed.

(** Every word of [s.split()] occurs in [s]. *)
Lemma split_words_occur (s word : string) :
  word ∈ Str.split s -> Str.contains word s = true.
Proof.
  intros (pre & post & Heq)%split_go_words. rewrite append_nil_l in Heq.
  apply contains_spec. by exists pre, post.
Qed.

Lemma filter_all {A : Type} (P : A -> Prop) `{!∀ x, Decision (P x)} (l : list A) :
  Forall P l -> filter P l = l.
Proof.
  induction 1 as [|x l Hx _ IH]; [done|]. by rewrite filter_cons, decide_True, IH.
Qed.

(** X17.  A message that contains the previous topic, letter case aside, and
    matches no topic-change phrase is never taken for a change of topic. *)
Theorem repeated_topic_is_no_change (current_message previous_topic : string) :
  Str.contains (Str.lower previous_topic) (Str.lower current_message) = true ->
  (∀ indicator, indicator ∈ change_indicators ->
     Re.search indicator (Str.lower current_message) = false) ->
  detect_topic_change current_message (Some previous_topic) = false.
Proof.
  intros Hcontains Hquiet. unfold detect_topic_change.
  destruct (Str.is_empty previous_topic); [done|]. cbv zeta.
  rewrite (proj2 (any_pattern_false _ _) Hquiet).
  unfold topic_matches. rewrite filter_all.
  - destruct (0 <? _) eqn:Hcount; [|done]. apply Z.ltb_lt in Hcount.
    cbn [andb]. unfold below_0_3.
    destruct (_ <=? _) eqn:Hle; [|done]. apply Z.leb_le in Hle.
    change (2 ^ 55) with 36028797018963968 in Hle. lia.
  - apply Forall_forall. intros word Hword.
    by apply (contains_trans _ (Str.lower previous_topic)); [apply split_words_occur|].
Qed.

Lemma repeated_topic_is_no_change_witness :
  detect_topic_change "And who audits Transit Cyber Security today?"
    (Some "transit cyber security") = false.
Proof.
  apply (repeated_topic_is_no_change "And who audits Transit Cyber Security today?"
           "transit cyber security").
  - by_evaluation.
  - apply Forall_forall. unfold change_indicators.
    repeat (constructor; [by_evaluation|]). constructor.
Defined.

Lemma rule_based_none (table : list (ConversationIntent * list string)) (text : string) :
  rule_based table text = None
  ↔ Forall (fun group => any_pattern (snd group) text = false) table.
Proof.
  induction table as [|[intent patterns] rest IH]; cbn [rule_based].
  - split; [constructor | done].
  - rewrite Forall_cons. cbn [snd]. destruct (any_pattern patterns text).
    + split; [discriminate | by intros [? _]].
    + rewrite IH. split; [by split | by intros [_ ?]].
Qed.
Lemma rule_based_some (table : list (ConversationIntent * list string)) (text : string)
    (intent : ConversationIntent) :
  rule_based table text = Some intent -> intent ∈ map fst table.
Proof.
  induction table as [|[intent' patterns] rest IH]; cbn [rule_based map fst]; [done|].
  destruct (any_pattern patterns text).
  - intros [= <-]. apply elem_of_cons. by left.
  - intros Hrest. apply elem_of_cons. right. by apply IH.
Qed.

(** X18.  [classify_intent] asks the model exactly when no pattern of the
    table matches the lowercased text, and then once, with the prompt built
    from the text; an intent found without the model is never clarification
    or general. *)
Theorem model_is_asked_iff_no_rule (openai : string -> result string) (text : string) :
  (snd (classify_intent openai text) = []
   ∨ snd (classify_intent openai text) = [classification_prompt text])
  ∧ (snd (classify_intent openai text) = []
     ↔ ∃ intent patterns pattern,
         (intent, patterns) ∈ intent_patterns ∧ pattern ∈ patterns
         ∧ Re.search pattern (Str.lower text) = true)
  ∧ (snd (classify_intent openai text) = [] ->
     fst (classify_intent openai text) ≠ CLARIFICATION
     ∧ fst (classify_intent openai text) ≠ GENERAL).
Proof.
  unfold classify_intent. cbv zeta.
  destruct (rule_based intent_patterns (Str.lower text)) as [intent|] eqn:Hrule.
  - cbn [fst snd]. split; [by left|]. split.
    + split; [|done]. intros _.
      assert (¬ Forall (fun group => any_pattern (snd group) (Str.lower text) = false)
                intent_patterns) as Hnot.
      { intros Hall. apply rule_based_none in Hall. congruence. }
      apply not_Forall_Exists in Hnot; [|intros group; apply _].
      apply Exists_exists in Hnot as ([intent' patterns] & Hin & Hmatch).
      apply not_false_iff_true, any_pattern_true in Hmatch as (pattern & Hp & Hs).
      by exists intent', patterns, pattern.
    + intros _. apply rule_based_some in Hrule.
      change (map fst intent_patterns)
        with [DEFINITION; IMPROVEMENT; EXPANSION; EXPLANATION; SUMMARIZATION] in Hrule.
      rewrite !elem_of_cons, elem_of_nil in Hrule.
      split; intros ->; by destruct Hrule as [?|[?|[?|[?|[?|?]]]]].
  - assert (∀ (r : ConversationIntent * list string),
              snd r = [classification_prompt text] ->
              (snd r = [] ∨ snd r = [classification_prompt text])
              ∧ (snd r = [] ↔ ∃ intent patterns pattern,
                   (intent, patterns) ∈ intent_patterns ∧ pattern ∈ patterns
                   ∧ Re.search pattern (Str.lower text) = true)
              ∧ (snd r = [] -> fst r ≠ CLARIFICATION ∧ fst r ≠ GENERAL)) as Hasked.
    { intros r Hr. rewrite Hr. split; [by right|]. split; [|discriminate].
      split; [discriminate|]. intros (intent & patterns & pattern & Hin & Hp & Hs).
      apply rule_based_none in Hrule. rewrite Forall_forall in Hrule.
      specialize (Hrule _ Hin). cbn [snd] in Hrule.
      by rewrite (proj1 (any_pattern_false _ _) Hrule pattern Hp) in Hs. }
    destruct (openai (classification_prompt text)); by apply Hasked.
Qed.

(** ** The RAG endpoint *)

(** X19.  The RAG endpoint raises HTTP exceptions only; an answer reports
    success, repeats the query, and is given only for a non-empty query when
    the document service exists. *)
Theorem rag_endpoint_outcome
    (rag_service : option (string -> string -> Z -> result rag_answer))
    (recent_user : result (option string)) (request : RAGRequest) :
  match rag_chat_endpoint rag_service recent_user request with
  | Ok answer =>
      success answer = true ∧ rag_query answer = query request
      ∧ Str.is_empty (query request) = false ∧ is_Some rag_service
  | Raise e => ∃ status detail, e = HTTPException status detail
  end.
Proof.
  unfold rag_chat_endpoint.
  destruct (Str.is_empty (query request)); [cbn; by eexists _, _|].
  destruct rag_service as [generate|]; [|cbn; by eexists _, _].
  cbv zeta. destruct (generate _ _ _) as [answer|e]; cbn.
  - done.
  - destruct e; by eexists _, _.
Qed.

(** X20.  A request without a query is refused with status 400, before the
    document service is looked at; with a query but without the service the
    status is 503. *)
Theorem rag_endpoint_refusals
    (rag_service : option (string -> string -> Z -> result rag_answer))
    (recent_user : result (option string)) (request : RAGRequest) :
  Str.is_empty (query request) = true ∨ rag_service = None ->
  rag_chat_endpoint rag_service recent_user request
  = Raise (if Str.is_empty (query request)
           then HTTPException 400 "query is required"
           else HTTPException 503 "Document service not available").
Proof.
  unfold rag_chat_endpoint. intros [Hquery | ->].
  - by rewrite Hquery.
  - by destruct (Str.is_empty (query request)).
Qed.

Lemma rag_endpoint_refusals_witness :
  rag_chat_endpoint (Some echo_documents) (Ok None) empty_rag_request
  = Raise (if Str.is_empty (query empty_rag_request)
           then HTTPException 400 "query is required"
           else HTTPException 503 "Document service not available").
Proof.
  apply (rag_endpoint_refusals (Some echo_documents) (Ok None) empty_rag_request).
  left. reflexivity.
Defined.

(** X21.  When the document service fails on a request with a query, the
    endpoint raises status 500 with the text of the failure, except that an
    HTTP exception of the service passes through unchanged. *)
Theorem rag_service_failure (generate : string -> string -> Z -> result rag_answer)
    (recent_user : result (option string)) (request : RAGRequest) (e : exn) :
  Str.is_empty (query request) = false ->
  (∀ user_id, generate (query request) user_id (context_limit request) = Raise e) ->
  rag_chat_endpoint (Some generate) recent_user request
  = Raise (match e with
           | HTTPException _ _ => e
           | _ => HTTPException 500 (exn_str e)
           end).
Proof.
  intros Hquery Hfails. unfold rag_chat_endpoint. rewrite Hquery. cbv zeta.
  rewrite Hfails. by destruct e.
Qed.

Lemma rag_service_failure_witness :
  rag_chat_endpoint (Some failing_documents) (Ok None) named_rag_request
  = Raise (HTTPException 500 "weaviate is down").
Proof.
  apply (rag_service_failure failing_documents (Ok None) named_rag_request
           (ServiceError "weaviate is down")).
  - reflexivity.
  - intros user_id. reflexivity.
Defined.

(** X22.  For a user other than "anonymous" the endpoint does not depend on
    the recent documents: the detection of a user plays no part. *)
Theorem named_user_is_not_detected
    (rag_service : option (string -> string -> Z -> result rag_answer))
    (recent1 recent2 : result (option string)) (request : RAGRequest) :
  rag_user_id request ≠ "anonymous" ->
  rag_chat_endpoint rag_service recent1 request
  = rag_chat_endpoint rag_service recent2 request.
Proof.
  intros Hnamed. unfold rag_chat_endpoint.
  apply String.eqb_neq in Hnamed. by rewrite Hnamed.
Qed.

Lemma named_user_is_not_detected_witness :
  rag_chat_endpoint (Some echo_documents) (Ok (Some "dave")) named_rag_request
  = rag_chat_endpoint (Some echo_documents) (Raise (ServiceError "no client"))
      named_rag_request.
Proof.
  apply (named_user_is_not_detected (Some echo_documents) (Ok (Some "dave"))
           (Raise (ServiceError "no client")) named_rag_request).
  discriminate.
Defined.

(** X23.  An anonymous request is answered as the same request of the
    detected user. *)
Theorem anonymous_user_is_detected
    (rag_service : option (string -> string -> Z -> result rag_answer))
    (recent_user : result (option string)) (request : RAGRequest) :
  rag_user_id request = "anonymous" ->
  rag_chat_endpoint rag_service recent_user request
  = rag_chat_endpoint rag_service recent_user
      {| query := query request;
         rag_user_id := auto_detect_user_id recent_user;
         context_limit := context_limit request |}.
Proof.
  intros Hanonymous. unfold rag_chat_endpoint. cbn [query rag_user_id context_limit].
  rewrite Hanonymous. cbn [String.eqb Ascii.eqb Bool.eqb andb].
  change ("anonymous" =? "anonymous")%string with true. cbn [andb].
  by destruct (auto_detect_user_id recent_user =? "anonymous")%string eqn:Hdetected;
    cbn [negb andb]; [apply String.eqb_eq in Hdetected as ->|].
Qed.

Lemma anonymous_user_is_detected_witness :
  rag_chat_endpoint (Some echo_documents) (Ok (Some "dave")) anonymous_rag_request
  = rag_chat_endpoint (Some echo_documents) (Ok (Some "dave"))
      {| query := query anonymous_rag_request;
         rag_user_id := auto_detect_user_id (Ok (Some "dave"));
         context_limit := context_limit anonymous_rag_request |}.
Proof.
  apply (anonymous_user_is_detected (Some echo_documents) (Ok (Some "dave"))
           anonymous_rag_request).
  reflexivity.
Defined.

(** ** The debug endpoint *)

(** The resolver raises only from the scan of the messages. *)
Lemma resolve_raises (request_data : gmap string pyval)
    (headers : option (list (string * string))) (w : World) (e : exn) :
  extract_session_from_request request_data headers w = Raise e ->
  truthy (get_or request_data "messages" (PList [])) = true
  ∧ ((iterate (get_or request_data "messages" (PList [])) ≫= conversation_essence)
     : result string) = Raise e.
Proof.
  unfold extract_session_from_request. cbv zeta.
  destruct (truthy (get request_data "session_id")); [discriminate|].
  destruct (truthy (py_or _ (get request_data "conversationId"))); [discriminate|].
  destruct (truthy (get_or request_data "messages" (PList []))) eqn:Hmessages; cbn [andb].
  - destruct (truthy (get request_data "user")).
    + unfold conversation_intelligence, mbind.
      destruct (iterate _) as [items|e']; cbn [result_bind]; [|by intros [= <-]].
      destruct (conversation_essence items) as [essence|e']; cbn [result_bind];
        [|by intros [= <-]].
      by destruct (negb (Str.is_empty essence)).
    + intros Hlater. exfalso. revert Hlater. unfold headers_or_later, continuity_or_new.
      destruct headers as [[|h hs]|]; try by destruct (negb (is_str _ "anonymous")).
      destruct (scan_headers (h :: hs) None None) as [header_session header_user].
      destruct (truthy (header_val header_session)); [discriminate|].
      by destruct (negb (is_str _ "anonymous")).
  - intros Hlater. exfalso. revert Hlater. unfold headers_or_later, continuity_or_new.
    destruct headers as [[|h hs]|]; try by destruct (negb (is_str _ "anonymous")).
    destruct (scan_headers (h :: hs) None None) as [header_session header_user].
    destruct (truthy (header_val header_session)); [discriminate|].
    by destruct (negb (is_str _ "anonymous")).
Qed.

Lemma chars_length (s : string) : length (chars s) = String.length s.
Proof.
  unfold chars. rewrite length_map. induction s as [|c s IH]; [done|].
  cbn [list_ascii_of_string length String.length]. by rewrite IH.
Qed.

(** The analysis counts at most as many turns as [len] counts messages. *)
Lemma analysis_turns_bound (messages : pyval) (ctx : context) (count : Z) :
  analyze_conversation_context messages = Ok ctx ->
  len_method messages = Ok count ->
  0 <= turn_count ctx <= count.
Proof.
  unfold analyze_conversation_context.
  destruct (negb (truthy messages)).
  { intros [= <-] Hcount. cbn [turn_count].
    destruct messages; try discriminate; injection Hcount as <-; unfold Str.len; lia. }
  intros Hrun Hcount. apply bind_ok in Hrun as (items & Hitems & Hrun).
  apply bind_ok in Hrun as (ctx' & Hloop & Hrun). injection Hrun as <-.
  cbn [turn_count]. apply analyze_loop_invariant in Hloop as (-> & _).
  cbn [turn_count].
  assert (Z.of_nat (length items) = count) as <-.
  { destruct messages; try discriminate; injection Hitems as <-; injection Hcount as <-.
    - unfold Str.len. by rewrite chars_length.
    - done.
    - by rewrite length_map. }
  pose proof (length_filter (fun m => is_user_message m = true) items) as Hfilter.
  unfold user_turns. lia.
Qed.

(** X24.  A debug report carries the triple of the resolver, and its
    would-be-used flag is the availability flag: the test that the session id
    is not None never fails; the count of turns is at most the count of
    messages.  When the endpoint raises, the exception is that of the resolver,
    of the analysis or of taking the length of the messages. *)
Theorem debug_report_outcome (CONVERSATIONAL_RAG_AVAILABLE : bool)
    (request_data : gmap string pyval) (headers_dict : list (string * string))
    (w : World) :
  match debug_session_endpoint CONVERSATIONAL_RAG_AVAILABLE request_data headers_dict w with
  | Ok info =>
      extract_session_from_request request_data (Some headers_dict) w
      = Ok (extraction_result info)
      ∧ analyze_conversation_context (get_or request_data "messages" (PList []))
        = Ok (debug_context info)
      ∧ available info = CONVERSATIONAL_RAG_AVAILABLE
      ∧ would_be_used info = CONVERSATIONAL_RAG_AVAILABLE
      ∧ 0 <= turn_count (debug_context info) <= message_count info
  | Raise e =>
      extract_session_from_request request_data (Some headers_dict) w = Raise e
      ∨ analyze_conversation_context (get_or request_data "messages" (PList [])) = Raise e
      ∨ len_method (get_or request_data "messages" (PList [])) = Raise e
  end.
Proof.
  unfold debug_session_endpoint, mbind.
  destruct (extract_session_from_request request_data (Some headers_dict) w)
    as [[[sid uid] inferred]|e] eqn:Hresolve; cbn [result_bind]; [|by left].
  destruct (analyze_conversation_context _) as [ctx|e] eqn:Hanalysis;
    cbn [result_bind]; [|right; by left].
  destruct (len_method _) as [count|e] eqn:Hcount; cbn [result_bind];
    [|right; by right].
  cbn [extraction_result debug_context available would_be_used message_count].
  split; [done|]. split; [done|]. split; [done|]. split.
  - apply resolve_outcome in Hresolve as [Hsid _].
    destruct sid; try discriminate; by rewrite andb_true_r.
  - by apply (analysis_turns_bound _ _ _ Hanalysis Hcount).
Qed.

(** X25.  A body whose [messages] entry is null, a boolean or a number makes
    the debug endpoint raise a TypeError, whatever else the request
    holds. *)
Theorem unsized_messages_break_debug (CONVERSATIONAL_RAG_AVAILABLE : bool)
    (request_data : gmap string pyval) (headers_dict : list (string * string))
    (w : World) (v : pyval) :
  request_data !! "messages" = Some v ->
  unsized v = true ->
  ∃ msg, debug_session_endpoint CONVERSATIONAL_RAG_AVAILABLE request_data headers_dict w
         = Raise (TypeError msg).
Proof.
  intros Hlookup Hunsized. unfold debug_session_endpoint, mbind.
  destruct (extract_session_from_request request_data (Some headers_dict) w)
    as [[[sid uid] inferred]|e] eqn:Hresolve; cbn [result_bind].
  - rewrite (get_or_lookup _ _ _ _ Hlookup).
    destruct v as [| [|] | z | | |]; try discriminate; try by eexists.
    unfold analyze_conversation_context. cbn [truthy].
    destruct (z =? 0); cbn [negb iterate mbind result_bind]; by eexists.
  - apply resolve_raises in Hresolve as [_ Hscan].
    rewrite (get_or_lookup _ _ _ _ Hlookup) in Hscan.
    destruct v; try discriminate; cbn in Hscan; injection Hscan as <-; by eexists.
Qed.

Lemma unsized_messages_break_debug_witness :
  ∃ msg, debug_session_endpoint true null_messages_request [("host", "intranest")] noon
         = Raise (TypeError msg).
Proof.
  apply (unsized_messages_break_debug true null_messages_request
           [("host", "intranest")] noon PNone); reflexivity.
Defined.

(** ** Environment files *)

Lemma split_first_eq_spec (s key raw : string) :
  split_first_eq s = Some (key, raw) ->
  s = key +:+ "=" +:+ raw ∧ all_chars not_equals key = true.
Proof.
  revert key. induction s as [|c s IH]; intros key; cbn [split_first_eq]; [discriminate|].
  destruct (Ascii.eqb c "=") eqn:Hc.
  - intros [= <- <-]. by apply Ascii.eqb_eq in Hc as ->.
  - destruct (split_first_eq s) as [[k v]|]; [|discriminate]. intros [= <- <-].
    destruct (IH k eq_refl) as [Hs Hk]. split; [by rewrite append_cons, <- Hs|].
    cbn [all_chars]. unfold not_equals at 1. by rewrite Hc, Hk.
Qed.

Lemma split_first_eq_found (s : string) :
  Str.contains "=" s = true -> is_Some (split_first_eq s).
Proof.
  induction s as [|c s IH]; cbn [Str.contains split_first_eq String.prefix];
    [discriminate|].
  destruct (Ascii.eqb c "=") eqn:Hc; [by eexists|].
  destruct (ascii_dec "=" c) as [<- | _]; [discriminate|].
  cbn [orb]. intros [[k v] ->]%IH. by eexists.
Qed.

Lemma split_first_eq_append (key raw : string) :
  all_chars not_equals key = true ->
  split_first_eq (key +:+ "=" +:+ raw) = Some (key, raw).
Proof.
  induction key as [|c key IH]; [done|]. cbn [all_chars].
  intros [Hc Hkey]%andb_true_iff. rewrite append_cons. cbn [split_first_eq].
  unfold not_equals in Hc. apply negb_true_iff in Hc. by rewrite Hc, IH.
Qed.

Lemma lstrip_class_head (class : ascii -> bool) (s : string) :
  lstrip_class class s = EmptyString
  ∨ ∃ c t, lstrip_class class s = String c t ∧ class c = false.
Proof.
  induction s as [|c s IH]; [by left|]. cbn [lstrip_class].
  destruct (class c) eqn:Hc; [done|]. right. by exists c, s.
Qed.

Lemma rstrip_class_idempotent (class : ascii -> bool) (s : string) :
  rstrip_class class (rstrip_class class s) = rstrip_class class s.
Proof.
  induction s as [|c s IH]; [done|]. cbn [rstrip_class].
  destruct (class c && Str.is_empty (rstrip_class class s)) eqn:Hc; [done|].
  cbn [rstrip_class]. by rewrite IH, Hc.
Qed.

Lemma strip_class_idempotent (class : ascii -> bool) (s : string) :
  strip_class class (strip_class class s) = strip_class class s.
Proof.
  unfold strip_class. destruct (lstrip_class_head class s) as [-> | (c & t & -> & Hc)];
    [done|].
  assert (∀ u, rstrip_class class (String c u) = String c (rstrip_class class u)) as Hcons.
  { intros u. cbn [rstrip_class]. by rewrite Hc. }
  rewrite Hcons. cbn [lstrip_class]. rewrite Hc.
  by rewrite Hcons, rstrip_class_idempotent.
Qed.

Lemma rstrip_is_class (s : string) : Str.rstrip s = rstrip_class Str.isspace s.
Proof. induction s as [|c s IH]; [done|]. cbn [Str.rstrip rstrip_class]. by rewrite IH. Qed.

(** Trimming the right end of [a t] leaves [a] alone unless all of [t] goes. *)
Lemma rstrip_class_append (class : ascii -> bool) (a t : string) :
  rstrip_class class (a +:+ t)
  = if Str.is_empty (rstrip_class class t) then rstrip_class class a
    else a +:+ rstrip_class class t.
Proof.
  induction a as [|c a IH].
  - rewrite !append_nil_l. by destruct (rstrip_class class t).
  - rewrite append_cons. cbn [rstrip_class]. rewrite IH.
    destruct (Str.is_empty (rstrip_class class t)) eqn:Ht; [done|].
    rewrite append_cons.
    destruct (a +:+ rstrip_class class t) eqn:Happ; [|by rewrite andb_false_r].
    destruct a; [|by rewrite append_cons in Happ].
    rewrite append_nil_l in Happ. by rewrite Happ in Ht.
Qed.

(** X26.  What a line of the file means: an assignment gives as the name the
    text before the first equals sign of the trimmed line, and as the value
    the text after it without the quotes at its two ends; every other line is
    blank, a comment or without an equals sign. *)
Theorem env_line_meaning (line : string) :
  match parse_env_line line with
  | Some (key, value) =>
      all_chars not_equals key = true
      ∧ strip_class env_quote value = value
      ∧ ∃ raw, Str.strip line = key +:+ "=" +:+ raw ∧ value = strip_class env_quote raw
  | None =>
      Str.strip line = EmptyString
      ∨ startswith "#" (Str.strip line) = true
      ∨ Str.contains "=" (Str.strip line) = false
  end.
Proof.
  unfold parse_env_line. cbv zeta.
  destruct (Str.is_empty (Str.strip line)) eqn:Hblank.
  { left. by destruct (Str.strip line). }
  destruct (startswith "#" (Str.strip line)); [right; by left|].
  destruct (Str.contains "=" (Str.strip line)) eqn:Hsign; [|right; by right].
  cbn [negb andb].
  destruct (split_first_eq_found _ Hsign) as [[key raw] Hsplit]. rewrite Hsplit.
  apply split_first_eq_spec in Hsplit as [Hline Hkey].
  split; [done|]. split; [apply strip_class_idempotent | by exists raw].
Qed.

Lemma quote_is_no_space (q : ascii) : env_quote q = true -> Str.isspace q = false.
Proof.
  unfold env_quote. by intros [->%Ascii.eqb_eq | ->%Ascii.eqb_eq]%orb_true_iff.
Qed.

Lemma parse_env_name (key raw : string) :
  env_name key = true ->
  Str.rstrip (String "=" raw) = String "=" raw ->
  parse_env_line (key +:+ "=" +:+ raw) = Some (key, strip_class env_quote raw).
Proof.
  destruct key as [|c key]; [discriminate|]. cbn [env_name].
  intros [[Hspace Hcomment]%andb_true_iff Hkey]%andb_true_iff Hright.
  apply negb_true_iff in Hspace, Hcomment.
  unfold parse_env_line. cbv zeta.
  assert (Str.strip (String c key +:+ "=" +:+ raw) = String c key +:+ "=" +:+ raw) as ->.
  { unfold Str.strip. rewrite append_cons. cbn [Str.lstrip]. rewrite Hspace.
    rewrite <- append_cons, rstrip_is_class, rstrip_class_append.
    change ("=" +:+ raw) with (String "=" raw). rewrite <- rstrip_is_class, Hright.
    done. }
  rewrite split_first_eq_append by done.
  assert (Str.contains "=" (String c key +:+ "=" +:+ raw) = true) as ->.
  { apply contains_spec. by exists (String c key), raw. }
  rewrite append_cons. cbn [Str.is_empty negb andb startswith String.prefix].
  destruct (ascii_dec "#" c) as [<- | _]; [discriminate | done].
Qed.

(** X27.  A name, an equals sign and a value between two quote characters
    read back as that name and that value, when the value itself has no quote
    at either end; so does the unquoted line when the value does not end in
    whitespace. *)
Theorem env_line_round_trip (key value : string) (q : ascii) :
  env_name key = true ->
  strip_class env_quote value = value ->
  env_quote q = true ->
  parse_env_line (key +:+ "=" +:+ String q (value +:+ String q EmptyString))
  = Some (key, value)
  ∧ (Str.rstrip value = value -> parse_env_line (key +:+ "=" +:+ value) = Some (key, value)).
Proof.
  intros Hkey Hvalue Hq. split.
  - rewrite parse_env_name; [|done|].
    + f_equal. f_equal. unfold strip_class. cbn [lstrip_class]. rewrite Hq.
      unfold strip_class in Hvalue.
      destruct value as [|c value]; [rewrite append_nil_l; cbn [lstrip_class]; by rewrite Hq|].
      rewrite append_cons. cbn [lstrip_class] in Hvalue |- *.
      destruct (env_quote c) eqn:Hc.
      * exfalso. destruct (lstrip_class_head env_quote value) as [Hnil | (d & t & Hd & Hdq)].
        -- rewrite Hnil in Hvalue. discriminate.
        -- rewrite Hd in Hvalue. cbn [rstrip_class] in Hvalue. rewrite Hdq in Hvalue.
           cbn [andb] in Hvalue. injection Hvalue as -> Hrest.
           apply (f_equal String.length) in Hrest.
           assert (∀ u, (String.length (rstrip_class env_quote u) <= String.length u)%nat)
             as Hshort.
           { induction u as [|a u IH]; [done|]. cbn [rstrip_class].
             destruct (env_quote a && _); cbn [String.length]; lia. }
           assert (∀ u, (String.length (lstrip_class env_quote u) <= String.length u)%nat)
             as Hshort'.
           { induction u as [|a u IH]; [done|]. cbn [lstrip_class].
             destruct (env_quote a); cbn [String.length]; lia. }
           pose proof (Hshort t). pose proof (Hshort' value).
           rewrite Hd in *. cbn [String.length] in *. lia.
      * change (String c (value +:+ String q EmptyString))
          with (String c value +:+ String q EmptyString).
        rewrite rstrip_class_append. cbn [rstrip_class]. rewrite Hq.
        cbn [Str.is_empty andb]. done.
    + rewrite <- !append_cons, rstrip_is_class, rstrip_class_append.
      cbn [rstrip_class]. rewrite (quote_is_no_space q Hq). cbn [andb Str.is_empty].
      done.
  - intros Hright. rewrite parse_env_name; [by rewrite Hvalue|done|].
    cbn [Str.rstrip]. change (Str.isspace "=") with false. cbn [andb]. by rewrite Hright.
Qed.

Lemma env_line_round_trip_witness :
  parse_env_line ("REDIS_URL" +:+ "=" +:+ String Repr.squote
                    ("redis://cache:6379" +:+ String Repr.squote EmptyString))
  = Some ("REDIS_URL", "redis://cache:6379")
  ∧ (Str.rstrip "redis://cache:6379" = "redis://cache:6379" ->
     parse_env_line ("REDIS_URL" +:+ "=" +:+ "redis://cache:6379")
     = Some ("REDIS_URL", "redis://cache:6379")).
Proof.
  apply (env_line_round_trip "REDIS_URL" "redis://cache:6379" Repr.squote);
    reflexivity.
Defined.

Lemma load_env_lines_app (before after : list string) (environ : gmap string string) :
  load_env_lines (before ++ after)%list environ
  = match load_env_lines before environ with
    | inr environ' => load_env_lines after environ'
    | inl e => inl e
    end.
Proof.
  revert environ. induction before as [|line rest IH]; intros environ; [done|].
  cbn [app load_env_lines]. destruct (parse_env_line line) as [[key value]|]; [|apply IH].
  destruct (setenv key value environ); [done | apply IH].
Qed.

Lemma setenv_ok (key value : string) (environ environ' : gmap string string) :
  setenv key value environ = inr environ' -> environ' = <[key := value]> environ.
Proof.
  unfold setenv. destruct (has_nul key || has_nul value); [discriminate|].
  destruct (Str.is_empty key); [discriminate|]. by intros [= <-].
Qed.

(** X28.  Loading leaves every variable alone that no line assigns. *)
Theorem unassigned_names_are_kept (lines : list string)
    (environ environ' : gmap string string) (name : string) :
  load_env_lines lines environ = inr environ' ->
  Forall (fun line => assigns name line = false) lines ->
  environ' !! name = environ !! name.
Proof.
  revert environ. induction lines as [|line rest IH]; intros environ.
  - by intros [= <-] _.
  - cbn [load_env_lines]. intros Hload Hlines.
    apply Forall_cons in Hlines as [Hline Hrest]. unfold assigns in Hline.
    destruct (parse_env_line line) as [[key value]|]; [|by apply IH].
    destruct (setenv key value environ) as [e|environ1] eqn:Hset; [discriminate|].
    apply setenv_ok in Hset as ->. rewrite (IH _ Hload Hrest).
    apply lookup_insert_ne. by apply String.eqb_neq.
Qed.

Lemma unassigned_names_are_kept_witness :
  ({[ "CACHE_TTL" := "60"; "REDIS_URL" := "redis://localhost:6379";
      "HOME" := "/srv" ]} : gmap string string) !! "HOME"
  = ({[ "HOME" := "/srv" ]} : gmap string string) !! "HOME".
Proof.
  apply (unassigned_names_are_kept env_lines {[ "HOME" := "/srv" ]}).
  - by_evaluation.
  - unfold env_lines. repeat (constructor; [by_evaluation|]). constructor.
Defined.

(** X29.  The last line that assigns a variable decides its value. *)
Theorem last_assignment_wins (before after : list string) (line name value : string)
    (environ environ' : gmap string string) :
  load_env_lines (before ++ line :: after)%list environ = inr environ' ->
  parse_env_line line = Some (name, value) ->
  Forall (fun later => assigns name later = false) after ->
  environ' !! name = Some value.
Proof.
  rewrite load_env_lines_app. intros Hload Hline Hafter.
  destruct (load_env_lines before environ) as [e|environ1]; [discriminate|].
  cbn [load_env_lines] in Hload. rewrite Hline in Hload.
  destruct (setenv name value environ1) as [e|environ2] eqn:Hset; [discriminate|].
  apply setenv_ok in Hset as ->.
  assert (environ' !! name = <[name := value]> environ1 !! name) as ->.
  { revert Hload Hafter. generalize (<[name := value]> environ1). clear.
    induction after as [|later rest IH]; intros environ.
    - by intros [= <-] _.
    - cbn [load_env_lines]. intros Hload Hlines.
      apply Forall_cons in Hlines as [Hlater Hrest]. unfold assigns in Hlater.
      destruct (parse_env_line later) as [[key v]|]; [|by apply IH].
      destruct (setenv key v environ) as [e|environ1] eqn:Hset; [discriminate|].
      apply setenv_ok in Hset as ->. rewrite (IH _ Hload Hrest).
      apply lookup_insert_ne. by apply String.eqb_neq. }
  apply lookup_insert_eq.
Qed.

Lemma last_assignment_wins_witness :
  ({[ "CACHE_TTL" := "60"; "REDIS_URL" := "redis://localhost:6379" ]}
     : gmap string string) !! "REDIS_URL"
  = Some "redis://localhost:6379".
Proof.
  apply (last_assignment_wins
           ["# conversational settings"; "REDIS_URL=redis://cache:6379";
            "CACHE_TTL=60"; ""]
           [] "REDIS_URL='redis://localhost:6379'" "REDIS_URL"
           "redis://localhost:6379" ∅).
  - by_evaluation.
  - by_evaluation.
  - constructor.
Defined.

(** X30.  Loading fails exactly when some line assigns to an empty name or
    carries a NUL character in its name or value; whether it fails does not
    depend on the environment it starts from. *)
Theorem loading_fails_iff (lines : list string) (environ : gmap string string) :
  (∃ e, load_env_lines lines environ = inl e)
  ↔ Exists (fun line => refused_line line = true) lines.
Proof.
  revert environ. induction lines as [|line rest IH]; intros environ.
  - cbn [load_env_lines]. split; [by intros [e ?] | by intros ?%Exists_nil].
  - cbn [load_env_lines]. rewrite Exists_cons. unfold refused_line at 1.
    destruct (parse_env_line line) as [[key value]|].
    + unfold setenv.
      destruct (has_nul key || has_nul value); [split; [by left | by eexists]|].
      cbn [orb]. destruct (Str.is_empty key); [split; [by left | by eexists]|].
      rewrite IH. split; [by right | by intros [?|?]].
    + rewrite IH. split; [by right | by intros [?|?]].
Qed.
